(** * gainzapp: offline-resilient data access and synchronisation layer

    A shallow embedding of the rate limiter, the service-wake detector
    with its retry wrapper, the exercise cache and data-access layer, the
    preference synchronisation service and the routine migration,
    followed by the properties their specification states about them.

    The first part of the file holds the embedding, one module per source
    file; the second part holds the lemmas, one module per embedded
    module.

    Conventions shared by all modules.
    - JavaScript numbers that hold counters and epoch milliseconds are
      integers ([Z], or [nat] for a counter that only counts up); every
      reading of [Date.now()] / [new Date()] is an explicit argument or a
      reading of the world's clock.
    - [Map] objects and the AsyncStorage key-value store are finite maps
      ([gmap string _]).  AsyncStorage holds JSON text; a stored text is
      represented by the value [JSON.parse] yields for it, with a separate
      constructor for text the reading code cannot decode.  Each service
      sees the keys of its own namespace.  Reads and writes of
      AsyncStorage themselves succeed.
    - [null] / [undefined] results are [None]; a thrown value is an Error
      object.
    - Calls of the logger and the performance metrics change nothing the
      properties speak about and are left out. *)

From stdpp Require Import gmap strings list pretty.
From Stdlib Require Import ZArith Lia QArith Qround.

Open Scope Z_scope.

(* ===================================================================== *)
(** * JavaScript values shared by the modules                             *)
(* ===================================================================== *)

Module Js.

(** An [Error] object as the code inspects it: [name], [message], the
    [code] axios sets (for instance ECONNABORTED) and [response.status]. *)
Record JsError := mkJsError {
  name : string;
  message : string;
  code : option string;
  status : option Z
}.

(** [new Error(msg)] *)
Definition newError (msg : string) : JsError :=
  mkJsError "Error" msg None None.

(** [error.toString()] of an Error object. *)
Definition toString (e : JsError) : string :=
  if decide (name e = "") then message e
  else if decide (message e = "") then name e
  else name e +:+ ": " +:+ message e.

(** How an awaited call completes: it returns a value or throws. *)
Inductive Completion (A : Type) :=
| Returned (a : A)
| Thrown (e : JsError).
Arguments Returned {A} a.
Arguments Thrown {A} e.

(** [hay.includes(needle)] *)
Fixpoint includes (needle hay : string) : bool :=
  String.prefix needle hay ||
  match hay with
  | EmptyString => false
  | String _ rest => includes needle rest
  end.

(** [s.length] and [s.substring(0, n)].  JavaScript counts the UTF-16
    code units of the text, which a [string] here, holding the text in
    an encoding of its own, does not give; so the two builtins are taken
    from the platform, like [toLowerCase] and [parseInt] below.  With
    them comes the TypeError of a method call on [undefined] or [null],
    whose text is the engine's: [nullishError "undefined" "toLowerCase"]
    is what [undefined.toLowerCase()] throws. *)
Class JsString := {
  jsLength : string -> nat;
  jsSubstring0 : nat -> string -> string;
  nullishError : string -> string -> JsError
}.

(** What the code uses of the device and of the network.  [W] is the
    state of everything outside the program. *)
Class Platform (W : Type) := {
  (** [Date.now()] *)
  clock : W -> Z;
  (** [await new Promise(resolve => setTimeout(resolve, delay))] *)
  sleep : Q -> W -> W;
  (** [NetInfo.fetch()]: [Some (isConnected, isInternetReachable)], where
      the second component is [None] when reachability is unknown; the
      whole result is [None] when the call throws. *)
  netInfoFetch : W -> option (bool * option bool)
}.

End Js.

(* ===================================================================== *)
(** * src/utils/validation.js: class RateLimiter                          *)
(* ===================================================================== *)

Module RateLimiter.

(** The object stored per key in [this.attempts]. *)
Record Attempts := mkAttempts {
  count : Z;
  resetTime : Z;
  firstAttempt : Z
}.

(** [this.attempts] *)
Abbreviation Store := (gmap string Attempts).

Definition shortCooldown : Z := 30000.

(** Default arguments of [isAllowed]. *)
Definition defaultMaxAttempts : Z := 8.
Definition defaultTimeWindow : Z := 180000.

(** [isAllowed(key, maxAttempts, timeWindow)], with [now] the value of
    [Date.now()].  The record read from the map is mutated in place and
    stored again, which is an insertion of the updated record. *)
Definition isAllowed (now : Z) (key : string) (maxAttempts timeWindow : Z)
    (attempts : Store) : bool * Store :=
  let keyAttempts :=
    default (mkAttempts 0 (now + timeWindow) now) (attempts !! key) in
  if now >? resetTime keyAttempts then
    (true, <[key := mkAttempts 1 (now + timeWindow) now]> attempts)
  else if count keyAttempts =? 0 then
    (true, <[key := mkAttempts 1 (resetTime keyAttempts) now]> attempts)
  else if (3 <=? count keyAttempts) && (count keyAttempts <? maxAttempts)
          && (now - firstAttempt keyAttempts <? shortCooldown) then
    (false, attempts)
  else if maxAttempts <=? count keyAttempts then
    (false, attempts)
  else
    (true, <[key := mkAttempts (count keyAttempts + 1)
                               (resetTime keyAttempts)
                               (firstAttempt keyAttempts)]> attempts).

(** The [return] statement by which a call of [isAllowed] leaves, in
    source order. *)
Inductive Exit :=
| WindowReset     (* now > resetTime: record re-created, allowed *)
| FirstAttempt    (* count === 0: allowed *)
| SoftCooldown    (* 3 <= count < maxAttempts within 30 s: refused *)
| HardBlock       (* count >= maxAttempts: refused *)
| Counted.        (* count++: allowed *)

Definition exitOf (now : Z) (key : string) (maxAttempts timeWindow : Z)
    (attempts : Store) : Exit :=
  let keyAttempts :=
    default (mkAttempts 0 (now + timeWindow) now) (attempts !! key) in
  if now >? resetTime keyAttempts then WindowReset
  else if count keyAttempts =? 0 then FirstAttempt
  else if (3 <=? count keyAttempts) && (count keyAttempts <? maxAttempts)
          && (now - firstAttempt keyAttempts <? shortCooldown) then
    SoftCooldown
  else if maxAttempts <=? count keyAttempts then HardBlock
  else Counted.

Definition exitAllows (e : Exit) : bool :=
  match e with
  | WindowReset | FirstAttempt | Counted => true
  | SoftCooldown | HardBlock => false
  end.

(** [getRemainingTime(key)] *)
Definition getRemainingTime (now : Z) (key : string) (attempts : Store) : Z :=
  match attempts !! key with
  | None => 0
  | Some keyAttempts =>
      let shortCooldownEnd := firstAttempt keyAttempts + 30000 in
      if (3 <=? count keyAttempts) && (count keyAttempts <? 8)
         && (now <? shortCooldownEnd) then
        Z.max 0 (shortCooldownEnd - now)
      else
        Z.max 0 (resetTime keyAttempts - now)
  end.

(** [clearAttempts(key)] *)
Definition clearAttempts (key : string) (attempts : Store) : Store :=
  delete key attempts.

(** The object [getStatus] returns; the first [return] has no
    [maxAttempts] property. *)
Record Status := mkStatus {
  attempts_ : Z;
  isBlocked : bool;
  remainingTime : Z;
  maxAttempts_ : option Z
}.

(** [getStatus(key)].  [nowR] is the clock read inside
    [getRemainingTime], [nowA] the one read inside [isAllowed].  The
    property [attempts] is evaluated before the call of [isAllowed];
    [keyAttempts.count > 0] is evaluated after it, and only when the
    call refused, in which case the record was not modified. *)
Definition getStatus (nowR nowA : Z) (key : string) (attempts : Store)
    : Status * Store :=
  match attempts !! key with
  | None => (mkStatus 0 false 0 None, attempts)
  | Some keyAttempts =>
      let remaining := getRemainingTime nowR key attempts in
      let '(allowed, attempts') :=
        isAllowed nowA key defaultMaxAttempts defaultTimeWindow attempts in
      (mkStatus (count keyAttempts)
                (negb allowed && (0 <? count keyAttempts))
                remaining (Some 8),
       attempts')
  end.

(** [n] calls of [isAllowed] issued with no time elapsing (the same
    clock value [now] for each); the answers are listed first to last. *)
Fixpoint rapidCalls (n : nat) (now : Z) (key : string)
    (maxAttempts timeWindow : Z) (attempts : Store)
    : list (bool * Exit) * Store :=
  match n with
  | O => ([], attempts)
  | S n' =>
      let e := exitOf now key maxAttempts timeWindow attempts in
      let '(b, attempts') :=
        isAllowed now key maxAttempts timeWindow attempts in
      let '(rest, final) :=
        rapidCalls n' now key maxAttempts timeWindow attempts' in
      ((b, e) :: rest, final)
  end.

(** [n] successive calls of [getStatus] at the same clock value. *)
Fixpoint repeatStatus (n : nat) (now : Z) (key : string) (attempts : Store)
    : Store :=
  match n with
  | O => attempts
  | S n' => repeatStatus n' now key (snd (getStatus now now key attempts))
  end.

(** The answers of rapid calls as the specification's scenario lists
    them: calls 1 and 2 allowed, calls 3 to 7 refused by the soft
    cooldown, call 8 refused by the hard window. *)
Definition scenarioAsSpecified (answers : list (bool * Exit)) : Prop :=
  (forall i, (i < 2)%nat -> fst <$> answers !! i = Some true) /\
  (forall i, (2 <= i < 7)%nat -> answers !! i = Some (false, SoftCooldown)) /\
  answers !! 7%nat = Some (false, HardBlock).

(** The answers the code gives: three calls allowed, then the soft
    cooldown. *)
Definition rapidAnswers (n : nat) : list (bool * Exit) :=
  [(true, FirstAttempt); (true, Counted); (true, Counted)]
  ++ replicate n (false, SoftCooldown).

(** The store after three calls at instant 0 and two more at 30 s: the
    record of the key holds count 5 and its window ends at 180 s. *)
Definition fiveAttempts : Store :=
  snd (rapidCalls 2 30000 "login_a@b.com" 8 180000
         (snd (rapidCalls 3 0 "login_a@b.com" 8 180000 ∅))).

(** Calls of [isAllowed] with the same limits at the instants [times], in
    order. *)
Fixpoint callsAt (times : list Z) (key : string) (maxAttempts timeWindow : Z)
    (attempts : Store) : Store :=
  match times with
  | [] => attempts
  | now :: rest =>
      callsAt rest key maxAttempts timeWindow
              (snd (isAllowed now key maxAttempts timeWindow attempts))
  end.

(** What the limiter keeps about a record written with the limits
    [maxAttempts] and [timeWindow]. *)
Definition wellFormed (maxAttempts timeWindow : Z) (r : Attempts) : Prop :=
  1 <= count r <= maxAttempts /\ resetTime r = firstAttempt r + timeWindow.

End RateLimiter.


(* ===================================================================== *)
(** * utils/apiOptimization.js: service-wake detector and retry wrapper   *)
(* ===================================================================== *)

Module ApiOptimization.
Import Js.

Record RenderConfig := mkRenderConfig {
  WAKE_UP_TIMEOUT : Z;
  NORMAL_TIMEOUT : Z;
  RETRY_TIMEOUT : Z;
  MAX_RETRIES : nat;
  BACKOFF_MULTIPLIER : Q;
  SLEEP_INDICATORS : list string
}.

Definition RENDER_CONFIG : RenderConfig := {|
  WAKE_UP_TIMEOUT := 90000;
  NORMAL_TIMEOUT := 15000;
  RETRY_TIMEOUT := 8000;
  MAX_RETRIES := 3;
  BACKOFF_MULTIPLIER := 3 # 2;
  SLEEP_INDICATORS :=
    [ "ECONNABORTED"; "TIMEOUT"; "Network Error";
      "Request failed with status code 503";
      "Request failed with status code 504" ]
|}.

(** The fields of the [ServiceStatusDetector] singleton.  The failure
    counter starts at 0 and is only incremented or reset to 0. *)
Record ServiceStatus := mkServiceStatus {
  isServiceAsleep : bool;
  lastSuccessfulRequest : Z;
  consecutiveFailures : nat
}.

(** [constructor()], run at time [now]. *)
Definition newDetector (now : Z) : ServiceStatus :=
  mkServiceStatus false now 0.

(** [markSuccess()], run at time [now]. *)
Definition markSuccess (now : Z) (s : ServiceStatus) : ServiceStatus :=
  mkServiceStatus false now 0.

(** [error.message || error.toString()] *)
Definition errorMessage (error : JsError) : string :=
  if decide (message error = "") then toString error else message error.

Definition isSleepIndicator (cfg : RenderConfig) (error : JsError) : bool :=
  existsb (fun indicator => includes indicator (errorMessage error))
          (SLEEP_INDICATORS cfg).

(** [markFailure(error)] *)
Definition markFailure (cfg : RenderConfig) (error : JsError)
    (s : ServiceStatus) : ServiceStatus :=
  let failures := S (consecutiveFailures s) in
  if isSleepIndicator cfg error || (2 <=? failures)%nat then
    mkServiceStatus true (lastSuccessfulRequest s) failures
  else
    mkServiceStatus (isServiceAsleep s) (lastSuccessfulRequest s) failures.

(** [shouldUseWakeUpTimeout()], run at time [now]. *)
Definition shouldUseWakeUpTimeout (now : Z) (s : ServiceStatus) : bool :=
  let timeSinceLastSuccess := now - lastSuccessfulRequest s in
  isServiceAsleep s || (timeSinceLastSuccess >? 15 * 60 * 1000).

Section Retry.
Context {W : Type} `{Platform W} {R : Type}.

(** The process state an operation can touch: the outside world and the
    detector singleton (the axios interceptors update it too). *)
Record Sys := mkSys {
  world : W;
  detector : ServiceStatus
}.

(** An operation passed to the retry wrapper; it receives the timeout. *)
Definition Operation := Z -> Sys -> Completion R * Sys.

(** What a run of the wrapper did: how it completed, the timeout passed
    to each invocation of the operation (in order), and the delays waited. *)
Record Run := mkRun {
  completion : Completion R;
  invocations : list Z;
  delays : list Q;
  final : Sys
}.

Definition timeoutFor (cfg : RenderConfig) (attempt : nat) (st : Sys) : Z :=
  if shouldUseWakeUpTimeout (clock (world st)) (detector st)
  then WAKE_UP_TIMEOUT cfg
  else if (attempt =? 1)%nat then NORMAL_TIMEOUT cfg else RETRY_TIMEOUT cfg.

(** [baseDelay * Math.pow(BACKOFF_MULTIPLIER, attempt - 1)] with
    [baseDelay = 1000 * attempt]. *)
Definition backoffDelay (cfg : RenderConfig) (attempt : nat) : Q :=
  (inject_Z (1000 * Z.of_nat attempt)
   * Qpower (BACKOFF_MULTIPLIER cfg) (Z.of_nat attempt - 1))%Q.

(** The statement after the loop.  With no error recorded,
    [lastError.message] itself throws a TypeError. *)
Definition throwAfterLoop (cfg : RenderConfig) (context : string)
    (lastError : option JsError) : Completion R :=
  match lastError with
  | Some e =>
      Thrown (newError (context +:+ " failed after "
                        +:+ pretty (MAX_RETRIES cfg)
                        +:+ " attempts. Last error: " +:+ message e))
  | None =>
      Thrown (mkJsError "TypeError"
                "Cannot read properties of undefined (reading 'message')"
                None None)
  end.

(** The [for] loop, entered with [attempt] and [remaining] iterations
    still permitted by its condition [attempt <= MAX_RETRIES]. *)
Fixpoint retryLoop (cfg : RenderConfig) (fn : Operation) (context : string)
    (remaining attempt : nat) (lastError : option JsError)
    (calls : list Z) (waits : list Q) (st : Sys) : Run :=
  match remaining with
  | O => mkRun (throwAfterLoop cfg context lastError) calls waits st
  | S remaining' =>
      let timeout := timeoutFor cfg attempt st in
      match fn timeout st with
      | (Returned result, st1) =>
          let st2 := mkSys (world st1)
                           (markSuccess (clock (world st1)) (detector st1)) in
          mkRun (Returned result) (calls ++ [timeout]) waits st2
      | (Thrown error, st1) =>
          let st2 := mkSys (world st1) (markFailure cfg error (detector st1)) in
          if (attempt =? MAX_RETRIES cfg)%nat then
            mkRun (throwAfterLoop cfg context (Some error))
                  (calls ++ [timeout]) waits st2
          else
            let delay := backoffDelay cfg attempt in
            let st3 := mkSys (sleep delay (world st2)) (detector st2) in
            retryLoop cfg fn context remaining' (S attempt) (Some error)
                      (calls ++ [timeout]) (waits ++ [delay]) st3
      end
  end.

(** [retryWithRenderOptimization(fn, context)] under configuration [cfg]. *)
Definition retryWithRenderOptimizationCfg (cfg : RenderConfig)
    (fn : Operation) (context : string) (st : Sys) : Run :=
  retryLoop cfg fn context (MAX_RETRIES cfg) 1 None [] [] st.

(** [retryWithRenderOptimization(fn, context = 'API call')] *)
Definition retryWithRenderOptimization (fn : Operation) (context : string)
    (st : Sys) : Run :=
  retryWithRenderOptimizationCfg RENDER_CONFIG fn context st.

(** An operation that throws [e] at every invocation. *)
Definition alwaysThrows (e : JsError) : Operation :=
  fun _ st => (Thrown e, st).

(** The error thrown once every attempt has failed with last error [e]. *)
Definition wrappedError (cfg : RenderConfig) (context : string) (e : JsError)
    : JsError :=
  newError (context +:+ " failed after " +:+ pretty (MAX_RETRIES cfg)
            +:+ " attempts. Last error: " +:+ message e).

(** A run that returned: the value is one the operation returned, after
    at least one and at most [bound] further invocations. *)
Definition returnedWithin (fn : Operation) (before bound : nat)
    (r : Run) : Prop :=
  exists result timeout st0 st1,
    completion r = Returned result
    /\ fn timeout st0 = (Returned result, st1)
    /\ (before < length (invocations r) <= before + bound)%nat.

(** A run that threw: the wrapped error carries the message of an error
    the operation threw, after exactly [bound] further invocations. *)
Definition threwAfter (cfg : RenderConfig) (fn : Operation)
    (context : string) (before bound : nat) (r : Run) : Prop :=
  exists e timeout st0 st1,
    completion r = Thrown (wrappedError cfg context e)
    /\ fn timeout st0 = (Thrown e, st1)
    /\ length (invocations r) = (before + bound)%nat.

End Retry.

Arguments Sys W : clear implicits.
Arguments Run W R : clear implicits.
Arguments Operation W R : clear implicits.

(** ** A run seen from outside

    The lists [invocations] and [delays] of a [Run] are kept by the
    model of the loop.  What a run really did is what the operation and
    the timer saw: an observed world keeps, next to the world itself,
    each invocation of the operation (with the timeout it received and
    whether it returned) and each wait, in the order they happened.  The
    loop never touches this record; only the operation and [sleep] add
    to it. *)
Inductive Event :=
| Invoked (timeout : Z) (returned : bool)
| Waited (delay : Q).

Record Observed (W : Type) := mkObserved {
  inner : W;
  events : list Event
}.
Arguments mkObserved {W}.
Arguments inner {W}.
Arguments events {W}.

#[export] Instance observed_platform {W} `{Platform W}
    : Platform (Observed W) := {|
  clock o := clock (inner o);
  sleep delay o :=
    mkObserved (sleep delay (inner o)) (events o ++ [Waited delay]);
  netInfoFetch o := netInfoFetch (inner o)
|}.

Definition isReturned {R} (c : Completion R) : bool :=
  match c with
  | Returned _ => true
  | Thrown _ => false
  end.

(** The operation [fn] on the observed world: it does to the world and
    to the detector what [fn] does, and its invocation is recorded. *)
Definition observe {W R} (fn : Operation W R) : Operation (Observed W) R :=
  fun timeout st =>
    let '(c, st1) := fn timeout (mkSys (inner (world st)) (detector st)) in
    (c,
     mkSys (mkObserved (world st1)
              (events (world st) ++ [Invoked timeout (isReturned c)]))
           (detector st1)).

(** The state [st] with an empty record. *)
Definition observing {W} (st : Sys W) : Sys (Observed W) :=
  mkSys (mkObserved (world st) []) (detector st).

(** Whether each invocation of the record returned, first to last. *)
Definition outcomes (log : list Event) : list bool :=
  omap (fun ev => match ev with
                  | Invoked _ returned => Some returned
                  | Waited _ => None
                  end) log.

(** The waits of the record, first to last. *)
Definition waited (log : list Event) : list Q :=
  omap (fun ev => match ev with
                  | Invoked _ _ => None
                  | Waited delay => Some delay
                  end) log.

(** The record of attempts numbered from [attempt] that received the
    timeouts [timeouts]: every attempt but the last threw and was
    followed by the wait of its number; the last one returned or threw
    as [returned] says, and nothing follows it. *)
Fixpoint schedule (cfg : RenderConfig) (attempt : nat) (timeouts : list Z)
    (returned : bool) : list Event :=
  match timeouts with
  | [] => []
  | timeout :: rest =>
      match rest with
      | [] => [Invoked timeout returned]
      | _ :: _ =>
          Invoked timeout false
          :: Waited (inject_Z (1000 * Z.of_nat attempt)
                     * Qpower (BACKOFF_MULTIPLIER cfg) (Z.of_nat attempt - 1))%Q
          :: schedule cfg (S attempt) rest returned
      end
  end.

End ApiOptimization.

(* ===================================================================== *)
(** * utils/apiOptimization.js: class KeepAliveService                    *)
(* ===================================================================== *)

Module KeepAlive.
Import Js ApiOptimization.

(** The fields of the service.  A timer id is a positive number, so the
    test [if (this.intervalId)] asks whether an id is stored. *)
Record Service := mkService {
  intervalId : option positive;
  isEnabled : bool
}.

(** The interval timers of the runtime: the ids that are running and the
    id the next [setInterval] hands out. *)
Record Timers := mkTimers {
  active : gset positive;
  nextId : positive
}.

Definition setInterval (t : Timers) : positive * Timers :=
  (nextId t, mkTimers ({[nextId t]} ∪ active t) (Pos.succ (nextId t))).

Definition clearInterval (id : positive) (t : Timers) : Timers :=
  mkTimers (active t ∖ {[id]}) (nextId t).

(** What a ping meets: the answer [isConnected] of [NetInfo.fetch()]
    and [response.ok] of the request, each [None] when the call throws. *)
Record PingOutcome := mkPingOutcome {
  isConnected : option bool;
  responseOk : option bool
}.

Record State := mkState {
  service : Service;
  timers : Timers;
  status : ServiceStatus
}.

(** [constructor(apiUrl)] *)
Definition newService : Service := mkService None false.

(** [ping()], completing at time [now]; every failure is only logged. *)
Definition ping (o : PingOutcome) (now : Z) (st : State) : State :=
  if negb (isEnabled (service st)) then st
  else
    match isConnected o with
    | Some true =>
        match responseOk o with
        | Some true =>
            mkState (service st) (timers st) (markSuccess now (status st))
        | _ => st
        end
    | _ => st
    end.

(** [stop()] *)
Definition stop (st : State) : State :=
  let timers' :=
    match intervalId (service st) with
    | Some id => clearInterval id (timers st)
    | None => timers st
    end in
  mkState (mkService None false) timers' (status st).

(** [start()]; [o] and [now] are the outcome and the completion time of
    the immediate ping. *)
Definition start (o : PingOutcome) (now : Z) (st : State) : State :=
  let st1 :=
    match intervalId (service st) with
    | Some _ => stop st
    | None => st
    end in
  let st2 :=
    mkState (mkService (intervalId (service st1)) true) (timers st1)
            (status st1) in
  let st3 := ping o now st2 in
  let '(id, timers') := setInterval (timers st3) in
  mkState (mkService (Some id) (isEnabled (service st3))) timers' (status st3).

(** What happens to the service: a call of [start], a call of [stop], or
    the interval with id [id] firing (it pings when it is running). *)
Inductive Event :=
| Start (o : PingOutcome) (now : Z)
| Stop
| Tick (id : positive) (o : PingOutcome) (now : Z).

Definition step (st : State) (e : Event) : State :=
  match e with
  | Start o now => start o now st
  | Stop => stop st
  | Tick id o now =>
      if bool_decide (id ∈ active (timers st)) then ping o now st else st
  end.

Definition run (events : list Event) (st : State) : State :=
  foldl step st events.

(** The state at module load: a new service, no timer running. *)
Definition initial (d : ServiceStatus) : State :=
  mkState newService (mkTimers ∅ 1%positive) d.

(** What holds of the service after any history. *)
Definition keepAliveInvariant (d0 : ServiceStatus) (st : State) : Prop :=
  active (timers st)
    = match intervalId (service st) with
      | Some id => {[id]}
      | None => ∅
      end
  /\ (isEnabled (service st) = true <-> is_Some (intervalId (service st)))
  /\ (consecutiveFailures (status st) <= consecutiveFailures d0)%nat
  /\ (isServiceAsleep (status st) = true -> isServiceAsleep d0 = true).

End KeepAlive.

(* ===================================================================== *)
(** * services/exerciseApi.js: cache with TTL and exercise data access    *)
(* ===================================================================== *)

Module ExerciseApi.
Import Js ApiOptimization.

(** A text property of a record as the API sends it and as the cache
    gives it back: a text, [null], or no such property ([undefined];
    [JSON.stringify] drops such a property and [JSON.parse] leaves it
    missing again). *)
Inductive Field :=
| Missing
| Null
| Str (s : string).

(** A record of the remote catalogue (id, name, muscle, equipment,
    difficulty, instructions). *)
Record RawExercise := mkRawExercise {
  id : Z;
  name : Field;
  muscle : Field;
  equipment : Field;
  difficulty : Field;
  instructions : Field
}.

(** The record [mapExerciseData] builds for the UI. *)
Record Exercise := mkExercise {
  ex_id : Z;
  ex_name : Field;
  ex_muscle : Field;
  ex_equipment : Field;
  ex_difficulty : Field;
  ex_instructions : string;
  primaryMuscles : list string;
  secondaryMuscles : list string;
  category : string;
  icon : string;
  image : option string;
  bodyPart : string;
  target : string;
  level : string;
  originalData : RawExercise
}.

(** [field || d]: a missing property, [null] and the empty text are
    falsy. *)
Definition orElse (field : Field) (d : string) : string :=
  match field with
  | Str (String c s) => String c s
  | _ => d
  end.

Definition mapExerciseData (exercise : RawExercise) : Exercise := {|
  ex_id := id exercise;
  ex_name := name exercise;
  ex_muscle := muscle exercise;
  ex_equipment := equipment exercise;
  ex_difficulty := difficulty exercise;
  ex_instructions := orElse (instructions exercise) "";
  primaryMuscles :=
    match muscle exercise with
    | Str (String c s) => [String c s]
    | _ => []
    end;
  secondaryMuscles := [];
  category := orElse (muscle exercise) "General";
  icon := "fitness-center";
  image := None;
  bodyPart := orElse (muscle exercise) "general";
  target := orElse (muscle exercise) "general";
  level := orElse (difficulty exercise) "Intermedio";
  originalData := exercise
|}.

Module CACHE_KEYS.
Definition ALL_EXERCISES : string := "cached_exercises_all".
Definition EXERCISES_BY_MUSCLE : string := "cached_exercises_muscle_".
Definition EXERCISES_BY_EQUIPMENT : string := "cached_exercises_equipment_".
Definition MUSCLES_LIST : string := "cached_muscles".
Definition EQUIPMENT_LIST : string := "cached_equipment".
Definition SEARCH_RESULTS : string := "cached_search_".
End CACHE_KEYS.

(** ** The cache functions *)

(** The text AsyncStorage holds under a cache key: the JSON of
    [{ data, timestamp }] as [saveToCache] writes it, or text that
    [JSON.parse] and the destructuring reject.  [saveToCache] is private
    to the module and every caller passes it an array, so a payload [data]
    is never [null]. *)
Inductive CacheText (A : Type) :=
| Entry (data : A) (timestamp : Z)
| Unreadable.
Arguments Entry {A} data timestamp.
Arguments Unreadable {A}.

(** [saveToCache(key, data)] at time [now]. *)
Definition saveToCache {A} (now : Z) (key : string) (data : A)
    (storage : gmap string (CacheText A)) : gmap string (CacheText A) :=
  <[key := Entry data now]> storage.

(** [getFromCache(key, maxAge)] at time [now]; [None] is [null]. *)
Definition getFromCache {A} (now : Z) (key : string) (maxAge : Z)
    (storage : gmap string (CacheText A))
    : option A * gmap string (CacheText A) :=
  match storage !! key with
  | None => (None, storage)
  | Some Unreadable => (None, storage)
  | Some (Entry data timestamp) =>
      let age := now - timestamp in
      if age >? maxAge then (None, delete key storage)
      else (Some data, storage)
  end.

Definition defaultMaxAge : Z := 3600000.

(** ** Requests and the process state *)

Record Request := mkRequest {
  path : string;
  params : list (string * string)
}.

(** [response.data] *)
Inductive ResponseData :=
| DataList (l : list RawExercise)
| DataOne (e : RawExercise)
| DataNone.

(** The axios transport below the interceptors. *)
Class Http (X : Type) := {
  httpGet : Request -> Z -> X -> Completion ResponseData * X
}.

(** What a background refresh fetches. *)
Inductive Fetch :=
| FetchAllExercises.

(** A call of [updateCacheInBackground] that was started and not awaited. *)
Record Task := mkTask {
  cacheKey : string;
  fetchFunction : Fetch
}.

(** The device as this module sees it: the outside world, the cache keys
    of AsyncStorage, the requests handed to the transport so far, and the
    background refreshes started so far. *)
Record Device (X : Type) := mkDevice {
  outside : X;
  asyncStorage : gmap string (CacheText (list Exercise));
  requests : list Request;
  background : list Task
}.
Arguments mkDevice {X}.
Arguments outside {X}.
Arguments asyncStorage {X}.
Arguments requests {X}.
Arguments background {X}.

#[export] Instance device_platform {X} `{Platform X} : Platform (Device X) := {|
  clock d := clock (outside d);
  sleep delay d :=
    mkDevice (sleep delay (outside d)) (asyncStorage d) (requests d)
             (background d);
  netInfoFetch d := netInfoFetch (outside d)
|}.

(** Asynchronous functions of the module: they read and update the
    process state and either return or throw. *)
Definition M (X A : Type) : Type :=
  Sys (Device X) -> Completion A * Sys (Device X).

#[export] Instance M_ret {X} : MRet (M X) :=
  fun A a st => (Returned a, st).

#[export] Instance M_bind {X} : MBind (M X) :=
  fun A B k m st =>
    match m st with
    | (Returned a, st') => k a st'
    | (Thrown e, st') => (Thrown e, st')
    end.

#[export] Instance M_throw {X} : MThrow JsError (M X) :=
  fun A e st => (Thrown e, st).

(** [try { body } catch (error) { handler }] *)
Definition tryCatch {X A} (body : M X A) (handler : JsError -> M X A)
    : M X A :=
  fun st =>
    match body st with
    | (Returned a, st') => (Returned a, st')
    | (Thrown e, st') => handler e st'
    end.

Section Api.
Context {X : Type} `{Platform X} `{Http X} `{JsString}.
(** The builtins [String.prototype.toLowerCase] and [parseInt] ([None]
    is NaN). *)
Variable toLowerCase : string -> string.
Variable parseInt : string -> option Z.

Definition setStorage (storage : gmap string (CacheText (list Exercise)))
    (st : Sys (Device X)) : Sys (Device X) :=
  let d := world st in
  mkSys (mkDevice (outside d) storage (requests d) (background d))
        (detector st).

Definition setDetector (s : ServiceStatus) (st : Sys (Device X))
    : Sys (Device X) :=
  mkSys (world st) s.

(** [await saveToCache(key, data)] *)
Definition saveToCacheM (key : string) (data : list Exercise) : M X unit :=
  fun st =>
    (Returned tt,
     setStorage (saveToCache (clock (world st)) key data
                             (asyncStorage (world st))) st).

(** [await getFromCache(key, maxAge)] *)
Definition getFromCacheM (key : string) (maxAge : Z)
    : M X (option (list Exercise)) :=
  fun st =>
    let '(r, storage) :=
      getFromCache (clock (world st)) key maxAge (asyncStorage (world st)) in
    (Returned r, setStorage storage st).

(** The answer of [checkConnectivity()]:
    [isConnected && isInternetReachable !== false], and [false] when
    [NetInfo.fetch()] throws. *)
Definition connected (d : Device X) : bool :=
  match netInfoFetch d with
  | Some (isConnected, isInternetReachable) =>
      isConnected && negb (bool_decide (isInternetReachable = Some false))
  | None => false
  end.

(** [checkConnectivity()] *)
Definition checkConnectivity : M X bool :=
  fun st => (Returned (connected (world st)), st).

(** [RequestOptimizer.compressParams] on text parameters: a text of
    more than 100 code units is cut to its first 100. *)
Definition compressParams (ps : list (string * string))
    : list (string * string) :=
  map (fun '(k, v) =>
         if (100 <? jsLength v)%nat then (k, jsSubstring0 100 v)
         else (k, v)) ps.

(** The transport call with the bookkeeping of the request log. *)
Definition transport (req : Request) (timeout : Z) : M X ResponseData :=
  fun st =>
    let d := world st in
    let '(res, x') := httpGet req timeout (outside d) in
    (res,
     mkSys (mkDevice x' (asyncStorage d) (requests d ++ [req]) (background d))
           (detector st)).

(** [api.get(path, { params })] through the request and response
    interceptors of the axios instance. *)
Definition apiGet (req : Request) : M X ResponseData :=
  fun st =>
    let timeout :=
      if shouldUseWakeUpTimeout (clock (world st)) (detector st)
      then 90000 else 15000 in
    let req' := mkRequest (path req) (compressParams (params req)) in
    match transport req' timeout st with
    | (Returned data, st1) =>
        (Returned data,
         setDetector (markSuccess (clock (world st1)) (detector st1)) st1)
    | (Thrown error, st1) =>
        let st2 :=
          setDetector (markFailure RENDER_CONFIG error (detector st1)) st1 in
        (isOnline ← checkConnectivity;
         if negb isOnline then
           mthrow (newError
             "Sin conexión a internet. Usando datos guardados localmente.")
         else if bool_decide (code error = Some "ECONNABORTED") then
           mthrow (newError
             "La API está tardando en responder. Puede estar iniciándose (Render free tier). Intenta nuevamente.")
         else if match status error with Some s => 500 <=? s | None => false end
         then mthrow (newError "Error del servidor. Intenta más tarde.")
         else if bool_decide (status error = Some 404) then
           mthrow (newError "Recurso no encontrado.")
         else mthrow error) st2
    end.

(** [retryWithBackoff(fn)]: the deprecated wrapper, which delegates to
    [retryWithRenderOptimization(fn, 'Legacy API call')]. *)
Definition retryWithBackoff {A} (fn : M X A) : M X A :=
  fun st =>
    let r := retryWithRenderOptimization (fun _ => fn) "Legacy API call" st in
    (completion r, final r).

(** [response.data.map(mapExerciseData)]; on anything but an array the
    call of [map] throws a TypeError. *)
Definition mapResponse (data : ResponseData) : M X (list Exercise) :=
  match data with
  | DataList l => mret (map mapExerciseData l)
  | _ => mthrow (mkJsError "TypeError" "response.data.map is not a function"
                           None None)
  end.

(** The fetch function handed to a background refresh. *)
Definition runFetch (f : Fetch) : M X (list Exercise) :=
  match f with
  | FetchAllExercises =>
      response ← retryWithBackoff (apiGet (mkRequest "/exercises" []));
      mapResponse response
  end.

(** [updateCacheInBackground(cacheKey, fetchFunction)], run to completion. *)
Definition updateCacheInBackground (t : Task) : M X unit :=
  tryCatch
    (freshData ← runFetch (fetchFunction t);
     saveToCacheM (cacheKey t) freshData)
    (fun _ => mret tt).

(** The state once [t] has been started in the background. *)
Definition withBackground (t : Task) (st : Sys (Device X)) : Sys (Device X) :=
  let d := world st in
  mkSys (mkDevice (outside d) (asyncStorage d) (requests d)
                  (background d ++ [t]))
        (detector st).

(** Starting [updateCacheInBackground] without awaiting it. *)
Definition startInBackground (t : Task) : M X unit :=
  fun st => (Returned tt, withBackground t st).

(** The cache holds, under [key], a copy [c] no older than [ttl]. *)
Definition cacheHit (st : Sys (Device X)) (key : string) (ttl : Z)
    (c : list Exercise) : Prop :=
  exists ts, asyncStorage (world st) !! key = Some (Entry c ts)
             /\ clock (world st) - ts <= ttl.

(** [getAllExercises()] *)
Definition getAllExercises : M X (list Exercise) :=
  cached ← getFromCacheM CACHE_KEYS.ALL_EXERCISES defaultMaxAge;
  isOnline ← checkConnectivity;
  if negb isOnline then
    match cached with
    | Some c => mret c
    | None =>
        mthrow (newError
          "Sin conexión y no hay ejercicios guardados localmente")
    end
  else
    match cached with
    | Some c =>
        startInBackground (mkTask CACHE_KEYS.ALL_EXERCISES FetchAllExercises);;
        mret c
    | None =>
        tryCatch
          (exercises ← retryWithBackoff
             (response ← apiGet (mkRequest "/exercises" []);
              mapResponse response);
           saveToCacheM CACHE_KEYS.ALL_EXERCISES exercises;;
           mret exercises)
          (fun error =>
             mthrow (newError ("Error al cargar ejercicios: "
                               +:+ message error)))
    end.

(** [getExercisesByMuscle(muscle)] *)
Definition getExercisesByMuscle (muscle : string) : M X (list Exercise) :=
  tryCatch
    (let cacheKey := CACHE_KEYS.EXERCISES_BY_MUSCLE +:+ muscle in
     cached ← getFromCacheM cacheKey defaultMaxAge;
     match cached with
     | Some c => mret c
     | None =>
         response ← apiGet (mkRequest "/exercises" [("muscle", muscle)]);
         exercises ← mapResponse response;
         saveToCacheM cacheKey exercises;;
         mret exercises
     end)
    (fun error =>
       mthrow (newError ("Error al cargar ejercicios por músculo: "
                         +:+ message error))).

(** [getExercisesByEquipment(equipment)] *)
Definition getExercisesByEquipment (equipment : string)
    : M X (list Exercise) :=
  tryCatch
    (let cacheKey := CACHE_KEYS.EXERCISES_BY_EQUIPMENT +:+ equipment in
     cached ← getFromCacheM cacheKey defaultMaxAge;
     match cached with
     | Some c => mret c
     | None =>
         response ← apiGet (mkRequest "/exercises" [("equipment", equipment)]);
         exercises ← mapResponse response;
         saveToCacheM cacheKey exercises;;
         mret exercises
     end)
    (fun error =>
       mthrow (newError ("Error al cargar ejercicios por equipamiento: "
                         +:+ message error))).

(** [field.toLowerCase().includes(searchTerm)]: on a property that is
    missing or [null] the call of [toLowerCase] throws a TypeError. *)
Definition fieldIncludes (searchTerm : string) (field : Field)
    : Completion bool :=
  match field with
  | Str s => Returned (includes searchTerm (toLowerCase s))
  | Missing => Thrown (nullishError "undefined" "toLowerCase")
  | Null => Thrown (nullishError "null" "toLowerCase")
  end.

(** [a || b]: [b] is evaluated only when [a] is false. *)
Definition orThen (a b : Completion bool) : Completion bool :=
  match a with
  | Returned false => b
  | _ => a
  end.

(** The predicate of the filter in [searchExercises]. *)
Definition matchesSearch (searchTerm : string) (exercise : Exercise)
    : Completion bool :=
  orThen (fieldIncludes searchTerm (ex_name exercise))
    (orThen (fieldIncludes searchTerm (ex_muscle exercise))
       (orThen (fieldIncludes searchTerm (ex_equipment exercise))
               (fieldIncludes searchTerm (ex_difficulty exercise)))).

(** [list.filter(predicate)]: the elements are tested first to last, and
    the first test that throws ends the call. *)
Fixpoint filterC {A} (predicate : A -> Completion bool) (l : list A)
    : Completion (list A) :=
  match l with
  | [] => Returned []
  | x :: rest =>
      match predicate x with
      | Thrown e => Thrown e
      | Returned keep =>
          match filterC predicate rest with
          | Thrown e => Thrown e
          | Returned kept => Returned (if keep then x :: kept else kept)
          end
      end
  end.

(** A synchronous computation inside an asynchronous function. *)
Definition liftC {A} (c : Completion A) : M X A :=
  fun st => (c, st).


(** [searchExercises(query)] *)
Definition searchExercises (query : string) : M X (list Exercise) :=
  tryCatch
    (let cacheKey := CACHE_KEYS.SEARCH_RESULTS +:+ toLowerCase query in
     cached ← getFromCacheM cacheKey 1800000;
     match cached with
     | Some c => mret c
     | None =>
         allExercises ← getAllExercises;
         let searchTerm := toLowerCase query in
         filteredExercises ←
           liftC (filterC (matchesSearch searchTerm) allExercises);
         saveToCacheM cacheKey filteredExercises;;
         mret filteredExercises
     end)
    (fun error =>
       mthrow (newError ("Error al buscar ejercicios: " +:+ message error))).

(** What [getExerciseById] returns: a mapped record found in a catalogue,
    or [response.data] of the direct request as it came. *)
Inductive ByIdResult :=
| FromCatalogue (e : Exercise)
| FromApi (data : ResponseData).

(** [list.find(ex => ex.id === parseInt(id))] *)
Definition findById (id : string) (l : list Exercise) : option Exercise :=
  List.find (fun ex => bool_decide (Some (ex_id ex) = parseInt id)) l.

(** [getExerciseById(id)] *)
Definition getExerciseById (id : string) : M X ByIdResult :=
  tryCatch
    (cachedData ← getFromCacheM CACHE_KEYS.ALL_EXERCISES defaultMaxAge;
     match cachedData ≫= findById id with
     | Some exercise => mret (FromCatalogue exercise)
     | None =>
         response ← apiGet (mkRequest ("/exercises/" +:+ id) []);
         match response with
         | DataNone => mthrow (newError "Ejercicio no encontrado")
         | data => mret (FromApi data)
         end
     end)
    (fun error =>
       found ← tryCatch
         (allExercises ← getAllExercises;
          mret (findById id allExercises))
         (fun _ => mret None);
       match found with
       | Some exercise => mret (FromCatalogue exercise)
       | None =>
           mthrow (newError ("No se pudo obtener el ejercicio con ID "
                             +:+ id +:+ ": " +:+ message error))
       end).

End Api.

(** ** Clearing the cache *)

(** [Object.values(CACHE_KEYS)] *)
Definition cacheKeyValues : list string :=
  [ CACHE_KEYS.ALL_EXERCISES; CACHE_KEYS.EXERCISES_BY_MUSCLE;
    CACHE_KEYS.EXERCISES_BY_EQUIPMENT; CACHE_KEYS.MUSCLES_LIST;
    CACHE_KEYS.EQUIPMENT_LIST; CACHE_KEYS.SEARCH_RESULTS ].

(** The filter that picks [keysToRemove] in [clearCache(pattern)]: with a
    non-empty pattern the keys that include it, otherwise the keys that
    include one of the cache key texts. *)
Definition toRemove (pattern : option string) (key : string) : bool :=
  match pattern with
  | Some (String c p) => includes (String c p) key
  | _ => existsb (fun cacheKey => includes cacheKey key) cacheKeyValues
  end.

(** [clearCache(pattern)] on the whole of AsyncStorage, whatever the
    values are. *)
Definition clearCache {V} (pattern : option string) (storage : gmap string V)
    : gmap string V :=
  filter (fun kv => toRemove pattern kv.1 = false) storage.

Section ApiClear.
Context {X : Type} `{Platform X} `{Http X} `{JsString}.

(** [clearExerciseCache()] *)
Definition clearExerciseCache : M X unit :=
  fun st =>
    (Returned tt, setStorage (clearCache None (asyncStorage (world st))) st).

(** The body of the functions handed to [retryWithBackoff] and of the
    filtered reads: [api.get] followed by
    [response.data.map(mapExerciseData)]. *)
Definition fetchList (req : Request) : M X (list Exercise) :=
  response ← apiGet req; mapResponse response.

(** A step of the device that leaves the cache and the started refreshes
    as they are and appends [reqs] to the request log. *)
Definition fetched (reqs : list Request) (st st' : Sys (Device X)) : Prop :=
  asyncStorage (world st') = asyncStorage (world st)
  /\ background (world st') = background (world st)
  /\ requests (world st') = requests (world st) ++ reqs.

End ApiClear.

End ExerciseApi.

(* ===================================================================== *)
(** * A deterministic device on which the definitions can be run          *)
(* ===================================================================== *)

Module Sim.
Import Js ApiOptimization ExerciseApi.

(** The clock, the answer of [NetInfo.fetch()], and the completions of
    the coming transport calls in order. *)
Record World := mkWorld {
  time : Z;
  net : option (bool * option bool);
  replies : list (Completion ResponseData)
}.

Definition networkError : JsError :=
  mkJsError "AxiosError" "Network Error" (Some "ERR_NETWORK") None.

#[export] Instance sim_platform : Platform World := {|
  clock := time;
  sleep delay w := mkWorld (time w + Qceiling delay) (net w) (replies w);
  netInfoFetch := net
|}.

(** The texts of the runs below are ASCII, where code units are
    characters. *)
#[export] Instance sim_string : JsString := {|
  jsLength := String.length;
  jsSubstring0 n s := String.substring 0 n s;
  nullishError value method :=
    mkJsError "TypeError"
      ("Cannot read properties of " +:+ value
       +:+ " (reading '" +:+ method +:+ "')")
      None None
|}.

#[export] Instance sim_http : Http World := {|
  httpGet _ _ w :=
    match replies w with
    | r :: rest => (r, mkWorld (time w) (net w) rest)
    | [] => (Thrown networkError, w)
    end
|}.

(** Stand-ins for the builtins on the texts used below: the identity for
    [toLowerCase] (the texts are lower-case already), and for [parseInt]
    a reader of the two ids that occur. *)
Definition lower (s : string) : string := s.

Definition readId (s : string) : option Z :=
  if decide (s = "7") then Some 7
  else if decide (s = "8") then Some 8
  else None.

Definition pressBanca : Exercise :=
  mapExerciseData (mkRawExercise 7 (Str "press banca") (Str "Pecho") (Str "Barra")
                     (Str "Intermedio") (Str "")).

(** A device at time [now] whose cache holds [entries]. *)
Definition device (now : Z) (online : bool)
    (entries : list (string * CacheText (list Exercise)))
    : Sys (Device World) :=
  mkSys (mkDevice (mkWorld now (Some (online, None)) [])
                  (list_to_map entries) [] [])
        (newDetector now).

End Sim.

(* ===================================================================== *)
(** * services/userPreferencesService.js: local-first preferences         *)
(* ===================================================================== *)

Module UserPreferences.
Import Js.

(** A value of a preference document.  [JIso ms] is the text
    [new Date(ms).toISOString()]; the texts held by [JStr] and [JArr] are
    not dates. *)
Inductive Json :=
| JNull
| JBool (b : bool)
| JNum (n : Z)
| JStr (s : string)
| JIso (ms : Z)
| JArr (l : list string).

(** A preference document: a plain object. *)
Abbreviation Doc := (gmap string Json).

(** JavaScript truthiness. *)
Definition truthy (j : Json) : bool :=
  match j with
  | JNull => false
  | JBool b => b
  | JNum n => negb (n =? 0)
  | JStr s => negb (bool_decide (s = ""))
  | JIso _ => true
  | JArr _ => true
  end.

(** [new Date(j).getTime()]; [None] is NaN. *)
Definition dateGetTime (j : Json) : option Z :=
  match j with
  | JNull => Some 0
  | JBool b => Some (if b then 1 else 0)
  | JNum n => Some n
  | JIso ms => Some ms
  | JStr _ => None
  | JArr _ => None
  end.

(** [new Date(prefs?.lastUpdated || 0).getTime()] *)
Definition timestampOf (prefs : option Doc) : option Z :=
  match prefs ≫= (fun d : Doc => d !! "lastUpdated") with
  | Some j => if truthy j then dateGetTime j else Some 0
  | None => Some 0
  end.

(** [a > b] on numbers: false as soon as one side is NaN. *)
Definition numGt (a b : option Z) : bool :=
  match a, b with
  | Some x, Some y => x >? y
  | _, _ => false
  end.

(** The text AsyncStorage holds under a preference key: the JSON of a
    document, or text whose decoding throws. *)
Inductive LocalText :=
| DocText (d : Doc)
| BadText.

(** The state the service works on: AsyncStorage, the Firestore
    collection [userPreferences] (by document id), the answer of
    [NetInfo.fetch()], and for each coming Firestore call whether it
    throws ([true]); calls beyond the list succeed. *)
Record World := mkWorld {
  asyncStorage : gmap string LocalText;
  firestore : gmap string Doc;
  netInfo : option (bool * option bool);
  faults : list bool
}.

Definition localKey (userId : string) : string :=
  "userPreferences_" +:+ userId.

Definition setLocal (key : string) (t : LocalText) (w : World) : World :=
  mkWorld (<[key := t]> (asyncStorage w)) (firestore w) (netInfo w) (faults w).

(** [checkConnectivity()] *)
Definition checkConnectivity (w : World) : bool :=
  match netInfo w with
  | Some (isConnected, isInternetReachable) =>
      isConnected && negb (bool_decide (isInternetReachable = Some false))
  | None => false
  end.

(** One Firestore call: it throws when the next fault flag says so. *)
Definition firestoreCall {A} (call : World -> A * World) (w : World)
    : Completion A * World :=
  match faults w with
  | true :: rest =>
      (Thrown (mkJsError "FirebaseError" "unavailable" (Some "unavailable") None),
       mkWorld (asyncStorage w) (firestore w) (netInfo w) rest)
  | false :: rest =>
      let '(a, w') :=
        call (mkWorld (asyncStorage w) (firestore w) (netInfo w) rest) in
      (Returned a, w')
  | [] => let '(a, w') := call w in (Returned a, w')
  end.

(** [await setDoc(doc(db, COLLECTION_NAME, userId), data)] *)
Definition setDoc (userId : string) (data : Doc) (w : World)
    : Completion unit * World :=
  firestoreCall
    (fun w => (tt, mkWorld (asyncStorage w) (<[userId := data]> (firestore w))
                           (netInfo w) (faults w))) w.

(** [await getDoc(docRef)] followed by [exists() ? data() : null] *)
Definition getDoc (userId : string) (w : World)
    : Completion (option Doc) * World :=
  firestoreCall (fun w => (firestore w !! userId, w)) w.

(** The loop of [retryWithBackoff(fn, retries)], at index
    [i = retries - remaining]; [None] is the [undefined] the function
    yields when the loop body never runs.  The waits between attempts do
    not touch the modelled state. *)
Fixpoint retryLoop {A} (fn : World -> Completion A * World)
    (remaining : nat) (w : World) : Completion (option A) * World :=
  match remaining with
  | O => (Returned None, w)
  | S remaining' =>
      match fn w with
      | (Returned a, w') => (Returned (Some a), w')
      | (Thrown error, w') =>
          match remaining' with
          | O => (Thrown error, w')
          | S _ => retryLoop fn remaining' w'
          end
      end
  end.

(** [retryWithBackoff(fn)] with the default [retries = 3]. *)
Definition retryWithBackoff {A} (fn : World -> Completion A * World)
    (w : World) : Completion (option A) * World :=
  retryLoop fn 3 w.

(** The object literal built by [saveUserPreferences]; [tCompleted] and
    [tUpdated] are the two readings of [new Date()]. *)
Definition preferencesData (userId : string) (preferences : Doc)
    (tCompleted tUpdated : Z) : Doc :=
  <["lastUpdated" := JIso tUpdated]>
    (<["version" := JStr "1.0"]>
       (<["completedAt" := JIso tCompleted]>
          (<["userId" := JStr userId]> preferences))).

(** [saveUserPreferences(userId, preferences)] *)
Definition saveUserPreferences (tCompleted tUpdated : Z) (userId : string)
    (preferences : Doc) (w : World) : Doc * World :=
  let data := preferencesData userId preferences tCompleted tUpdated in
  let w1 := setLocal (localKey userId) (DocText data) w in
  if negb (checkConnectivity w1) then (data, w1)
  else
    let '(_, w2) := retryWithBackoff (setDoc userId data) w1 in
    (data, w2).

(** [getUserPreferences(userId)] *)
Definition getUserPreferences (userId : string) (w : World)
    : option Doc * World :=
  let cachedPreferences :=
    match asyncStorage w !! localKey userId with
    | Some (DocText d) => Some d
    | _ => None
    end in
  if negb (checkConnectivity w) then (cachedPreferences, w)
  else
    match retryWithBackoff (getDoc userId) w with
    | (Returned (Some (Some freshPreferences)), w1) =>
        (Some freshPreferences,
         setLocal (localKey userId) (DocText freshPreferences) w1)
    | (Returned _, w1) => (cachedPreferences, w1)
    | (Thrown _, w1) => (cachedPreferences, w1)
    end.

(** [updateUserPreferences(userId, updates)]; [tMerged] is the reading of
    [new Date()] in its own object literal.  In a spread the later source
    wins, which is the left-biased union with [updates] on the left. *)
Definition updateUserPreferences (tMerged tCompleted tUpdated : Z)
    (userId : string) (updates : Doc) (w : World)
    : Completion Doc * World :=
  match getUserPreferences userId w with
  | (None, w1) =>
      (Thrown (newError "No existing preferences found to update"), w1)
  | (Some currentPreferences, w1) =>
      let updatedPreferences :=
        <["lastUpdated" := JIso tMerged]> (updates ∪ currentPreferences) in
      let '(data, w2) :=
        saveUserPreferences tCompleted tUpdated userId updatedPreferences w1 in
      (Returned data, w2)
  end.

(** [syncPendingData(userId)] *)
Definition syncPendingData (userId : string) (w : World) : bool * World :=
  if negb (checkConnectivity w) then (false, w)
  else
    match asyncStorage w !! localKey userId with
    | None => (true, w)
    | Some BadText => (false, w)
    | Some (DocText localPreferences) =>
        let '(firestorePreferences, w1) :=
          match getDoc userId w with
          | (Returned found, w1) => (found, w1)
          | (Thrown _, w1) => (None, w1)
          end in
        let localTimestamp := timestampOf (Some localPreferences) in
        let firestoreTimestamp := timestampOf firestorePreferences in
        if numGt localTimestamp firestoreTimestamp then
          match setDoc userId localPreferences w1 with
          | (Returned _, w2) => (true, w2)
          | (Thrown _, w2) => (false, w2)
          end
        else
          match firestorePreferences with
          | Some remote =>
              if numGt firestoreTimestamp localTimestamp then
                (true, setLocal (localKey userId) (DocText remote) w1)
              else (true, w1)
          | None => (true, w1)
          end
    end.

(** The next [n] Firestore calls succeed. *)
Definition succeeds (n : nat) (w : World) : Prop :=
  Forall (fun fault => fault = false) (take n (faults w)).

(** A document carrying only a [lastUpdated] stamp, and a world whose
    local and remote sides hold such documents for the user "u1". *)
Definition stamped (T : Z) : Doc :=
  <["lastUpdated" := JIso T]> ∅.

Definition quizWorld (localStamp remoteStamp : option Z)
    (netInfo : option (bool * option bool)) (faults : list bool) : World :=
  mkWorld
    (match localStamp with
     | Some T => <[localKey "u1" := DocText (stamped T)]> ∅
     | None => ∅
     end)
    (match remoteStamp with
     | Some T => <["u1" := stamped T]> ∅
     | None => ∅
     end)
    netInfo faults.

(** The data of user [other], local and remote, are the same in [w'] as
    in [w]. *)
Definition untouched (other : string) (w w' : World) : Prop :=
  asyncStorage w' !! localKey other = asyncStorage w !! localKey other
  /\ firestore w' !! other = firestore w !! other.

(** The device of [w] once connectivity is back and Firestore answers:
    the stores are as they were. *)
Definition backOnline (w : World) : World :=
  mkWorld (asyncStorage w) (firestore w) (Some (true, Some true)) [].

End UserPreferences.

(* ===================================================================== *)
(** * utils/routineMigration.js and RoutineService.cleanDuplicateRoutines *)
(* ===================================================================== *)

Module Routines.
Import Js.

(** A routine record; timestamps are the instants their ISO texts denote. *)
Record Routine := mkRoutine {
  id : string;
  name : string;
  isCustom : bool;
  isGenerated : bool;
  exercises : list string;
  createdAt : Z;
  updatedAt : Z;
  timesCompleted : Z;
  lastCompleted : option Z;
  migratedAt : option Z;
  originalId : option string
}.

(** The text AsyncStorage holds under a key of this module: the JSON of an
    array of routines, or any other text (the migration marker is the text
    [true]).  Under a key [user_routines_...] the other text is one that
    [JSON.parse] rejects, or the JSON of [null], of a boolean, of a number
    or of an object: decoding it throws, or else looping over the value
    or calling an array method on it does.  The JSON of a string, and of
    an array of anything but routines, is outside this model. *)
Inductive Stored :=
| RoutinesText (l : list Routine)
| Text (s : string).

Abbreviation Storage := (gmap string Stored).

Definition MIGRATION_KEY : string := "routine_migration_completed_v1".
Definition USER_ROUTINES : string := "user_routines_".

Definition migrationKey (userId : string) : string :=
  MIGRATION_KEY +:+ "_" +:+ userId.

Definition oldKey : string := "user_routines_default_user".

Definition newKey (userId : string) : string :=
  "user_routines_" +:+ userId.

(** [isMigrationCompleted(userId)] *)
Definition isMigrationCompleted (userId : string) (storage : Storage) : bool :=
  match storage !! migrationKey userId with
  | Some (Text completed) => bool_decide (completed = "true")
  | _ => false
  end.

(** [markMigrationCompleted(userId)] *)
Definition markMigrationCompleted (userId : string) (storage : Storage)
    : Storage :=
  <[migrationKey userId := Text "true"]> storage.

(** What the environment supplies for one migrated routine: the new id
    (clock reading, underscore, random suffix) and the two readings of
    [new Date()] for [migratedAt] and [updatedAt]. *)
Record Fresh := mkFresh {
  freshId : string;
  freshMigratedAt : Z;
  freshUpdatedAt : Z
}.

(** The copy made of a legacy routine. *)
Definition migratedRoutine (f : Fresh) (routine : Routine) : Routine := {|
  id := freshId f;
  name := name routine;
  isCustom := isCustom routine;
  isGenerated := isGenerated routine;
  exercises := exercises routine;
  createdAt := createdAt routine;
  updatedAt := freshUpdatedAt f;
  timesCompleted := timesCompleted routine;
  lastCompleted := lastCompleted routine;
  migratedAt := Some (freshMigratedAt f);
  originalId := Some (id routine)
|}.

(** The [for (const routine of oldRoutines)] loop; [i] is the position of
    the routine at hand and [fresh i] what the environment supplies for it. *)
Fixpoint routinesToMigrate (fresh : nat -> Fresh) (existingNames : gset string)
    (i : nat) (oldRoutines : list Routine) : list Routine :=
  match oldRoutines with
  | [] => []
  | routine :: rest =>
      if bool_decide (name routine ∈ existingNames) then
        routinesToMigrate fresh existingNames (S i) rest
      else
        migratedRoutine (fresh i) routine
        :: routinesToMigrate fresh existingNames (S i) rest
  end.

(** The object [migrateUserRoutines] returns after migrating. *)
Record Summary := mkSummary {
  migrated : nat;
  existing : nat;
  total : nat
}.

Definition syntaxError : JsError :=
  mkJsError "SyntaxError" "JSON Parse error" None None.

(** [migrateUserRoutines(userId)]; the result [None] is [undefined]. *)
Definition migrateUserRoutines (fresh : nat -> Fresh) (userId : string)
    (storage : Storage) : Completion (option Summary) * Storage :=
  if isMigrationCompleted userId storage then (Returned None, storage)
  else
    match storage !! oldKey with
    | None | Some (Text "") =>
        (Returned None, markMigrationCompleted userId storage)
    | Some (Text _) => (Thrown syntaxError, storage)
    | Some (RoutinesText oldRoutines) =>
        match storage !! newKey userId with
        | Some (Text (String _ _)) => (Thrown syntaxError, storage)
        | existingData =>
            let existingRoutines :=
              match existingData with
              | Some (RoutinesText l) => l
              | _ => []
              end in
            let existingNames : gset string :=
              list_to_set (map name existingRoutines) in
            let toMigrate :=
              routinesToMigrate fresh existingNames 0 oldRoutines in
            let storage1 :=
              if (0 <? length toMigrate)%nat then
                <[newKey userId :=
                    RoutinesText (existingRoutines ++ toMigrate)]> storage
              else storage in
            (Returned (Some (mkSummary (length toMigrate)
                                       (length existingRoutines)
                                       (length existingRoutines
                                        + length toMigrate))),
             markMigrationCompleted userId storage1)
        end
    end.

(** What [JSON.parse] and the engine make of a text other than the JSON
    of an array of routines: whether [JSON.parse] returns on it (it does
    on the text [true]), the TypeError thrown when the array method of
    that name is called on the value it returned, and the TypeError
    thrown when a [for ... of] loop is started on that value. *)
Class JsonParse := {
  parses : string -> bool;
  parses_true : parses "true" = true;
  methodError : string -> string -> JsError;
  iterationError : string -> JsError
}.

(** What [getUserRoutines] hands to its caller: an array of routines, or
    the value of a text that [JSON.parse] accepted and that is not an
    array (given here by that text). *)
Inductive Parsed :=
| Array (routines : list Routine)
| NotArray (text : string).

(** The routines of an array; a value that is not an array has none. *)
Definition routinesOf (parsed : Parsed) : list Routine :=
  match parsed with
  | Array routines => routines
  | NotArray _ => []
  end.



Section Reads.
Context `{JsonParse}.

(** [getUserRoutines(userId)]: [routines ? JSON.parse(routines) : []],
    and [[]] when [JSON.parse] throws. *)
Definition getUserRoutines (userId : string) (storage : Storage) : Parsed :=
  match storage !! (USER_ROUTINES +:+ userId) with
  | Some (RoutinesText l) => Array l
  | Some (Text (String c s)) =>
      if parses (String c s) then NotArray (String c s) else Array []
  | Some (Text "") | None => Array []
  end.




End Reads.

(** [keysToClean] of [cleanupOldRoutineData]. *)
Definition keysToClean : list string :=
  [ "user_routines_default_user"; "routine_history_default_user";
    "favorite_routines_default_user" ].

(** [cleanupOldRoutineData()]: each key whose text is not empty is
    removed. *)
Definition cleanupOldRoutineData (storage : Storage) : Storage :=
  foldl (fun st key =>
           match st !! key with
           | None | Some (Text "") => st
           | Some _ => delete key st
           end) storage keysToClean.

(** Sample data: two legacy routines, a user routine that already bears
    the name of the first, and what the environment supplies. *)
Definition legacyPush : Routine :=
  mkRoutine "1700000000000" "Push" true false ["press banca"] 10 10 0 None
            None None.
Definition legacyPull : Routine :=
  mkRoutine "1700000000001" "Pull" true false ["remo"] 11 11 2 (Some 50)
            None None.
Definition ownPush : Routine :=
  mkRoutine "1800000000000" "Push" true false ["fondos"] 20 20 0 None
            None None.

Definition sampleFresh (i : nat) : Fresh :=
  mkFresh ("1900000000000_abc" +:+ pretty i) 900 901.

Definition sampleStorage : Storage :=
  <[newKey "u1" := RoutinesText [ownPush]]>
    (<[oldKey := RoutinesText [legacyPush; legacyPull]]> ∅).



(** A stand-in for [JSON.parse] on the texts used below: of these it
    accepts the scalars [true], [false] and [null]. *)
Definition sampleParses (s : string) : bool :=
  bool_decide (s ∈ ["true"; "false"; "null"]).

Definition sampleParse : JsonParse := {|
  parses := sampleParses;
  parses_true := eq_refl;
  methodError text method :=
    mkJsError "TypeError" ("routines." +:+ method +:+ " is not a function")
              None None;
  iterationError text :=
    mkJsError "TypeError" (text +:+ " is not iterable") None None
|}.

End Routines.

(* ===================================================================== *)
(** * Properties of the rate limiter                                      *)
(* ===================================================================== *)

Module RateLimiterSpec.
Import RateLimiter.

Ltac zbool :=
  repeat match goal with
  | |- context [?a >? ?b] => destruct (Z.gtb_spec a b); try lia
  | |- context [?a =? ?b] => destruct (Z.eqb_spec a b); try lia
  | |- context [?a <=? ?b] => destruct (Z.leb_spec a b); try lia
  | |- context [?a <? ?b] => destruct (Z.ltb_spec a b); try lia
  end.

(** [exitOf] names the exit [isAllowed] takes. *)
Lemma exitOf_sound now key maxAttempts timeWindow (attempts : Store) :
  fst (isAllowed now key maxAttempts timeWindow attempts)
  = exitAllows (exitOf now key maxAttempts timeWindow attempts).
Proof.
  unfold isAllowed, exitOf.
  repeat match goal with |- context [if ?c then _ else _] => destruct c end;
    reflexivity.
Qed.

(** A refused call leaves the map as it was. *)
Lemma isAllowed_refused now key maxAttempts timeWindow (attempts : Store) :
  fst (isAllowed now key maxAttempts timeWindow attempts) = false ->
  snd (isAllowed now key maxAttempts timeWindow attempts) = attempts.
Proof.
  unfold isAllowed.
  repeat match goal with |- context [if ?c then _ else _] => destruct c end;
    simpl; congruence.
Qed.

Lemma isAllowed_first now key maxAttempts timeWindow (attempts : Store) :
  attempts !! key = None -> 0 <= timeWindow ->
  isAllowed now key maxAttempts timeWindow attempts
  = (true, <[key := mkAttempts 1 (now + timeWindow) now]> attempts)
  /\ exitOf now key maxAttempts timeWindow attempts = FirstAttempt.
Proof.
  intros Hk Hw. unfold isAllowed, exitOf. rewrite Hk. simpl.
  zbool. split; reflexivity.
Qed.

Lemma isAllowed_counted now key maxAttempts timeWindow (attempts : Store) r :
  attempts !! key = Some r ->
  now <= resetTime r -> count r <> 0 -> count r < maxAttempts ->
  (count r < 3 \/ shortCooldown <= now - firstAttempt r) ->
  isAllowed now key maxAttempts timeWindow attempts
  = (true, <[key := mkAttempts (count r + 1) (resetTime r)
                               (firstAttempt r)]> attempts)
  /\ exitOf now key maxAttempts timeWindow attempts = Counted.
Proof.
  intros Hk Hr Hc Hm Hs. unfold isAllowed, exitOf. rewrite Hk. simpl.
  zbool; simpl; split; reflexivity.
Qed.

Lemma isAllowed_soft now key maxAttempts timeWindow (attempts : Store) r :
  attempts !! key = Some r ->
  now <= resetTime r -> 3 <= count r < maxAttempts ->
  now - firstAttempt r < shortCooldown ->
  isAllowed now key maxAttempts timeWindow attempts = (false, attempts)
  /\ exitOf now key maxAttempts timeWindow attempts = SoftCooldown.
Proof.
  intros Hk Hr Hc Hs. unfold isAllowed, exitOf. rewrite Hk. simpl.
  zbool; simpl; split; reflexivity.
Qed.

Lemma isAllowed_hard now key maxAttempts timeWindow (attempts : Store) r :
  attempts !! key = Some r ->
  now <= resetTime r -> count r <> 0 -> maxAttempts <= count r ->
  isAllowed now key maxAttempts timeWindow attempts = (false, attempts)
  /\ exitOf now key maxAttempts timeWindow attempts = HardBlock.
Proof.
  intros Hk Hr Hc Hm. unfold isAllowed, exitOf. rewrite Hk. simpl.
  zbool; simpl; split; reflexivity.
Qed.

Lemma isAllowed_reset now key maxAttempts timeWindow (attempts : Store) r :
  attempts !! key = Some r -> resetTime r < now ->
  isAllowed now key maxAttempts timeWindow attempts
  = (true, <[key := mkAttempts 1 (now + timeWindow) now]> attempts)
  /\ exitOf now key maxAttempts timeWindow attempts = WindowReset.
Proof.
  intros Hk Hr. unfold isAllowed, exitOf. rewrite Hk. simpl.
  zbool; split; reflexivity.
Qed.

(** After [clearAttempts(key)] the next call is allowed. *)
Lemma clearAttempts_allows now key maxAttempts timeWindow (attempts : Store) :
  0 <= timeWindow ->
  fst (isAllowed now key maxAttempts timeWindow (clearAttempts key attempts))
  = true.
Proof.
  intros Hw.
  destruct (isAllowed_first now key maxAttempts timeWindow
              (clearAttempts key attempts)) as [Ha _]; [|exact Hw|].
  - unfold clearAttempts. apply lookup_delete_eq.
  - rewrite Ha. reflexivity.
Qed.

(** Once the soft cooldown refuses, every further call at the same
    instant is refused the same way. *)
Lemma rapidCalls_soft n now key maxAttempts timeWindow (attempts : Store) r :
  attempts !! key = Some r ->
  now <= resetTime r -> 3 <= count r < maxAttempts ->
  now - firstAttempt r < shortCooldown ->
  rapidCalls n now key maxAttempts timeWindow attempts
  = (replicate n (false, SoftCooldown), attempts).
Proof.
  intros Hk Hr Hc Hs. induction n as [|n IH]; [reflexivity|].
  destruct (isAllowed_soft now key maxAttempts timeWindow attempts r)
    as [Ha He]; try assumption.
  cbn [rapidCalls]. rewrite Ha, He, IH. reflexivity.
Qed.

Lemma rapidCalls_three now key (attempts : Store) :
  attempts !! key = None ->
  rapidCalls 3 now key 8 180000 attempts
  = ([(true, FirstAttempt); (true, Counted); (true, Counted)],
     <[key := mkAttempts 3 (now + 180000) now]> attempts).
Proof.
  intros Hk.
  destruct (isAllowed_first now key 8 180000 attempts Hk) as [A1 E1]; [lia|].
  set (s1 := <[key := mkAttempts 1 (now + 180000) now]> attempts) in *.
  destruct (isAllowed_counted now key 8 180000 s1
              (mkAttempts 1 (now + 180000) now)) as [A2 E2];
    try (simpl; lia).
  { unfold s1. apply lookup_insert_eq. }
  cbn [count resetTime firstAttempt] in A2.
  set (s2 := <[key := mkAttempts (1 + 1) (now + 180000) now]> s1) in *.
  destruct (isAllowed_counted now key 8 180000 s2
              (mkAttempts (1 + 1) (now + 180000) now)) as [A3 E3];
    try (simpl; lia).
  { unfold s2. apply lookup_insert_eq. }
  cbn [count resetTime firstAttempt] in A3.
  cbn [rapidCalls].
  rewrite A1, E1; cbv beta iota zeta.
  rewrite A2, E2; cbv beta iota zeta.
  rewrite A3, E3; cbv beta iota zeta.
  unfold s2, s1. rewrite !insert_insert_eq. reflexivity.
Qed.

Lemma rapidCalls_app n m now key maxAttempts timeWindow (attempts : Store) :
  rapidCalls (n + m) now key maxAttempts timeWindow attempts
  = let '(l1, s1) := rapidCalls n now key maxAttempts timeWindow attempts in
    let '(l2, s2) := rapidCalls m now key maxAttempts timeWindow s1 in
    (l1 ++ l2, s2).
Proof.
  revert attempts. induction n as [|n IH]; intros attempts.
  - simpl. destruct (rapidCalls m now key maxAttempts timeWindow attempts).
    reflexivity.
  - cbn [rapidCalls Nat.add].
    destruct (isAllowed now key maxAttempts timeWindow attempts) as [b s].
    rewrite IH.
    destruct (rapidCalls n now key maxAttempts timeWindow s) as [l1 s1].
    destruct (rapidCalls m now key maxAttempts timeWindow s1) as [l2 s2].
    reflexivity.
Qed.

(** C1, as the specification states it, fails on the code: of eight
    rapid calls for the fresh key "login_a@b.com" the third is allowed,
    and the eighth is refused by the soft cooldown, not by the hard
    window. *)
Lemma rapid_calls_not_as_specified :
  ~ scenarioAsSpecified
      (fst (rapidCalls 8 0 "login_a@b.com" 8 180000 ∅)).
Proof.
  intros (_ & H2 & _).
  specialize (H2 2%nat ltac:(lia)).
  vm_compute in H2. discriminate H2.
Qed.

(** C1 (corrected): for a fresh key, rapid calls of
    [isAllowed(key, 8, 180000)] at one instant [now] are answered: calls
    1 to 3 allowed, every later call (4 to 8 and onward) refused by the
    30-second soft cooldown counted from the first attempt; the stored
    count stays at 3, so the hard window is not reached.  The cooldown
    refuses until 30 s after the first attempt and admits the next call
    from then on. *)
Theorem rapid_calls_schedule now key (attempts : Store) (n : nat) :
  attempts !! key = None ->
  let after := <[key := mkAttempts 3 (now + 180000) now]> attempts in
  rapidCalls (3 + n) now key 8 180000 attempts = (rapidAnswers n, after)
  /\ (forall t, t <= now + 180000 -> t - now < 30000 ->
        isAllowed t key 8 180000 after = (false, after)
        /\ exitOf t key 8 180000 after = SoftCooldown)
  /\ (forall t, now + 30000 <= t <= now + 180000 ->
        fst (isAllowed t key 8 180000 after) = true).
Proof.
  intros Hk after.
  assert (Hafter : after !! key = Some (mkAttempts 3 (now + 180000) now))
    by (unfold after; apply lookup_insert_eq).
  split; [|split].
  - rewrite rapidCalls_app, (rapidCalls_three now key attempts Hk).
    fold after.
    rewrite (rapidCalls_soft n now key 8 180000 after _ Hafter);
      unfold shortCooldown; simpl; try lia.
    reflexivity.
  - intros t Ht Hs.
    apply (isAllowed_soft t key 8 180000 after _ Hafter);
      unfold shortCooldown; simpl; lia.
  - intros t Ht.
    destruct (isAllowed_counted t key 8 180000 after _ Hafter) as [Ha _];
      unfold shortCooldown; simpl; try lia.
    rewrite Ha. reflexivity.
Qed.

Lemma rapid_calls_schedule_witness :
  rapidCalls 8 0 "login_a@b.com" 8 180000 ∅
  = (rapidAnswers 5,
     <["login_a@b.com" := mkAttempts 3 180000 0]> ∅).
Proof.
  exact (proj1 (rapid_calls_schedule 0 "login_a@b.com" ∅ 5 eq_refl)).
Defined.

(** C9, as stated, fails on the code: for an existing record that is not
    blocked because its window has expired, [getStatus] does not
    increment the stored count; it puts a fresh record with count 1. *)
Lemma getStatus_expired_not_incremented :
  fiveAttempts !! "login_a@b.com" = Some (mkAttempts 5 180000 0)
  /\ isBlocked (fst (getStatus 200000 200000 "login_a@b.com" fiveAttempts))
     = false
  /\ snd (getStatus 200000 200000 "login_a@b.com" fiveAttempts)
       !! "login_a@b.com"
     <> Some (mkAttempts (5 + 1) 180000 0)
  /\ snd (getStatus 200000 200000 "login_a@b.com" fiveAttempts)
       !! "login_a@b.com"
     = Some (mkAttempts 1 380000 200000).
Proof.
  repeat split; try (vm_compute; reflexivity).
  vm_compute. discriminate.
Qed.

(** [getStatus] leaves the map as its inner call of [isAllowed], with the
    default limits, leaves it. *)
Lemma getStatus_store nowR nowA key (attempts : Store) r :
  attempts !! key = Some r ->
  snd (getStatus nowR nowA key attempts)
  = snd (isAllowed nowA key defaultMaxAttempts defaultTimeWindow attempts).
Proof.
  intros Hk. unfold getStatus. rewrite Hk.
  destruct (isAllowed nowA key defaultMaxAttempts defaultTimeWindow attempts).
  reflexivity.
Qed.

(** C9 (corrected): [getStatus] is not read-only.  For a key with an
    existing record that [isAllowed] does not refuse, [getStatus] runs
    [isAllowed] with the default limits 8 and 180000 and reports the key
    as not blocked; while the record's window is open this stores the
    count incremented by one, and once the window has expired it stores
    a fresh record with count 1.  Two calls of [getStatus] on a record
    with count 1 bring the key into the soft cooldown. *)
Theorem getStatus_counts_attempt nowR nowA key (attempts : Store) r :
  attempts !! key = Some r ->
  fst (isAllowed nowA key 8 180000 attempts) = true ->
  snd (getStatus nowR nowA key attempts)
    = snd (isAllowed nowA key 8 180000 attempts)
  /\ isBlocked (fst (getStatus nowR nowA key attempts)) = false
  /\ attempts_ (fst (getStatus nowR nowA key attempts)) = count r
  /\ (nowA <= resetTime r ->
        exists r', snd (getStatus nowR nowA key attempts) !! key = Some r'
                   /\ count r' = count r + 1
                   /\ resetTime r' = resetTime r)
  /\ (resetTime r < nowA ->
        snd (getStatus nowR nowA key attempts) !! key
        = Some (mkAttempts 1 (nowA + 180000) nowA))
  /\ (count r = 1 -> nowA <= resetTime r ->
      nowA - firstAttempt r < 30000 ->
        fst (isAllowed nowA key 8 180000 (repeatStatus 2 nowA key attempts))
        = false).
Proof.
  intros Hk Hallowed.
  pose proof (getStatus_store nowR nowA key attempts r Hk) as Hstore.
  unfold defaultMaxAttempts, defaultTimeWindow in Hstore.
  split; [exact Hstore|].
  split; [|split].
  { unfold getStatus. rewrite Hk.
    unfold defaultMaxAttempts, defaultTimeWindow.
    destruct (isAllowed nowA key 8 180000 attempts) as [b s].
    simpl in *. subst b. reflexivity. }
  { unfold getStatus. rewrite Hk.
    destruct (isAllowed nowA key defaultMaxAttempts defaultTimeWindow attempts).
    reflexivity. }
  split; [|split].
  - intros Hopen. rewrite Hstore.
    revert Hallowed. unfold isAllowed. rewrite Hk. simpl.
    repeat match goal with
           | |- context [if ?c then _ else _] => destruct c eqn:?
           end; simpl; intros Hallowed; try discriminate; try lia.
    + exists (mkAttempts 1 (resetTime r) nowA).
      rewrite lookup_insert_eq. simpl. repeat split; lia.
    + exists (mkAttempts (count r + 1) (resetTime r) (firstAttempt r)).
      rewrite lookup_insert_eq. simpl. repeat split; lia.
  - intros Hexpired. rewrite Hstore.
    destruct (isAllowed_reset nowA key 8 180000 attempts r Hk Hexpired)
      as [Ha _].
    rewrite Ha. simpl. apply lookup_insert_eq.
  - intros Hc Hopen Hsoft.
    cbn [repeatStatus].
    rewrite (getStatus_store nowA nowA key attempts r Hk).
    unfold defaultMaxAttempts, defaultTimeWindow.
    destruct (isAllowed_counted nowA key 8 180000 attempts r Hk)
      as [A1 _]; unfold shortCooldown; try lia.
    rewrite A1. cbn [snd].
    set (s1 := <[key := mkAttempts (count r + 1) (resetTime r)
                                   (firstAttempt r)]> attempts).
    assert (H1 : s1 !! key = Some (mkAttempts (count r + 1) (resetTime r)
                                              (firstAttempt r)))
      by (unfold s1; apply lookup_insert_eq).
    rewrite (getStatus_store nowA nowA key s1 _ H1).
    unfold defaultMaxAttempts, defaultTimeWindow.
    destruct (isAllowed_counted nowA key 8 180000 s1 _ H1)
      as [A2 _]; unfold shortCooldown; simpl; try lia.
    rewrite A2. cbn [snd count resetTime firstAttempt].
    set (s2 := <[key := _]> s1).
    assert (H2 : s2 !! key = Some (mkAttempts (count r + 1 + 1) (resetTime r)
                                              (firstAttempt r)))
      by (unfold s2; apply lookup_insert_eq).
    destruct (isAllowed_soft nowA key 8 180000 s2 _ H2)
      as [A3 _]; unfold shortCooldown; simpl; try lia.
    rewrite A3. reflexivity.
Qed.

Lemma getStatus_counts_attempt_witness :
  let attempts : Store := <["login_a@b.com" := mkAttempts 1 180000 0]> ∅ in
  snd (getStatus 0 0 "login_a@b.com" attempts) !! "login_a@b.com"
    = Some (mkAttempts 2 180000 0)
  /\ fst (isAllowed 0 "login_a@b.com" 8 180000
            (repeatStatus 2 0 "login_a@b.com" attempts)) = false.
Proof.
  intros attempts.
  destruct (getStatus_counts_attempt 0 0 "login_a@b.com" attempts
              (mkAttempts 1 180000 0) eq_refl eq_refl)
    as (Hs & _ & _ & _ & _ & Hpush).
  split.
  - rewrite Hs. reflexivity.
  - apply Hpush; simpl; lia.
Defined.

End RateLimiterSpec.

(* ===================================================================== *)
(** * Properties of the service-wake detector and of the retry wrapper    *)
(* ===================================================================== *)

Module ApiOptimizationSpec.
Import Js ApiOptimization.

Lemma markFailure_counts cfg e s :
  consecutiveFailures (markFailure cfg e s) = S (consecutiveFailures s).
Proof. unfold markFailure. destruct (_ || _); reflexivity. Qed.

Lemma markFailure_second cfg e s :
  (1 <= consecutiveFailures s)%nat ->
  isServiceAsleep (markFailure cfg e s) = true.
Proof.
  intros H. unfold markFailure.
  destruct (consecutiveFailures s) as [|k]; [lia|].
  rewrite orb_true_r. reflexivity.
Qed.

Lemma markFailure_signature cfg e s :
  isSleepIndicator cfg e = true ->
  isServiceAsleep (markFailure cfg e s) = true.
Proof. intros H. unfold markFailure. rewrite H. reflexivity. Qed.

Lemma asleep_uses_wake_up t s :
  isServiceAsleep s = true -> shouldUseWakeUpTimeout t s = true.
Proof. intros H. unfold shouldUseWakeUpTimeout. rewrite H. reflexivity. Qed.

(** C7: after two failures in a row (whatever the errors and the earlier
    state) [shouldUseWakeUpTimeout()] is true; one success then clears
    the asleep flag and makes [shouldUseWakeUpTimeout()] false, at the
    instant of the success and for the 15 minutes that follow; any
    success clears the flag at once, and a single failure whose message
    carries a sleep signature sets it. *)
Theorem wake_detection cfg e1 e2 s t tS :
  let failed := markFailure cfg e2 (markFailure cfg e1 s) in
  shouldUseWakeUpTimeout t failed = true
  /\ isServiceAsleep (markSuccess tS failed) = false
  /\ shouldUseWakeUpTimeout tS (markSuccess tS failed) = false
  /\ (forall t', t' - tS <= 15 * 60 * 1000 ->
        shouldUseWakeUpTimeout t' (markSuccess tS failed) = false)
  /\ (forall s', isServiceAsleep (markSuccess tS s') = false)
  /\ (forall e s', isSleepIndicator cfg e = true ->
        isServiceAsleep (markFailure cfg e s') = true
        /\ shouldUseWakeUpTimeout t (markFailure cfg e s') = true).
Proof.
  intros failed.
  assert (Hsoon : forall t', t' - tS <= 15 * 60 * 1000 ->
            shouldUseWakeUpTimeout t' (markSuccess tS failed) = false).
  { intros t' Ht. unfold shouldUseWakeUpTimeout, markSuccess. simpl.
    destruct (Z.gtb_spec (t' - tS) (15 * 60 * 1000)); [lia|reflexivity]. }
  split; [|split; [|split; [|split; [|split]]]].
  - apply asleep_uses_wake_up, markFailure_second.
    rewrite markFailure_counts. lia.
  - reflexivity.
  - apply Hsoon. lia.
  - exact Hsoon.
  - reflexivity.
  - intros e s' Hsig. split.
    + apply markFailure_signature, Hsig.
    + apply asleep_uses_wake_up, markFailure_signature, Hsig.
Qed.

Lemma wake_detection_witness :
  let failed :=
    markFailure RENDER_CONFIG (newError "boom")
      (markFailure RENDER_CONFIG (newError "boom") (newDetector 0)) in
  shouldUseWakeUpTimeout 10 failed = true
  /\ shouldUseWakeUpTimeout 20 (markSuccess 20 failed) = false
  /\ shouldUseWakeUpTimeout 900020 (markSuccess 20 failed) = false
  /\ isServiceAsleep
       (markFailure RENDER_CONFIG (newError "Network Error") (newDetector 0))
     = true.
Proof.
  intros failed.
  destruct (wake_detection RENDER_CONFIG (newError "boom") (newError "boom")
              (newDetector 0) 10 20)
    as (Hfailed & _ & Hnow & Hsoon & _ & Hsig).
  split; [exact Hfailed|].
  split; [exact Hnow|].
  split; [apply Hsoon; lia|].
  apply (Hsig (newError "Network Error") (newDetector 0)). reflexivity.
Defined.

Section RetrySpec.
Context {W : Type} `{Platform W} {R : Type}.

Lemma retryLoop_S cfg (fn : Operation W R) context remaining attempt
    lastError calls waits st :
  retryLoop cfg fn context (S remaining) attempt lastError calls waits st
  = let timeout := timeoutFor cfg attempt st in
    match fn timeout st with
    | (Returned result, st1) =>
        mkRun (Returned result) (calls ++ [timeout]) waits
              (mkSys (world st1)
                     (markSuccess (clock (world st1)) (detector st1)))
    | (Thrown error, st1) =>
        let st2 := mkSys (world st1) (markFailure cfg error (detector st1)) in
        if (attempt =? MAX_RETRIES cfg)%nat then
          mkRun (throwAfterLoop cfg context (Some error))
                (calls ++ [timeout]) waits st2
        else
          retryLoop cfg fn context remaining (S attempt) (Some error)
                    (calls ++ [timeout])
                    (waits ++ [backoffDelay cfg attempt])
                    (mkSys (sleep (backoffDelay cfg attempt) (world st2))
                           (detector st2))
    end.
Proof. reflexivity. Qed.

Lemma retryLoop_outcome cfg (fn : Operation W R) context :
  forall remaining attempt lastError calls waits st,
    (attempt + remaining)%nat = MAX_RETRIES cfg ->
    let r := retryLoop cfg fn context (S remaining) attempt lastError
                       calls waits st in
    returnedWithin fn (length calls) (S remaining) r
    \/ threwAfter cfg fn context (length calls) (S remaining) r.
Proof.
  induction remaining as [|remaining IH];
    intros attempt lastError calls waits st Hsum r; subst r;
    rewrite retryLoop_S; cbv zeta;
    destruct (fn (timeoutFor cfg attempt st) st) as [[result|error] st1] eqn:Hfn.
  - left. exists result, (timeoutFor cfg attempt st), st, st1.
    simpl. rewrite length_app. simpl. repeat split; try assumption; lia.
  - right. rewrite Nat.add_0_r in Hsum. subst attempt.
    rewrite Nat.eqb_refl.
    exists error, (timeoutFor cfg (MAX_RETRIES cfg) st), st, st1.
    simpl. rewrite length_app. simpl. repeat split; try assumption; lia.
  - left. exists result, (timeoutFor cfg attempt st), st, st1.
    simpl. rewrite length_app. simpl. repeat split; try assumption; lia.
  - destruct (Nat.eqb_spec attempt (MAX_RETRIES cfg)) as [Heq|Hne]; [lia|].
    match goal with
    | |- context [retryLoop cfg fn context (S remaining) ?a ?le ?c ?w ?s] =>
        destruct (IH a le c w s ltac:(lia)) as [Hret|Hthrow]
    end.
    + left. destruct Hret as (result & timeout & st0 & st1' & Hc & Hf & Hlen).
      exists result, timeout, st0, st1'.
      rewrite length_app in Hlen. cbn [length] in Hlen.
      repeat split; try assumption; lia.
    + right. destruct Hthrow as (e & timeout & st0 & st1' & Hc & Hf & Hlen).
      exists e, timeout, st0, st1'.
      rewrite length_app in Hlen. cbn [length] in Hlen.
      repeat split; try assumption; lia.
Qed.

End RetrySpec.

(** ** The run as the operation and the timer see it *)

Section RetryObserved.
Context {W : Type} `{Platform W} {R : Type}.

Lemma outcomes_schedule cfg (more : list Z) returned :
  forall attempt,
    more <> [] ->
    outcomes (schedule cfg attempt more returned)
    = replicate (length more - 1) false ++ [returned].
Proof.
  induction more as [|timeout rest IH]; intros attempt Hne; [congruence|].
  destruct rest as [|timeout' rest']; [reflexivity|].
  change (outcomes (schedule cfg attempt (timeout :: timeout' :: rest')
                      returned))
    with (false :: outcomes (schedule cfg (S attempt) (timeout' :: rest')
                               returned)).
  rewrite IH by discriminate. cbn [length Nat.sub replicate app].
  rewrite ?Nat.sub_0_r. reflexivity.
Qed.

Lemma observe_eq (fn : Operation W R) timeout w d log :
  observe fn timeout (mkSys (mkObserved w log) d)
  = let '(c, st1) := fn timeout (mkSys w d) in
    (c,
     mkSys (mkObserved (world st1) (log ++ [Invoked timeout (isReturned c)]))
           (detector st1)).
Proof. reflexivity. Qed.

(** The loop on the observed world does to the world and to the detector
    what it does without the record, and the record it leaves is the
    schedule of the attempts it made. *)
Lemma retryLoop_observed cfg (fn : Operation W R) context :
  forall remaining attempt lastError calls waits (w : W) d (log : list Event),
    (attempt + remaining)%nat = MAX_RETRIES cfg ->
    let r := retryLoop cfg fn context (S remaining) attempt lastError
                       calls waits (mkSys w d) in
    let seen := retryLoop cfg (observe fn) context (S remaining) attempt
                          lastError calls waits
                          (mkSys (mkObserved w log) d) in
    completion seen = completion r
    /\ invocations seen = invocations r
    /\ delays seen = delays r
    /\ inner (world (final seen)) = world (final r)
    /\ detector (final seen) = detector (final r)
    /\ exists more,
         invocations r = calls ++ more
         /\ (1 <= length more <= S remaining)%nat
         /\ (isReturned (completion r) = false -> length more = S remaining)
         /\ events (world (final seen))
            = log ++ schedule cfg attempt more (isReturned (completion r)).
Proof.
  induction remaining as [|remaining IH];
    intros attempt lastError calls waits w d log Hsum r seen;
    subst r seen; rewrite !retryLoop_S; cbv zeta;
    change (timeoutFor cfg attempt (mkSys (mkObserved w log) d))
      with (timeoutFor cfg attempt (mkSys w d));
    set (timeout := timeoutFor cfg attempt (mkSys w d));
    rewrite observe_eq;
    destruct (fn timeout (mkSys w d)) as [[result|error] [w1 d1]];
    cbn [isReturned world detector].
  - repeat (split; [reflexivity|]). exists [timeout].
    split; [reflexivity|]. split; [simpl; lia|].
    split; [intros Hf; discriminate Hf|reflexivity].
  - rewrite Nat.add_0_r in Hsum. subst attempt. rewrite Nat.eqb_refl.
    repeat (split; [reflexivity|]). exists [timeout].
    split; [reflexivity|]. split; [simpl; lia|].
    split; [reflexivity|reflexivity].
  - repeat (split; [reflexivity|]). exists [timeout].
    split; [reflexivity|]. split; [simpl; lia|].
    split; [intros Hf; discriminate Hf|reflexivity].
  - destruct (Nat.eqb_spec attempt (MAX_RETRIES cfg)) as [Heq|Hne]; [lia|].
    specialize (IH (S attempt) (Some error) (calls ++ [timeout])
                   (waits ++ [backoffDelay cfg attempt])
                   (sleep (backoffDelay cfg attempt) w1)
                   (markFailure cfg error d1)
                   ((log ++ [Invoked timeout false])
                    ++ [Waited (backoffDelay cfg attempt)])
                   ltac:(lia)).
    cbv zeta in IH.
    destruct IH as (Hc & Hi & Hd & Hw & Hdet & more & Hmore & Hlen & Hall & Hev).
    split; [exact Hc|]. split; [exact Hi|]. split; [exact Hd|].
    split; [exact Hw|]. split; [exact Hdet|].
    exists (timeout :: more).
    split; [etransitivity; [exact Hmore|]; rewrite <- app_assoc; reflexivity|].
    split; [simpl; lia|].
    split; [intros Hf; simpl; rewrite (Hall Hf); reflexivity|].
    etransitivity; [exact Hev|]. rewrite <- !app_assoc.
    destruct more as [|timeout' more']; [simpl in Hlen; lia|].
    reflexivity.
Qed.

(** C4: the retry wrapper is a total function, and with at least one
    attempt configured a run either returns a value the operation
    returned, after between 1 and [MAX_RETRIES] invocations, or throws
    the wrapped error after exactly [MAX_RETRIES] invocations.  An
    operation that always throws is invoked exactly [MAX_RETRIES] times;
    under the shipped configuration ([MAX_RETRIES = 3]) exactly 3 times.

    The invocations are counted where they happen: on the observed
    world, where the operation itself records each of its invocations,
    the run does to the world and to the detector what it does without
    the record, and the record holds [k] invocations with
    [1 <= k <= MAX_RETRIES], of which every one but the last threw and
    the last returned exactly when the run returns; when the run throws,
    [k = MAX_RETRIES].  The first invocation is made on the state the
    run starts from, and a run whose first invocation returns ends in
    the state that invocation left, with the success marked. *)
Theorem retry_terminates cfg (fn : Operation W R) context st e :
  (1 <= MAX_RETRIES cfg)%nat ->
  let r := retryWithRenderOptimizationCfg cfg fn context st in
  let failing : Run W R :=
    retryWithRenderOptimizationCfg cfg (alwaysThrows e) context st in
  let shipped : Run W R :=
    retryWithRenderOptimization (alwaysThrows e) context st in
  let seen : Run (Observed W) R :=
    retryWithRenderOptimizationCfg cfg (observe fn) context (observing st) in
  let seenFailing : Run (Observed W) R :=
    retryWithRenderOptimizationCfg cfg (observe (alwaysThrows e)) context
                                   (observing st) in
  let seenShipped : Run (Observed W) R :=
    retryWithRenderOptimization (observe (alwaysThrows e)) context
                                (observing st) in
  (returnedWithin fn 0 (MAX_RETRIES cfg) r
   \/ threwAfter cfg fn context 0 (MAX_RETRIES cfg) r)
  /\ completion failing = Thrown (wrappedError cfg context e)
  /\ length (invocations failing) = MAX_RETRIES cfg
  /\ completion shipped = Thrown (wrappedError RENDER_CONFIG context e)
  /\ length (invocations shipped) = 3%nat
  /\ (completion seen = completion r
      /\ inner (world (final seen)) = world (final r)
      /\ detector (final seen) = detector (final r))
  /\ (exists k,
        (1 <= k <= MAX_RETRIES cfg)%nat
        /\ outcomes (events (world (final seen)))
           = replicate (k - 1) false ++ [isReturned (completion r)]
        /\ (forall x, completion r = Thrown x -> k = MAX_RETRIES cfg))
  /\ outcomes (events (world (final seenFailing)))
     = replicate (MAX_RETRIES cfg) false
  /\ outcomes (events (world (final seenShipped))) = [false; false; false]
  /\ (forall result st1,
        fn (timeoutFor cfg 1 st) st = (Returned result, st1) ->
        completion r = Returned result
        /\ outcomes (events (world (final seen))) = [true]
        /\ final r
           = mkSys (world st1)
                   (markSuccess (clock (world st1)) (detector st1))).
Proof.
  intros Hmax r failing shipped seen seenFailing seenShipped.
  assert (Hfail : forall cfg', (1 <= MAX_RETRIES cfg')%nat ->
    let f : Run W R :=
      retryWithRenderOptimizationCfg cfg' (alwaysThrows e) context st in
    completion f = Thrown (wrappedError cfg' context e)
    /\ length (invocations f) = MAX_RETRIES cfg').
  { intros cfg' Hmax' f. subst f. unfold retryWithRenderOptimizationCfg.
    destruct (MAX_RETRIES cfg') as [|k] eqn:Hk; [lia|].
    destruct (retryLoop_outcome (R := R) cfg' (alwaysThrows e) context k 1
                None [] [] st)
      as [Hret|Hthrow]; [lia| |].
    - destruct Hret as (result & timeout & st0 & st1 & _ & Hf & _).
      discriminate Hf.
    - destruct Hthrow as (e' & timeout & st0 & st1 & Hc & Hf & Hlen).
      unfold alwaysThrows in Hf. injection Hf as He _. subst e'.
      cbn [length Nat.add] in Hlen. split; assumption. }
  assert (Hseen : forall cfg' (fn' : Operation W R),
    (1 <= MAX_RETRIES cfg')%nat ->
    let r' := retryWithRenderOptimizationCfg cfg' fn' context st in
    let seen' : Run (Observed W) R :=
      retryWithRenderOptimizationCfg cfg' (observe fn') context
                                     (observing st) in
    (completion seen' = completion r'
     /\ inner (world (final seen')) = world (final r')
     /\ detector (final seen') = detector (final r'))
    /\ exists k,
         (1 <= k <= MAX_RETRIES cfg')%nat
         /\ outcomes (events (world (final seen')))
            = replicate (k - 1) false ++ [isReturned (completion r')]
         /\ (isReturned (completion r') = false -> k = MAX_RETRIES cfg')).
  { intros cfg' fn' Hmax' r' seen'. subst r' seen'.
    unfold retryWithRenderOptimizationCfg, observing.
    destruct st as [w d]. cbn [world detector].
    destruct (MAX_RETRIES cfg') as [|m] eqn:Hm; [lia|].
    destruct (retryLoop_observed cfg' fn' context m 1 None [] [] w d []
                ltac:(lia))
      as (Hc & _ & _ & Hw & Hd & more & _ & Hlen & Hall & Hev).
    split; [repeat split; assumption|].
    exists (length more). split; [lia|].
    split; [|exact Hall].
    rewrite Hev. cbn [app]. apply outcomes_schedule.
    intros ->. simpl in Hlen. lia. }
  assert (Hsf : forall cfg', (1 <= MAX_RETRIES cfg')%nat ->
    let s' : Run (Observed W) R :=
      retryWithRenderOptimizationCfg cfg' (observe (alwaysThrows e)) context
                                     (observing st) in
    outcomes (events (world (final s'))) = replicate (MAX_RETRIES cfg') false).
  { intros cfg' Hmax' s'. subst s'.
    destruct (Hseen cfg' (alwaysThrows (R := R) e) Hmax')
      as (_ & k & Hk & Hout & Hall).
    cbv zeta in Hout, Hall.
    destruct (Hfail cfg' Hmax') as [Hc _]. cbv zeta in Hc.
    rewrite Hc in Hout, Hall. cbn [isReturned] in Hout, Hall.
    specialize (Hall eq_refl). subst k. rewrite Hout.
    destruct (MAX_RETRIES cfg') as [|m]; [lia|].
    cbn [Nat.sub]. rewrite Nat.sub_0_r.
    clear. induction m as [|m IH]; [reflexivity|].
    cbn [replicate app]. rewrite IH. reflexivity. }
  split; [|split; [|split; [|split; [|split; [|split; [|split;
    [|split; [|split]]]]]]]].
  - subst r. unfold retryWithRenderOptimizationCfg.
    destruct (MAX_RETRIES cfg) as [|k] eqn:Hk; [lia|].
    rewrite <- Hk.
    pose proof (retryLoop_outcome cfg fn context k 1 None [] [] st) as Hout.
    rewrite Hk in *. apply Hout. lia.
  - apply (Hfail cfg Hmax).
  - apply (Hfail cfg Hmax).
  - apply (Hfail RENDER_CONFIG). simpl. lia.
  - apply (Hfail RENDER_CONFIG). simpl. lia.
  - apply (Hseen cfg fn Hmax).
  - destruct (Hseen cfg fn Hmax) as (_ & k & Hk & Hout & Hall).
    exists k. split; [exact Hk|]. split; [exact Hout|].
    intros x Hx. apply Hall. fold r. rewrite Hx. reflexivity.
  - apply (Hsf cfg Hmax).
  - apply (Hsf RENDER_CONFIG). simpl. lia.
  - intros result st1 Hfirst.
    assert (Hr : r = mkRun (Returned result) [timeoutFor cfg 1 st] []
                       (mkSys (world st1)
                              (markSuccess (clock (world st1))
                                           (detector st1)))).
    { subst r. unfold retryWithRenderOptimizationCfg.
      destruct (MAX_RETRIES cfg) as [|m]; [lia|].
      rewrite retryLoop_S. cbv zeta. rewrite Hfirst. reflexivity. }
    split; [rewrite Hr; reflexivity|]. split; [|rewrite Hr; reflexivity].
    subst seen. unfold retryWithRenderOptimizationCfg, observing.
    destruct st as [w d]. cbn [world detector] in *.
    destruct (MAX_RETRIES cfg) as [|m] eqn:Hm; [lia|].
    rewrite retryLoop_S. cbv zeta.
    change (timeoutFor cfg 1 (mkSys (mkObserved w []) d))
      with (timeoutFor cfg 1 (mkSys w d)).
    unfold observe. cbn [world detector inner events].
    rewrite Hfirst. reflexivity.
Qed.

End RetryObserved.

End ApiOptimizationSpec.

(* ===================================================================== *)
(** * Properties of the cache and of the exercise data access             *)
(* ===================================================================== *)

Module ExerciseApiSpec.
Import Js ApiOptimization ExerciseApi.

(** ** The cache functions *)

Lemma getFromCache_fresh {A} now key ttl (storage : gmap string (CacheText A))
    data ts :
  storage !! key = Some (Entry data ts) -> now - ts <= ttl ->
  getFromCache now key ttl storage = (Some data, storage).
Proof.
  intros Hk Hage. unfold getFromCache. rewrite Hk.
  destruct (Z.gtb_spec (now - ts) ttl); [lia|reflexivity].
Qed.

Lemma getFromCache_stale {A} now key ttl (storage : gmap string (CacheText A))
    data ts :
  storage !! key = Some (Entry data ts) -> ttl < now - ts ->
  getFromCache now key ttl storage = (None, delete key storage).
Proof.
  intros Hk Hage. unfold getFromCache. rewrite Hk.
  destruct (Z.gtb_spec (now - ts) ttl); [reflexivity|lia].
Qed.

(** C2: for an entry stored at [ts], [getFromCache] at time [now] yields
    a value (the stored one, the store untouched) exactly when
    [now - ts <= ttl], and otherwise yields [null] and removes the
    record; and a read that follows [saveToCache] with a positive [ttl],
    at the same instant or any time up to [ttl] later, yields the saved
    value unchanged. *)
Theorem cache_ttl {A} now key ttl (storage : gmap string (CacheText A))
    data ts (storage0 : gmap string (CacheText A)) (value : A) ttl0 later :
  storage !! key = Some (Entry data ts) ->
  0 < ttl0 ->
  later - now <= ttl0 ->
  (is_Some (fst (getFromCache now key ttl storage)) <-> now - ts <= ttl)
  /\ (now - ts <= ttl ->
        getFromCache now key ttl storage = (Some data, storage))
  /\ (ttl < now - ts ->
        getFromCache now key ttl storage = (None, delete key storage))
  /\ getFromCache now key ttl0 (saveToCache now key value storage0)
     = (Some value, saveToCache now key value storage0)
  /\ getFromCache later key ttl0 (saveToCache now key value storage0)
     = (Some value, saveToCache now key value storage0).
Proof.
  intros Hk Hpos Hlater.
  split; [|split; [|split; [|split]]].
  - destruct (Z_le_gt_dec (now - ts) ttl) as [Hle|Hgt].
    + rewrite (getFromCache_fresh now key ttl storage data ts Hk Hle).
      simpl. split; [intros _; exact Hle|intros _; eexists; reflexivity].
    + rewrite (getFromCache_stale now key ttl storage data ts Hk); [|lia].
      simpl. split; [intros [x Hx]; discriminate Hx|lia].
  - intros Hle. exact (getFromCache_fresh now key ttl storage data ts Hk Hle).
  - intros Hgt. exact (getFromCache_stale now key ttl storage data ts Hk Hgt).
  - apply (getFromCache_fresh now key ttl0 _ value now); [|lia].
    apply lookup_insert_eq.
  - apply (getFromCache_fresh later key ttl0 _ value now); [|lia].
    apply lookup_insert_eq.
Qed.

Lemma cache_ttl_witness :
  let storage : gmap string (CacheText (list Z)) :=
    <["cached_exercises_all" := Entry [1; 2] 1000]> ∅ in
  getFromCache 601000 "cached_exercises_all" 3600000 storage
    = (Some [1; 2], storage)
  /\ getFromCache 3601001 "cached_exercises_all" 3600000 storage
     = (None, delete "cached_exercises_all" storage)
  /\ getFromCache 5000 "cached_search_press" 1
       (saveToCache 5000 "cached_search_press" [7] storage)
     = (Some [7], saveToCache 5000 "cached_search_press" [7] storage).
Proof.
  intros storage.
  destruct (cache_ttl 601000 "cached_exercises_all" 3600000 storage
              [1; 2] 1000 storage [7] 1 601001 eq_refl)
    as (_ & Hfresh & _ & _ & _); [lia|lia|].
  destruct (cache_ttl 3601001 "cached_exercises_all" 3600000 storage
              [1; 2] 1000 storage [7] 1 3601002 eq_refl)
    as (_ & _ & Hstale & _ & _); [lia|lia|].
  destruct (cache_ttl 5000 "cached_search_press" 1
              (<["cached_search_press" := Entry [7] 0]> storage)
              [7] 0 storage [7] 1 5001)
    as (_ & _ & _ & Hround & _); [apply lookup_insert_eq|lia|lia|].
  split; [apply Hfresh; lia|].
  split; [apply Hstale; lia|exact Hround].
Defined.

(** ** The query functions *)

Section ApiSpec.
Context {X : Type} `{Platform X} `{Http X} `{JsString}.
Variable toLowerCase : string -> string.
Variable parseInt : string -> option Z.

Lemma setStorage_same (st : Sys (Device X)) :
  setStorage (asyncStorage (world st)) st = st.
Proof. destruct st as [[x s r b] d]. reflexivity. Qed.

Lemma getFromCacheM_hit key ttl (st : Sys (Device X)) c :
  cacheHit st key ttl c ->
  getFromCacheM key ttl st = (Returned (Some c), st).
Proof.
  intros (ts & Hk & Hage). unfold getFromCacheM.
  rewrite (getFromCache_fresh _ key ttl _ c ts Hk Hage).
  rewrite setStorage_same. reflexivity.
Qed.

Lemma getFromCacheM_absent key ttl (st : Sys (Device X)) :
  asyncStorage (world st) !! key = None ->
  getFromCacheM key ttl st = (Returned None, st).
Proof.
  intros Hk. unfold getFromCacheM, getFromCache. rewrite Hk.
  rewrite setStorage_same. reflexivity.
Qed.

Ltac run_bind := unfold mbind, M_bind, mret, M_ret, mthrow, M_throw, tryCatch.

(** With a fresh copy of the catalogue in the cache, [getAllExercises]
    returns it; it starts the background refresh exactly when online. *)
Lemma getAllExercises_cached (st : Sys (Device X)) c :
  cacheHit st CACHE_KEYS.ALL_EXERCISES defaultMaxAge c ->
  getAllExercises st
  = (Returned c,
     if connected (world st)
     then withBackground
            (mkTask CACHE_KEYS.ALL_EXERCISES FetchAllExercises) st
     else st).
Proof.
  intros Hhit. unfold getAllExercises. run_bind.
  rewrite (getFromCacheM_hit _ _ st c Hhit).
  unfold checkConnectivity, startInBackground.
  destruct (connected (world st)); reflexivity.
Qed.

Lemma getExercisesByMuscle_cached (st : Sys (Device X)) muscle c :
  cacheHit st (CACHE_KEYS.EXERCISES_BY_MUSCLE +:+ muscle) defaultMaxAge c ->
  getExercisesByMuscle muscle st = (Returned c, st).
Proof.
  intros Hhit. unfold getExercisesByMuscle. run_bind.
  rewrite (getFromCacheM_hit _ _ st c Hhit). reflexivity.
Qed.

Lemma getExercisesByEquipment_cached (st : Sys (Device X)) equipment c :
  cacheHit st (CACHE_KEYS.EXERCISES_BY_EQUIPMENT +:+ equipment)
           defaultMaxAge c ->
  getExercisesByEquipment equipment st = (Returned c, st).
Proof.
  intros Hhit. unfold getExercisesByEquipment. run_bind.
  rewrite (getFromCacheM_hit _ _ st c Hhit). reflexivity.
Qed.

Lemma searchExercises_cached (st : Sys (Device X)) query c :
  cacheHit st (CACHE_KEYS.SEARCH_RESULTS +:+ toLowerCase query) 1800000 c ->
  searchExercises toLowerCase query st = (Returned c, st).
Proof.
  intros Hhit. unfold searchExercises. run_bind.
  rewrite (getFromCacheM_hit _ _ st c Hhit). reflexivity.
Qed.

Lemma getExerciseById_cached (st : Sys (Device X)) id c exercise :
  cacheHit st CACHE_KEYS.ALL_EXERCISES defaultMaxAge c ->
  findById parseInt id c = Some exercise ->
  getExerciseById parseInt id st = (Returned (FromCatalogue exercise), st).
Proof.
  intros Hhit Hfind. unfold getExerciseById. run_bind.
  rewrite (getFromCacheM_hit _ _ st c Hhit). simpl.
  rewrite Hfind. reflexivity.
Qed.

(** A background refresh never throws: when its fetch returns data the
    cache entry is replaced by them, when the fetch throws the error is
    dropped. *)
Lemma updateCacheInBackground_outcome (t : Task) (st : Sys (Device X)) :
  updateCacheInBackground t st
  = match runFetch (fetchFunction t) st with
    | (Returned freshData, st1) =>
        (Returned tt,
         setStorage (saveToCache (clock (world st1)) (cacheKey t) freshData
                                 (asyncStorage (world st1))) st1)
    | (Thrown _, st1) => (Returned tt, st1)
    end.
Proof.
  unfold updateCacheInBackground. run_bind.
  destruct (runFetch (fetchFunction t) st) as [[d|e] st1]; reflexivity.
Qed.

(** C5 (corrected): with a cached copy within its TTL every query shape
    returns the cached value without any request to the network.  Only
    [getAllExercises] then starts a background refresh, and only when the
    device is online; the refresh is not awaited, replaces the cache
    entry when its fetch succeeds and drops the error when it fails.
    [getExercisesByMuscle], [getExercisesByEquipment], [searchExercises]
    and [getExerciseById] (for an id found in the cached catalogue) return
    the cached value and start no refresh, online or not. *)
Theorem cached_queries (st : Sys (Device X)) c muscle equipment query id
    exercise (t : Task) :
  (cacheHit st CACHE_KEYS.ALL_EXERCISES 3600000 c ->
     getAllExercises st
     = (Returned c,
        if connected (world st)
        then withBackground
               (mkTask CACHE_KEYS.ALL_EXERCISES FetchAllExercises) st
        else st))
  /\ (cacheHit st (CACHE_KEYS.EXERCISES_BY_MUSCLE +:+ muscle) 3600000 c ->
        getExercisesByMuscle muscle st = (Returned c, st))
  /\ (cacheHit st (CACHE_KEYS.EXERCISES_BY_EQUIPMENT +:+ equipment)
               3600000 c ->
        getExercisesByEquipment equipment st = (Returned c, st))
  /\ (cacheHit st (CACHE_KEYS.SEARCH_RESULTS +:+ toLowerCase query)
               1800000 c ->
        searchExercises toLowerCase query st = (Returned c, st))
  /\ (cacheHit st CACHE_KEYS.ALL_EXERCISES 3600000 c ->
      findById parseInt id c = Some exercise ->
        getExerciseById parseInt id st
        = (Returned (FromCatalogue exercise), st))
  /\ requests (world (withBackground t st)) = requests (world st)
  /\ asyncStorage (world (withBackground t st)) = asyncStorage (world st)
  /\ (forall freshData st1,
        runFetch (fetchFunction t) st = (Returned freshData, st1) ->
        updateCacheInBackground t st
        = (Returned tt,
           setStorage (saveToCache (clock (world st1)) (cacheKey t) freshData
                                   (asyncStorage (world st1))) st1))
  /\ (forall e st1,
        runFetch (fetchFunction t) st = (Thrown e, st1) ->
        updateCacheInBackground t st = (Returned tt, st1)).
Proof.
  repeat split.
  - apply getAllExercises_cached.
  - apply getExercisesByMuscle_cached.
  - apply getExercisesByEquipment_cached.
  - apply searchExercises_cached.
  - apply getExerciseById_cached.
  - intros d st1 Hf. rewrite updateCacheInBackground_outcome, Hf. reflexivity.
  - intros e st1 Hf. rewrite updateCacheInBackground_outcome, Hf. reflexivity.
Qed.

(** C6 (corrected): with the device offline, [getAllExercises] makes no
    request and starts no refresh (the state is left as it was); without
    a cache entry for the catalogue it throws an Error whose message is
    the text below, which ends without a full stop, and with a cached
    copy within its TTL it returns that copy. *)
Theorem offline_catalogue (st : Sys (Device X)) c :
  connected (world st) = false ->
  (asyncStorage (world st) !! CACHE_KEYS.ALL_EXERCISES = None ->
     getAllExercises st
     = (Thrown (newError
          "Sin conexión y no hay ejercicios guardados localmente"), st))
  /\ (cacheHit st CACHE_KEYS.ALL_EXERCISES 3600000 c ->
        getAllExercises st = (Returned c, st)).
Proof.
  intros Hoff. split.
  - intros Hk. unfold getAllExercises. run_bind.
    rewrite (getFromCacheM_absent _ _ st Hk).
    unfold checkConnectivity. rewrite Hoff. reflexivity.
  - intros Hhit. rewrite (getAllExercises_cached st c Hhit), Hoff.
    reflexivity.
Qed.

End ApiSpec.

End ExerciseApiSpec.

(* ===================================================================== *)
(** * The data access and the retry wrapper on a concrete device          *)
(* ===================================================================== *)

Module SimSpec.
Import Js ApiOptimization ExerciseApi Sim.

Lemma retry_terminates_witness :
  let st := device 1000 true [] in
  let shipped : Run (Device World) Z :=
    retryWithRenderOptimization (alwaysThrows (newError "boom"))
                                "API call" st in
  let seen : Run (Observed (Device World)) Z :=
    retryWithRenderOptimization (observe (alwaysThrows (newError "boom")))
                                "API call" (observing st) in
  completion shipped
    = Thrown (newError "API call failed after 3 attempts. Last error: boom")
  /\ length (invocations shipped) = 3%nat
  /\ outcomes (events (world (final seen))) = [false; false; false].
Proof.
  intros st shipped seen.
  destruct (ApiOptimizationSpec.retry_terminates
              RENDER_CONFIG (fun _ s => (Returned 0, s)) "API call" st
              (newError "boom")) as (_ & _ & _ & Hc & Hn & _ & _ & _ & Hs & _).
  { simpl. lia. }
  split; [exact Hc|]. split; [exact Hn|exact Hs].
Defined.

(** C5, as stated, fails on the code: with the device online and a
    cached copy within its TTL, [getExercisesByMuscle] returns the copy
    and starts no background refresh. *)
Lemma byMuscle_cached_starts_no_refresh :
  let st :=
    device 1000 true
      [("cached_exercises_muscle_Pecho"%string, Entry [pressBanca] 400)] in
  connected (world st) = true
  /\ cacheHit st "cached_exercises_muscle_Pecho" 3600000 [pressBanca]
  /\ fst (getExercisesByMuscle "Pecho" st) = Returned [pressBanca]
  /\ background (world (snd (getExercisesByMuscle "Pecho" st))) = [].
Proof.
  intros st. split; [reflexivity|]. split.
  - exists 400. split; [reflexivity|]. simpl. lia.
  - split; vm_compute; reflexivity.
Qed.

Lemma cached_queries_witness :
  let st :=
    device 1000 true
      [("cached_exercises_all"%string, Entry [pressBanca] 400)] in
  getAllExercises st
    = (Returned [pressBanca],
       withBackground (mkTask "cached_exercises_all" FetchAllExercises) st)
  /\ getExerciseById readId "7" st = (Returned (FromCatalogue pressBanca), st).
Proof.
  intros st.
  assert (Hhit : cacheHit st CACHE_KEYS.ALL_EXERCISES 3600000 [pressBanca]).
  { exists 400. split; [reflexivity|]. simpl. lia. }
  destruct (ExerciseApiSpec.cached_queries lower readId st [pressBanca]
              "Pecho" "Barra" "press" "7" pressBanca
              (mkTask "cached_exercises_all" FetchAllExercises))
    as (Hall & _ & _ & _ & Hid & _).
  split.
  - rewrite (Hall Hhit). reflexivity.
  - apply (Hid Hhit). reflexivity.
Defined.

(** C6, as stated, fails on the code: offline with an empty cache the
    message thrown is not the text ending in a full stop. *)
Lemma offline_message_has_no_full_stop :
  fst (getAllExercises (device 1000 false []))
  <> Thrown (newError
       "Sin conexión y no hay ejercicios guardados localmente.").
Proof. vm_compute. intros Heq. discriminate Heq. Qed.

Lemma offline_catalogue_witness :
  getAllExercises (device 1000 false [])
    = (Thrown (newError
         "Sin conexión y no hay ejercicios guardados localmente"),
       device 1000 false [])
  /\ getAllExercises
       (device 1000 false
          [("cached_exercises_all"%string, Entry [pressBanca] 400)])
     = (Returned [pressBanca],
        device 1000 false
          [("cached_exercises_all"%string, Entry [pressBanca] 400)]).
Proof.
  split.
  - apply (ExerciseApiSpec.offline_catalogue (device 1000 false []) []);
      reflexivity.
  - apply (ExerciseApiSpec.offline_catalogue
             (device 1000 false
                [("cached_exercises_all"%string, Entry [pressBanca] 400)])
             [pressBanca]); [reflexivity|].
    exists 400. split; [reflexivity|]. simpl. lia.
Defined.

End SimSpec.

(* ===================================================================== *)
(** * Properties of the preference service                                *)
(* ===================================================================== *)

Module UserPreferencesSpec.
Import Js UserPreferences.

Lemma setDoc_storage userId data w :
  asyncStorage (snd (setDoc userId data w)) = asyncStorage w.
Proof.
  unfold setDoc, firestoreCall. destruct (faults w) as [|[] rest]; reflexivity.
Qed.

Lemma retryLoop_setDoc_storage userId data n w :
  asyncStorage (snd (retryLoop (setDoc userId data) n w)) = asyncStorage w.
Proof.
  revert w. induction n as [|n IH]; intros w; [reflexivity|].
  cbn [retryLoop].
  pose proof (setDoc_storage userId data w) as Hs.
  destruct (setDoc userId data w) as [[u|e] w1]; simpl in Hs; [exact Hs|].
  destruct n as [|n']; [exact Hs|].
  rewrite IH. exact Hs.
Qed.

Lemma preferencesData_stamps userId preferences tCompleted tUpdated :
  preferencesData userId preferences tCompleted tUpdated !! "completedAt"
    = Some (JIso tCompleted)
  /\ preferencesData userId preferences tCompleted tUpdated !! "lastUpdated"
     = Some (JIso tUpdated).
Proof.
  unfold preferencesData. split.
  - rewrite lookup_insert_ne by discriminate.
    rewrite lookup_insert_ne by discriminate.
    apply lookup_insert_eq.
  - apply lookup_insert_eq.
Qed.

Lemma saveUserPreferences_result tCompleted tUpdated userId preferences w :
  fst (saveUserPreferences tCompleted tUpdated userId preferences w)
    = preferencesData userId preferences tCompleted tUpdated
  /\ asyncStorage
       (snd (saveUserPreferences tCompleted tUpdated userId preferences w))
       !! localKey userId
     = Some (DocText (preferencesData userId preferences tCompleted tUpdated)).
Proof.
  unfold saveUserPreferences.
  set (data := preferencesData userId preferences tCompleted tUpdated).
  set (w1 := setLocal (localKey userId) (DocText data) w).
  assert (H1 : asyncStorage w1 !! localKey userId = Some (DocText data))
    by (unfold w1, setLocal; simpl; apply lookup_insert_eq).
  destruct (negb (checkConnectivity w1)); [split; [reflexivity|exact H1]|].
  pose proof (retryLoop_setDoc_storage userId data 3 w1) as Hs.
  unfold retryWithBackoff.
  destruct (retryLoop (setDoc userId data) 3 w1) as [c w2].
  simpl in *. rewrite Hs. split; [reflexivity|exact H1].
Qed.

Lemma saveUserPreferences_remote tCompleted tUpdated userId preferences w :
  checkConnectivity w = true -> succeeds 1 w ->
  firestore
    (snd (saveUserPreferences tCompleted tUpdated userId preferences w))
    !! userId
  = Some (preferencesData userId preferences tCompleted tUpdated).
Proof.
  intros Hon Hok. unfold saveUserPreferences.
  set (data := preferencesData userId preferences tCompleted tUpdated).
  set (w1 := setLocal (localKey userId) (DocText data) w).
  assert (Hon1 : checkConnectivity w1 = true) by exact Hon.
  rewrite Hon1. simpl.
  unfold retryWithBackoff, retryLoop, setDoc, firestoreCall.
  unfold succeeds in Hok.
  assert (Hf : faults w1 = faults w) by reflexivity. rewrite Hf.
  destruct (faults w) as [|[] rest]; simpl.
  - apply lookup_insert_eq.
  - simpl in Hok. inversion Hok as [|? ? Hb _]. discriminate Hb.
  - apply lookup_insert_eq.
Qed.

(** C10: whatever document is passed in, [saveUserPreferences] returns
    and stores locally a document whose [completedAt] is the current
    time and whose [lastUpdated] is stamped too (and, online with the
    remote write succeeding, stores the same document remotely); an
    earlier [completedAt] is not kept.  [updateUserPreferences], when it
    finds preferences to update, ends in the same save and so overwrites
    [completedAt] as well, even when [updates] carries one. *)
Theorem save_overwrites_completedAt tMerged tCompleted tUpdated userId
    (preferences updates : Doc) w :
  let saved := saveUserPreferences tCompleted tUpdated userId preferences w in
  fst saved !! "completedAt" = Some (JIso tCompleted)
  /\ (forall t0, preferences !! "completedAt" = Some (JIso t0) ->
        t0 <> tCompleted ->
        fst saved !! "completedAt" <> preferences !! "completedAt")
  /\ fst saved !! "lastUpdated" = Some (JIso tUpdated)
  /\ asyncStorage (snd saved) !! localKey userId = Some (DocText (fst saved))
  /\ (checkConnectivity w = true -> succeeds 1 w ->
        firestore (snd saved) !! userId = Some (fst saved))
  /\ (forall current w1,
        getUserPreferences userId w = (Some current, w1) ->
        exists data w2,
          updateUserPreferences tMerged tCompleted tUpdated userId updates w
            = (Returned data, w2)
          /\ data !! "completedAt" = Some (JIso tCompleted)
          /\ data !! "lastUpdated" = Some (JIso tUpdated)
          /\ asyncStorage w2 !! localKey userId = Some (DocText data)).
Proof.
  intros saved.
  destruct (saveUserPreferences_result tCompleted tUpdated userId preferences w)
    as [Hfst Hloc].
  destruct (preferencesData_stamps userId preferences tCompleted tUpdated)
    as [Hc Hu].
  subst saved. rewrite Hfst.
  split; [exact Hc|].
  split; [intros t0 Hold Hne; rewrite Hc, Hold; congruence|].
  split; [exact Hu|].
  split; [exact Hloc|].
  split; [apply saveUserPreferences_remote|].
  intros current w1 Hget.
  unfold updateUserPreferences. rewrite Hget.
  set (updated := <["lastUpdated" := JIso tMerged]> (updates ∪ current)).
  destruct (saveUserPreferences_result tCompleted tUpdated userId updated w1)
    as [Hfst' Hloc'].
  destruct (preferencesData_stamps userId updated tCompleted tUpdated)
    as [Hc' Hu'].
  destruct (saveUserPreferences tCompleted tUpdated userId updated w1)
    as [data w2].
  simpl in *. subst data.
  exists (preferencesData userId updated tCompleted tUpdated), w2.
  repeat split; assumption.
Qed.

Lemma save_overwrites_completedAt_witness :
  let quiz : Doc :=
    <["completedAt" := JIso 100]> (<["experience" := JStr "beginner"]> ∅) in
  let w := quizWorld None None (Some (true, None)) [] in
  let w1 := snd (saveUserPreferences 100 100 "u1" quiz w) in
  fst (saveUserPreferences 500 501 "u1" quiz w1) !! "completedAt"
    = Some (JIso 500)
  /\ fst (saveUserPreferences 500 501 "u1" quiz w1) !! "completedAt"
     <> quiz !! "completedAt"
  /\ exists data w2,
       updateUserPreferences 499 500 501 "u1"
         (<["completedAt" := JIso 100]> ∅) w1 = (Returned data, w2)
       /\ data !! "completedAt" = Some (JIso 500).
Proof.
  intros quiz w w1.
  destruct (save_overwrites_completedAt 499 500 501 "u1" quiz
              (<["completedAt" := JIso 100]> ∅) w1)
    as (Hc & Hne & _ & _ & _ & Hupd).
  split; [exact Hc|].
  split; [apply (Hne 100); [reflexivity|lia]|].
  destruct (Hupd (preferencesData "u1" quiz 100 100)
                 (snd (getUserPreferences "u1" w1)))
    as (data & w2 & Hu & Hd & _).
  { vm_compute. reflexivity. }
  exists data, w2. split; assumption.
Defined.

(** ** Synchronisation *)

Lemma timestampOf_iso (d : Doc) T :
  d !! "lastUpdated" = Some (JIso T) -> timestampOf (Some d) = Some T.
Proof. intros Hd. unfold timestampOf. simpl. rewrite Hd. reflexivity. Qed.

(** C3, as stated, fails on the code: with the device offline
    [syncPendingData] returns [false] and writes nothing, so a newer
    local document does not reach the remote side. *)
Lemma sync_offline_leaves_sides_apart :
  let w := quizWorld (Some 2000) (Some 1000) (Some (false, None)) [] in
  syncPendingData "u1" w = (false, w)
  /\ asyncStorage w !! localKey "u1" = Some (DocText (stamped 2000))
  /\ firestore (snd (syncPendingData "u1" w)) !! "u1"
     <> Some (stamped 2000).
Proof.
  intros w. split; [reflexivity|]. split; [reflexivity|].
  vm_compute. intros Heq. discriminate Heq.
Qed.

(** C3 (corrected): with the device online and the remote read and write
    succeeding, for a local document stamped [T1] and a remote document
    stamped [T2], [syncPendingData] returns [true] and leaves both sides
    holding the document with the strictly greater stamp (the other side
    is overwritten in full); when [T1 = T2] neither side is written.
    With the device offline it returns [false] and writes nothing. *)
Theorem sync_last_write_wins userId w (l r : Doc) T1 T2 :
  checkConnectivity w = true ->
  succeeds 2 w ->
  asyncStorage w !! localKey userId = Some (DocText l) ->
  firestore w !! userId = Some r ->
  l !! "lastUpdated" = Some (JIso T1) ->
  r !! "lastUpdated" = Some (JIso T2) ->
  let after := snd (syncPendingData userId w) in
  fst (syncPendingData userId w) = true
  /\ (T2 < T1 ->
        asyncStorage after = asyncStorage w
        /\ firestore after = <[userId := l]> (firestore w))
  /\ (T1 < T2 ->
        asyncStorage after = <[localKey userId := DocText r]> (asyncStorage w)
        /\ firestore after = firestore w)
  /\ (T1 = T2 ->
        asyncStorage after = asyncStorage w /\ firestore after = firestore w)
  /\ (forall w0, checkConnectivity w0 = false ->
        syncPendingData userId w0 = (false, w0)).
Proof.
  intros Hon Hok Hl Hr HT1 HT2 after.
  assert (Hoff : forall w0, checkConnectivity w0 = false ->
                            syncPendingData userId w0 = (false, w0)).
  { intros w0 H0. unfold syncPendingData. rewrite H0. reflexivity. }
  subst after.
  split; [|split; [|split; [|split; [|exact Hoff]]]]; clear Hoff;
    unfold syncPendingData; rewrite Hon, Hl; simpl;
    rewrite (timestampOf_iso l T1 HT1);
    unfold succeeds in Hok; unfold getDoc, setDoc, firestoreCall;
    destruct w as [a f n fl]; simpl in *;
    destruct fl as [|[] [|[] rest]]; simpl in *;
    try (exfalso; inversion Hok as [|? ? Hb Hok']; try discriminate Hb;
         inversion Hok' as [|? ? Hb' _]; discriminate Hb');
    rewrite Hr; rewrite (timestampOf_iso r T2 HT2); unfold numGt;
    destruct (Z.gtb_spec T1 T2); simpl;
    try destruct (Z.gtb_spec T2 T1); simpl;
    try reflexivity; intros; try lia; split; reflexivity.
Qed.

Lemma sync_last_write_wins_witness :
  let w := quizWorld (Some 2000) (Some 1000) (Some (true, None)) [] in
  let w' := quizWorld (Some 1000) (Some 2000) (Some (true, Some true)) [] in
  fst (syncPendingData "u1" w) = true
  /\ firestore (snd (syncPendingData "u1" w))
     = <["u1" := stamped 2000]> (firestore w)
  /\ asyncStorage (snd (syncPendingData "u1" w'))
     = <[localKey "u1" := DocText (stamped 2000)]> (asyncStorage w').
Proof.
  intros w w'.
  destruct (sync_last_write_wins "u1" w (stamped 2000) (stamped 1000)
              2000 1000)
    as (Hok & Hup & _); try reflexivity.
  { unfold succeeds. simpl. constructor. }
  destruct (sync_last_write_wins "u1" w' (stamped 1000) (stamped 2000)
              1000 2000)
    as (_ & _ & Hdown & _); try reflexivity.
  { unfold succeeds. simpl. constructor. }
  split; [exact Hok|].
  split; [apply Hup; lia|apply Hdown; lia].
Defined.

End UserPreferencesSpec.

(* ===================================================================== *)
(** * Properties of the routine migration                                 *)
(* ===================================================================== *)

Module RoutinesSpec.
Import Js Routines.

Lemma migrationKey_not_newKey userId userId' :
  migrationKey userId <> newKey userId'.
Proof. unfold migrationKey, newKey, MIGRATION_KEY. simpl. discriminate. Qed.

Lemma isMigrationCompleted_marked userId (storage : Storage) :
  isMigrationCompleted userId (markMigrationCompleted userId storage) = true.
Proof.
  unfold isMigrationCompleted, markMigrationCompleted.
  rewrite lookup_insert_eq. reflexivity.
Qed.

Section MigrationSpec.
Context `{JsonParse}.

Lemma getUserRoutines_marked userId userId' (storage : Storage) :
  getUserRoutines userId (markMigrationCompleted userId' storage)
  = getUserRoutines userId storage.
Proof.
  unfold getUserRoutines, markMigrationCompleted.
  rewrite lookup_insert_ne; [reflexivity|].
  apply migrationKey_not_newKey.
Qed.

(** A run that finds the marker set changes nothing. *)
Lemma migrate_completed fresh userId (storage : Storage) :
  isMigrationCompleted userId storage = true ->
  migrateUserRoutines fresh userId storage = (Returned None, storage).
Proof. intros Hc. unfold migrateUserRoutines. rewrite Hc. reflexivity. Qed.

(** Every routine the loop copies bears a name the user did not have. *)
Lemma routinesToMigrate_new_names fresh (existingNames : gset string) :
  forall oldRoutines i r,
    r ∈ routinesToMigrate fresh existingNames i oldRoutines ->
    name r ∉ existingNames.
Proof.
  induction oldRoutines as [|o rest IH]; intros i r Hr; simpl in Hr.
  - inversion Hr.
  - destruct (bool_decide (name o ∈ existingNames)) eqn:Hd.
    + eapply IH, Hr.
    + apply elem_of_cons in Hr as [->|Hr]; [|eapply IH, Hr].
      simpl. apply bool_decide_eq_false in Hd. exact Hd.
Qed.

Lemma filter_name_migrated fresh (existingNames : gset string) n :
  n ∈ existingNames ->
  forall oldRoutines i,
    filter (fun r => name r = n)
           (routinesToMigrate fresh existingNames i oldRoutines) = [].
Proof.
  intros Hn oldRoutines i.
  apply elem_of_nil_inv. intros r Hr.
  apply list_elem_of_filter in Hr as [Heq Hr].
  apply (routinesToMigrate_new_names fresh existingNames oldRoutines i r Hr).
  rewrite Heq. exact Hn.
Qed.

(** The outcomes of a run that does not find the marker set. *)
Lemma migrate_cases fresh userId (storage : Storage) :
  let once := snd (migrateUserRoutines fresh userId storage) in
  once = storage
  \/ (isMigrationCompleted userId once = true
      /\ exists added,
           routinesOf (getUserRoutines userId once)
           = routinesOf (getUserRoutines userId storage) ++ added
           /\ forall n,
                n ∈ map name (routinesOf (getUserRoutines userId storage)) ->
                        filter (fun r => name r = n) added = []).
Proof.
  intros once. subst once. unfold migrateUserRoutines.
  destruct (isMigrationCompleted userId storage); [left; reflexivity|].
  destruct (storage !! oldKey) as [[oldRoutines|[|c s]]|] eqn:Hold;
    try (left; reflexivity);
    try (right; simpl; split; [apply isMigrationCompleted_marked|];
         exists []; rewrite getUserRoutines_marked, app_nil_r;
         split; [reflexivity|intros; reflexivity]).
  assert (Hkey : USER_ROUTINES +:+ userId = newKey userId) by reflexivity.
  destruct (storage !! newKey userId) as [[existing|[|c s]]|] eqn:Hnew;
    try (left; reflexivity); right; simpl;
    (split; [apply isMigrationCompleted_marked|]);
    rewrite getUserRoutines_marked;
    match goal with
    | |- context [routinesToMigrate fresh ?names 0 oldRoutines] =>
        set (toMigrate := routinesToMigrate fresh names 0 oldRoutines);
        assert (Hnames : forall n,
                  n ∈ names -> filter (fun r => name r = n) toMigrate = [])
          by (intros n Hn; apply filter_name_migrated, Hn)
    end;
    exists toMigrate;
    (split;
     [ unfold getUserRoutines; rewrite Hkey, Hnew;
       destruct toMigrate as [|m ms]; simpl;
       [rewrite Hnew, ?app_nil_r; reflexivity
       |rewrite lookup_insert_eq; reflexivity]
     | intros n Hn; apply Hnames;
       unfold getUserRoutines in Hn; rewrite Hkey, Hnew in Hn;
       try (apply elem_of_list_to_set; exact Hn);
       try (simpl in Hn; inversion Hn) ]).
Qed.

(** A run that does not find the marker set either ends by setting it
    or throws and leaves the storage as it was, whatever the environment
    supplies. *)
Lemma migrate_outcome fresh userId (storage : Storage) :
  isMigrationCompleted userId storage = false ->
  (exists s, snd (migrateUserRoutines fresh userId storage)
             = markMigrationCompleted userId s)
  \/ (forall f, snd (migrateUserRoutines f userId storage) = storage).
Proof.
  intros Hc.
  destruct (storage !! oldKey) as [[oldRoutines|[|c s]]|] eqn:Hold;
    [destruct (storage !! newKey userId) as [[existing|[|c s]]|] eqn:Hnew|..].
  all: first
    [ left; unfold migrateUserRoutines; rewrite Hc, Hold, ?Hnew;
      eexists; reflexivity
    | right; intros f; unfold migrateUserRoutines; rewrite Hc, Hold, ?Hnew;
      reflexivity ].
Qed.

(** Running the migration on the storage a run left changes nothing. *)
Lemma migrate_again fresh fresh' userId (storage : Storage) :
  snd (migrateUserRoutines fresh' userId
         (snd (migrateUserRoutines fresh userId storage)))
  = snd (migrateUserRoutines fresh userId storage).
Proof.
  destruct (isMigrationCompleted userId storage) eqn:Hc.
  - rewrite (migrate_completed fresh userId storage Hc). simpl.
    rewrite (migrate_completed fresh' userId storage Hc). reflexivity.
  - destruct (migrate_outcome fresh userId storage Hc) as [[s Hs]|Hsame].
    + rewrite Hs. rewrite migrate_completed; [reflexivity|].
      apply isMigrationCompleted_marked.
    + rewrite (Hsame fresh). apply Hsame.
Qed.


(** What a first run stores for the user: the routines the user had,
    followed by the copies of the legacy routines whose names the user
    did not have. *)
Lemma migrate_adds fresh userId (storage : Storage) oldRoutines :
  isMigrationCompleted userId storage = false ->
  storage !! oldKey = Some (RoutinesText oldRoutines) ->
  (forall c s, storage !! newKey userId <> Some (Text (String c s))) ->
  getUserRoutines userId (snd (migrateUserRoutines fresh userId storage))
  = Array (routinesOf (getUserRoutines userId storage)
           ++ routinesToMigrate fresh
                (list_to_set
                   (map name (routinesOf (getUserRoutines userId storage))))
                0 oldRoutines).
Proof.
  intros Hc Hold Hreadable.
  assert (Hkey : USER_ROUTINES +:+ userId = newKey userId) by reflexivity.
  unfold migrateUserRoutines. rewrite Hc, Hold.
  unfold getUserRoutines at 2 3. rewrite Hkey.
  destruct (storage !! newKey userId) as [[existing|[|c s]]|] eqn:Hnew;
    try (exfalso; eapply Hreadable; reflexivity);
    simpl; rewrite getUserRoutines_marked;
    match goal with
    | |- context [routinesToMigrate fresh ?names 0 oldRoutines] =>
        destruct (routinesToMigrate fresh names 0 oldRoutines) as [|m ms]
    end; simpl; unfold getUserRoutines; rewrite Hkey;
    rewrite ?lookup_insert_eq, ?Hnew, ?app_nil_r; reflexivity.
Qed.

(** C8: a second run of [migrateUserRoutines] for the same user leaves
    AsyncStorage, and with it the user's routines, exactly as the first
    run left it (whatever ids and clock readings the second run would
    draw); and a run adds no routine under a name the user already had:
    for each such name the user's routines of that name are after the run
    what they were before. *)
Theorem migration_idempotent fresh fresh' userId (storage : Storage) :
  let once := snd (migrateUserRoutines fresh userId storage) in
  let twice := snd (migrateUserRoutines fresh' userId once) in
  twice = once
  /\ getUserRoutines userId twice = getUserRoutines userId once
  /\ (forall n, n ∈ map name (routinesOf (getUserRoutines userId storage)) ->
        filter (fun r => name r = n) (routinesOf (getUserRoutines userId once))
        = filter (fun r => name r = n)
                 (routinesOf (getUserRoutines userId storage))).
Proof.
  intros once twice.
  split; [apply migrate_again|].
  split; [unfold twice, once; rewrite migrate_again; reflexivity|].
  intros n Hn.
  destruct (migrate_cases fresh userId storage)
    as [Hsame|(_ & added & Happ & Hfilter)];
    fold once in Hsame || fold once in Happ.
  - rewrite Hsame. reflexivity.
  - rewrite Happ, filter_app, (Hfilter n Hn), app_nil_r. reflexivity.
Qed.

End MigrationSpec.

#[local] Existing Instance sampleParse.

Lemma migration_idempotent_witness :
  let once := snd (migrateUserRoutines sampleFresh "u1" sampleStorage) in
  getUserRoutines "u1" once
    = Array [ownPush; migratedRoutine (sampleFresh 1) legacyPull]
  /\ snd (migrateUserRoutines (fun _ => mkFresh "x" 0 0) "u1" once) = once
  /\ filter (fun r => name r = "Push") (routinesOf (getUserRoutines "u1" once))
     = [ownPush].
Proof.
  intros once.
  destruct (migration_idempotent sampleFresh (fun _ => mkFresh "x" 0 0)
              "u1" sampleStorage) as (Htwice & _ & Hfilter).
  subst once.
  split; [vm_compute; reflexivity|].
  split; [exact Htwice|].
  rewrite (Hfilter "Push"); [vm_compute; reflexivity|].
  vm_compute. left.
Defined.

End RoutinesSpec.

(* ===================================================================== *)
(** * Further properties of the rate limiter                              *)
(* ===================================================================== *)

Module RateLimiterExtra.
Import RateLimiter RateLimiterSpec.

(** X1: after [clearAttempts(key)] the next [isAllowed] call for the key
    is allowed, whatever the limits, and starts a new record with count 1
    whose window opens at the instant of the call. *)
Theorem clear_then_allowed now key maxAttempts timeWindow (attempts : Store) :
  isAllowed now key maxAttempts timeWindow (clearAttempts key attempts)
  = (true, <[key := mkAttempts 1 (now + timeWindow) now]> attempts).
Proof.
  unfold isAllowed, clearAttempts. rewrite lookup_delete_eq. simpl.
  rewrite insert_delete_eq.
  destruct (now >? now + timeWindow); reflexivity.
Qed.

(** X2: once the count of a record has reached [maxAttempts], every call
    up to and including the instant [resetTime] is refused and changes
    nothing; the first call after [resetTime] is allowed and replaces the
    record by a new one with count 1. *)
Theorem hard_block_until_reset key maxAttempts timeWindow (attempts : Store)
    r t :
  attempts !! key = Some r ->
  1 <= maxAttempts <= count r ->
  (t <= resetTime r ->
     isAllowed t key maxAttempts timeWindow attempts = (false, attempts))
  /\ (resetTime r < t ->
        isAllowed t key maxAttempts timeWindow attempts
        = (true, <[key := mkAttempts 1 (t + timeWindow) t]> attempts)).
Proof.
  intros Hk Hfull. split; intros Ht.
  - apply (isAllowed_hard t key maxAttempts timeWindow attempts r Hk); lia.
  - apply (isAllowed_reset t key maxAttempts timeWindow attempts r Hk Ht).
Qed.

Lemma hard_block_until_reset_witness :
  let attempts : Store := <["login_a@b.com" := mkAttempts 8 180000 0]> ∅ in
  isAllowed 180000 "login_a@b.com" 8 180000 attempts = (false, attempts)
  /\ isAllowed 180001 "login_a@b.com" 8 180000 attempts
     = (true, <["login_a@b.com" := mkAttempts 1 360001 180001]> attempts).
Proof.
  intros attempts.
  destruct (hard_block_until_reset "login_a@b.com" 8 180000 attempts
              (mkAttempts 8 180000 0) 180000 eq_refl) as [Hblocked _];
    [simpl; lia|].
  destruct (hard_block_until_reset "login_a@b.com" 8 180000 attempts
              (mkAttempts 8 180000 0) 180001 eq_refl) as [_ Hreset];
    [simpl; lia|].
  split; [apply Hblocked; simpl; lia|apply Hreset; simpl; lia].
Defined.

Lemma isAllowed_other now key key' maxAttempts timeWindow (attempts : Store) :
  key <> key' ->
  snd (isAllowed now key maxAttempts timeWindow attempts) !! key'
  = attempts !! key'.
Proof.
  intros Hne. unfold isAllowed.
  repeat match goal with |- context [if ?c then _ else _] => destruct c end;
    simpl; rewrite ?lookup_insert_ne by exact Hne; reflexivity.
Qed.

(** X3: the limiter keeps keys apart: [isAllowed], [getStatus] and
    [clearAttempts] for one key leave the record of every other key as
    it was. *)
Theorem other_keys_untouched nowR nowA key key' maxAttempts timeWindow
    (attempts : Store) :
  key <> key' ->
  snd (isAllowed nowA key maxAttempts timeWindow attempts) !! key'
    = attempts !! key'
  /\ snd (getStatus nowR nowA key attempts) !! key' = attempts !! key'
  /\ clearAttempts key attempts !! key' = attempts !! key'.
Proof.
  intros Hne. split; [apply isAllowed_other, Hne|]. split.
  - unfold getStatus. destruct (attempts !! key) as [r|] eqn:Hk;
      [|reflexivity].
    pose proof (isAllowed_other nowA key key' defaultMaxAttempts
                  defaultTimeWindow attempts Hne) as Hother.
    destruct (isAllowed nowA key defaultMaxAttempts defaultTimeWindow attempts).
    exact Hother.
  - unfold clearAttempts. apply lookup_delete_ne, Hne.
Qed.

Lemma other_keys_untouched_witness :
  let attempts : Store := <["register_a@b.com" := mkAttempts 2 600000 0]> ∅ in
  snd (isAllowed 5 "login_a@b.com" 8 180000 attempts) !! "register_a@b.com"
  = Some (mkAttempts 2 600000 0).
Proof.
  intros attempts.
  destruct (other_keys_untouched 5 5 "login_a@b.com" "register_a@b.com"
              8 180000 attempts) as [Hother _]; [discriminate|].
  rewrite Hother. reflexivity.
Defined.

Lemma isAllowed_wellFormed now key maxAttempts timeWindow (attempts : Store) :
  1 <= maxAttempts ->
  (forall r, attempts !! key = Some r -> wellFormed maxAttempts timeWindow r) ->
  exists r', snd (isAllowed now key maxAttempts timeWindow attempts) !! key
             = Some r'
             /\ wellFormed maxAttempts timeWindow r'.
Proof.
  intros Hmax Hwf. unfold isAllowed, wellFormed in *.
  destruct (attempts !! key) as [r|] eqn:Hk; simpl.
  - destruct (Hwf r eq_refl) as [Hc Hr].
    repeat match goal with
           | |- context [if ?c then _ else _] => destruct c eqn:?
           end; simpl;
      rewrite ?lookup_insert_eq, ?Hk; eexists; (split; [reflexivity|]);
      simpl; try lia.
  - repeat match goal with
           | |- context [if ?c then _ else _] => destruct c eqn:?
           end; simpl; try discriminate;
      rewrite ?lookup_insert_eq; eexists; (split; [reflexivity|]);
      simpl; lia.
Qed.

Lemma callsAt_wellFormed times key maxAttempts timeWindow :
  forall attempts : Store,
    1 <= maxAttempts ->
    (exists r, attempts !! key = Some r
               /\ wellFormed maxAttempts timeWindow r) ->
    exists r, callsAt times key maxAttempts timeWindow attempts !! key = Some r
              /\ wellFormed maxAttempts timeWindow r.
Proof.
  induction times as [|t rest IH]; intros attempts Hmax Hwf; simpl;
    [exact Hwf|].
  apply IH; [exact Hmax|].
  apply isAllowed_wellFormed; [exact Hmax|].
  destruct Hwf as (r & Hr & Hw). intros r' Hr'.
  rewrite Hr in Hr'. injection Hr' as <-. exact Hw.
Qed.

(** X4: under fixed limits with [maxAttempts >= 1], after any non-empty
    series of [isAllowed] calls for a key that had no record (at
    arbitrary instants), the key has a record whose count lies between 1
    and [maxAttempts] and whose window ends [timeWindow] after its first
    attempt: the counter never runs past the maximum. *)
Theorem count_stays_bounded times key maxAttempts timeWindow
    (attempts : Store) :
  1 <= maxAttempts ->
  attempts !! key = None ->
  times <> [] ->
  exists r, callsAt times key maxAttempts timeWindow attempts !! key = Some r
            /\ 1 <= count r <= maxAttempts
            /\ resetTime r = firstAttempt r + timeWindow.
Proof.
  intros Hmax Hk Hne.
  destruct times as [|t rest]; [congruence|]. simpl.
  apply callsAt_wellFormed; [exact Hmax|].
  apply isAllowed_wellFormed; [exact Hmax|].
  intros r Hr. congruence.
Qed.

Lemma count_stays_bounded_witness :
  exists r,
    callsAt [0; 0; 0; 1; 30000; 30001; 30002; 30003; 30004; 30005; 30006]
            "login_a@b.com" 8 180000 ∅ !! "login_a@b.com" = Some r
    /\ 1 <= count r <= 8
    /\ resetTime r = firstAttempt r + 180000.
Proof.
  apply (count_stays_bounded
           [0; 0; 0; 1; 30000; 30001; 30002; 30003; 30004; 30005; 30006]
           "login_a@b.com" 8 180000 ∅).
  - lia.
  - reflexivity.
  - discriminate.
Defined.

(** X5: for a key that has a record, [getStatus] reports [isBlocked]
    exactly when its inner [isAllowed] call (default limits) refuses, and
    then it changes nothing; for a key without a record it reports zero
    attempts, not blocked, and creates no record. *)
Theorem getStatus_blocked_iff_refused nowR nowA key (attempts : Store) :
  match attempts !! key with
  | Some r =>
      isBlocked (fst (getStatus nowR nowA key attempts))
        = negb (fst (isAllowed nowA key 8 180000 attempts))
      /\ (isBlocked (fst (getStatus nowR nowA key attempts)) = true ->
            snd (getStatus nowR nowA key attempts) = attempts)
  | None =>
      getStatus nowR nowA key attempts = (mkStatus 0 false 0 None, attempts)
  end.
Proof.
  destruct (attempts !! key) as [r|] eqn:Hk.
  - assert (Hb : isBlocked (fst (getStatus nowR nowA key attempts))
                 = negb (fst (isAllowed nowA key 8 180000 attempts))).
    { unfold getStatus. rewrite Hk.
      unfold defaultMaxAttempts, defaultTimeWindow.
      destruct (isAllowed nowA key 8 180000 attempts) as [b s] eqn:Ha.
      simpl. destruct b; [reflexivity|]. simpl.
      assert (Hf : fst (isAllowed nowA key 8 180000 attempts) = false)
        by (rewrite Ha; reflexivity).
      revert Hf. unfold isAllowed. rewrite Hk. simpl.
      repeat match goal with
             | |- context [if ?c then _ else _] => destruct c eqn:?
             end; simpl; try discriminate; intros _; zbool;
        try reflexivity.
      all: exfalso; apply andb_true_iff in Heqb1 as [Hx _];
        apply andb_true_iff in Hx as [Hx _]; lia. }
    split; [exact Hb|]. intros Hblocked.
    rewrite (getStatus_store nowR nowA key attempts r Hk).
    unfold defaultMaxAttempts, defaultTimeWindow.
    apply isAllowed_refused. rewrite Hb in Hblocked.
    destruct (fst (isAllowed nowA key 8 180000 attempts));
      [discriminate|reflexivity].
  - unfold getStatus. rewrite Hk. reflexivity.
Qed.

(** X6: when [isAllowed] refuses a call under the default limits, the
    wait that [getRemainingTime] reports at that instant is positive,
    except at the very instant the window ends, where the call is still
    refused and the reported wait is 0. *)
Theorem refused_reports_wait now key (attempts : Store) r :
  attempts !! key = Some r ->
  fst (isAllowed now key 8 180000 attempts) = false ->
  0 < getRemainingTime now key attempts
  \/ (now = resetTime r /\ getRemainingTime now key attempts = 0).
Proof.
  intros Hk. unfold isAllowed, getRemainingTime, shortCooldown.
  rewrite Hk. simpl.
  repeat match goal with
         | |- context [if ?c then _ else _] => destruct c eqn:?
         end; simpl; try discriminate; intros _;
    repeat match goal with
           | H : (_ && _) = true |- _ => apply andb_true_iff in H as [? ?]
           | H : (_ && _) = false |- _ => apply andb_false_iff in H
           | H : (_ >? _) = _ |- _ => apply Z.gtb_ltb in H || rewrite Z.gtb_ltb in H
           | H : (_ <? _) = true |- _ => apply Z.ltb_lt in H
           | H : (_ <? _) = false |- _ => apply Z.ltb_ge in H
           | H : (_ <=? _) = true |- _ => apply Z.leb_le in H
           | H : (_ <=? _) = false |- _ => apply Z.leb_gt in H
           | H : (_ =? _) = false |- _ => apply Z.eqb_neq in H
           end; try lia.
  all: destruct (Z.eq_dec now (resetTime r)); [right|left]; lia.
Qed.

Lemma refused_reports_wait_witness :
  let attempts : Store := <["login_a@b.com" := mkAttempts 3 180000 0]> ∅ in
  0 < getRemainingTime 10000 "login_a@b.com" attempts.
Proof.
  intros attempts.
  destruct (refused_reports_wait 10000 "login_a@b.com" attempts
              (mkAttempts 3 180000 0) eq_refl eq_refl) as [Hpos|[Heq _]].
  - exact Hpos.
  - discriminate Heq.
Defined.

End RateLimiterExtra.

(* ===================================================================== *)
(** * Further properties of the retry wrapper and of the keep-alive       *)
(* ===================================================================== *)

Module ApiOptimizationExtra.
Import Js ApiOptimization ApiOptimizationSpec.

Section RetryExtra.
Context {W : Type} `{Platform W} {R : Type}.

Lemma retryLoop_delays cfg (fn : Operation W R) context :
  forall remaining attempt lastError calls waits st,
    (attempt + remaining)%nat = MAX_RETRIES cfg ->
    let r := retryLoop cfg fn context (S remaining) attempt lastError
                       calls waits st in
    exists k,
      length (invocations r) = (length calls + S k)%nat
      /\ delays r = waits ++ map (backoffDelay cfg) (seq attempt k).
Proof.
  induction remaining as [|remaining IH];
    intros attempt lastError calls waits st Hsum r; subst r;
    rewrite retryLoop_S; cbv zeta;
    destruct (fn (timeoutFor cfg attempt st) st) as [[result|error] st1].
  - exists 0%nat. simpl. rewrite length_app, app_nil_r. simpl. split; lia || reflexivity.
  - exists 0%nat. rewrite Nat.add_0_r in Hsum. subst attempt.
    rewrite Nat.eqb_refl. simpl. rewrite length_app, app_nil_r. simpl.
    split; lia || reflexivity.
  - exists 0%nat. simpl. rewrite length_app, app_nil_r. simpl. split; lia || reflexivity.
  - destruct (Nat.eqb_spec attempt (MAX_RETRIES cfg)) as [Heq|Hne]; [lia|].
    match goal with
    | |- context [retryLoop cfg fn context (S remaining) ?a ?le ?c ?w ?s] =>
        destruct (IH a le c w s ltac:(lia)) as (k & Hlen & Hdelays)
    end.
    exists (S k). rewrite length_app in Hlen. cbn [length] in Hlen.
    split; [lia|]. rewrite Hdelays, <- app_assoc. reflexivity.
Qed.

Lemma waited_schedule cfg (more : list Z) returned :
  forall attempt,
    waited (schedule cfg attempt more returned)
    = map (backoffDelay cfg) (seq attempt (length more - 1)).
Proof.
  induction more as [|timeout rest IH]; intros attempt; [reflexivity|].
  destruct rest as [|timeout' rest']; [reflexivity|].
  change (waited (schedule cfg attempt (timeout :: timeout' :: rest') returned))
    with (backoffDelay cfg attempt
          :: waited (schedule cfg (S attempt) (timeout' :: rest') returned)).
  rewrite IH. cbn [length Nat.sub seq map]. rewrite ?Nat.sub_0_r.
  reflexivity.
Qed.

(** X7: a run of the retry wrapper waits once after each failed attempt
    except the last one.  On the observed world, where the timer itself
    records each wait and the operation each of its invocations, the
    record of a run is: an invocation that threw, the wait of
    [1000 * k * BACKOFF_MULTIPLIER ^ (k - 1)] milliseconds for attempt
    [k], the next invocation, and so on, with nothing after the last
    invocation; so with [n] invocations exactly [n - 1] waits were made.
    The run does to the world what it does without the record, and the
    list of delays the run reports is the list of the waits made. *)
Theorem waits_between_attempts cfg (fn : Operation W R) context st :
  (1 <= MAX_RETRIES cfg)%nat ->
  let r := retryWithRenderOptimizationCfg cfg fn context st in
  let seen : Run (Observed W) R :=
    retryWithRenderOptimizationCfg cfg (observe fn) context (observing st) in
  let log := events (world (final seen)) in
  delays r
  = map (backoffDelay cfg) (seq 1 (length (invocations r) - 1))
  /\ inner (world (final seen)) = world (final r)
  /\ log = schedule cfg 1 (invocations r) (isReturned (completion r))
  /\ length (outcomes log) = length (invocations r)
  /\ waited log
     = map (backoffDelay cfg) (seq 1 (length (outcomes log) - 1))
  /\ waited log = delays r.
Proof.
  intros Hmax r seen log.
  assert (Hd : delays r
               = map (backoffDelay cfg) (seq 1 (length (invocations r) - 1))).
  { subst r. unfold retryWithRenderOptimizationCfg.
    destruct (MAX_RETRIES cfg) as [|m] eqn:Hm; [lia|].
    rewrite <- Hm.
    pose proof (retryLoop_delays cfg fn context m 1 None [] [] st) as Hd.
    rewrite Hm in *. destruct Hd as (k & Hlen & Hdelays); [lia|].
    rewrite Hdelays, Hlen. simpl. rewrite Nat.sub_0_r. reflexivity. }
  assert (Hobs : inner (world (final seen)) = world (final r)
                 /\ invocations r <> []
                 /\ log = schedule cfg 1 (invocations r)
                                   (isReturned (completion r))).
  { subst log seen r. unfold retryWithRenderOptimizationCfg, observing.
    destruct st as [w d]. cbn [world detector].
    destruct (MAX_RETRIES cfg) as [|m] eqn:Hm; [lia|].
    destruct (retryLoop_observed cfg fn context m 1 None [] [] w d []
                ltac:(lia))
      as (_ & _ & _ & Hw & _ & more & Hmore & Hlen & _ & Hev).
    cbv zeta in Hw, Hmore, Hev.
    split; [exact Hw|]. rewrite Hmore. cbn [app].
    split; [intros ->; simpl in Hlen; lia|exact Hev]. }
  destruct Hobs as (Hw & Hne & Hlog).
  assert (Hout : length (outcomes log) = length (invocations r)).
  { rewrite Hlog, (outcomes_schedule cfg _ _ 1 Hne).
    rewrite length_app, length_replicate. cbn [length].
    destruct (invocations r); [congruence|]. simpl. lia. }
  split; [exact Hd|]. split; [exact Hw|]. split; [exact Hlog|].
  split; [exact Hout|].
  assert (Hwaited : waited log
                    = map (backoffDelay cfg)
                          (seq 1 (length (invocations r) - 1))).
  { rewrite Hlog. apply waited_schedule. }
  split; [rewrite Hout; exact Hwaited|].
  rewrite Hwaited, Hd. reflexivity.
Qed.

Lemma retryLoop_feedback cfg (fn : Operation W R) context :
  forall remaining attempt lastError calls waits st,
    (attempt + remaining)%nat = MAX_RETRIES cfg ->
    let r := retryLoop cfg fn context (S remaining) attempt lastError
                       calls waits st in
    match completion r with
    | Returned _ =>
        detector (final r)
        = mkServiceStatus false (clock (world (final r))) 0
    | Thrown _ => (1 <= consecutiveFailures (detector (final r)))%nat
    end.
Proof.
  induction remaining as [|remaining IH];
    intros attempt lastError calls waits st Hsum r; subst r;
    rewrite retryLoop_S; cbv zeta;
    destruct (fn (timeoutFor cfg attempt st) st) as [[result|error] st1].
  - reflexivity.
  - rewrite Nat.add_0_r in Hsum. subst attempt. rewrite Nat.eqb_refl.
    simpl. rewrite markFailure_counts. lia.
  - reflexivity.
  - destruct (Nat.eqb_spec attempt (MAX_RETRIES cfg)) as [Heq|Hne]; [lia|].
    apply IH. lia.
Qed.

(** X8: the outcome of a run is fed back to the detector: when the run
    returns, the detector is awake with no failure counted and holds the
    time of the success, so that [shouldUseWakeUpTimeout()] is false at
    that instant; when the run throws, at least one consecutive failure
    is counted. *)
Theorem run_feeds_detector cfg (fn : Operation W R) context st :
  (1 <= MAX_RETRIES cfg)%nat ->
  let r := retryWithRenderOptimizationCfg cfg fn context st in
  match completion r with
  | Returned _ =>
      detector (final r) = mkServiceStatus false (clock (world (final r))) 0
      /\ shouldUseWakeUpTimeout (clock (world (final r))) (detector (final r))
         = false
  | Thrown _ => (1 <= consecutiveFailures (detector (final r)))%nat
  end.
Proof.
  intros Hmax r. subst r. unfold retryWithRenderOptimizationCfg.
  destruct (MAX_RETRIES cfg) as [|m] eqn:Hm; [lia|].
  rewrite <- Hm.
  pose proof (retryLoop_feedback cfg fn context m 1 None [] [] st) as Hf.
  rewrite Hm in *. specialize (Hf ltac:(lia)). cbv zeta in Hf.
  set (r := retryLoop cfg fn context (S m) 1 None [] [] st) in *.
  destruct (completion r); [|exact Hf].
  split; [exact Hf|]. rewrite Hf. unfold shouldUseWakeUpTimeout.
  cbn [isServiceAsleep lastSuccessfulRequest]. rewrite Z.sub_diag.
  reflexivity.
Qed.




End RetryExtra.

(** Runs on the deterministic device. *)

Import Sim.

Lemma waits_between_attempts_witness :
  let st := mkSys (Sim.mkWorld 1000 None []) (newDetector 1000) in
  let r : Run Sim.World Z :=
    retryWithRenderOptimizationCfg RENDER_CONFIG
      (alwaysThrows (newError "boom")) "API call" st in
  let seen : Run (Observed Sim.World) Z :=
    retryWithRenderOptimizationCfg RENDER_CONFIG
      (observe (alwaysThrows (newError "boom"))) "API call" (observing st) in
  (1 <= MAX_RETRIES RENDER_CONFIG)%nat
  /\ clock (world (final r)) = 5000
  /\ events (world (final seen))
     = schedule RENDER_CONFIG 1 [15000; 8000; 90000] false
  /\ length (waited (events (world (final seen)))) = 2%nat.
Proof.
  intros st r seen.
  split; [simpl; lia|]. split; [reflexivity|].
  destruct (waits_between_attempts RENDER_CONFIG
              (alwaysThrows (R := Z) (newError "boom")) "API call" st)
    as (_ & _ & Hlog & _ & Hwaited & _); [simpl; lia|].
  split; [exact Hlog|].
  fold seen in Hwaited. rewrite Hwaited. reflexivity.
Defined.

Lemma run_feeds_detector_witness :
  let st := mkSys (Sim.mkWorld 1000 None []) (newDetector 0) in
  let r : Run Sim.World Z :=
    retryWithRenderOptimizationCfg RENDER_CONFIG
      (fun _ s => (Returned 7, s)) "API call" st in
  (1 <= MAX_RETRIES RENDER_CONFIG)%nat
  /\ completion r = Returned 7
  /\ detector (final r) = mkServiceStatus false 1000 0
  /\ shouldUseWakeUpTimeout 1000 (detector (final r)) = false.
Proof.
  intros st r.
  split; [simpl; lia|]. split; [reflexivity|].
  exact (run_feeds_detector RENDER_CONFIG (fun _ s => (Returned 7, s))
           "API call" st ltac:(simpl; lia)).
Defined.


(** ** The keep-alive service *)

Import KeepAlive.

Lemma ping_invariant d0 o now st :
  keepAliveInvariant d0 st -> keepAliveInvariant d0 (ping o now st).
Proof.
  intros (Ha & He & Hc & Hs). unfold ping.
  destruct (negb (isEnabled (service st))); [repeat split; tauto|].
  destruct (isConnected o) as [[]|]; try (repeat split; tauto).
  destruct (responseOk o) as [[]|]; try (repeat split; tauto).
  unfold keepAliveInvariant. simpl. repeat split; try tauto; try lia.
Qed.

Lemma stop_invariant d0 st :
  keepAliveInvariant d0 st -> keepAliveInvariant d0 (stop st).
Proof.
  intros (Ha & He & Hc & Hs). unfold stop, keepAliveInvariant. simpl.
  repeat split; try assumption.
  - destruct (intervalId (service st)) as [id|]; simpl; rewrite Ha.
    + apply set_eq. intros x. rewrite elem_of_difference.
      split; [intros [? ?]; contradiction|intros Hx; inversion Hx].
    + reflexivity.
  - intros Hf. discriminate Hf.
  - intros [x Hx]. discriminate Hx.
Qed.

Lemma start_invariant d0 o now st :
  keepAliveInvariant d0 st -> keepAliveInvariant d0 (start o now st).
Proof.
  intros Hinv. unfold start.
  set (st1 := match intervalId (service st) with
              | Some _ => stop st
              | None => st
              end).
  assert (H1 : keepAliveInvariant d0 st1 /\ intervalId (service st1) = None).
  { unfold st1. destruct (intervalId (service st)) eqn:Hid.
    - split; [apply stop_invariant, Hinv|reflexivity].
    - split; [exact Hinv|exact Hid]. }
  destruct H1 as [(Ha & He & Hc & Hs) Hnone].
  set (st2 := mkState (mkService (intervalId (service st1)) true)
                      (timers st1) (KeepAlive.status st1)).
  assert (Hp : active (timers (ping o now st2)) = ∅
               /\ (consecutiveFailures (KeepAlive.status (ping o now st2))
                   <= consecutiveFailures d0)%nat
               /\ (isServiceAsleep (KeepAlive.status (ping o now st2)) = true ->
                   isServiceAsleep d0 = true)).
  { unfold ping, st2. simpl.
    rewrite Hnone in Ha.
    destruct (isConnected o) as [[]|]; simpl; try (repeat split; assumption).
    destruct (responseOk o) as [[]|]; simpl; try (repeat split; assumption).
    repeat split; [assumption|lia|intros Hf; discriminate Hf]. }
  destruct Hp as (Hpa & Hpc & Hps).
  unfold setInterval, keepAliveInvariant. simpl.
  repeat split; try assumption.
  - rewrite Hpa. apply set_eq. intros x.
    rewrite elem_of_union, elem_of_singleton.
    split; [intros [Hx|Hx]; [exact Hx|inversion Hx]|intros Hx; left; exact Hx].
  - intros _. eexists. reflexivity.
  - intros _. unfold ping, st2. simpl.
    destruct (isConnected o) as [[]|]; try reflexivity.
    destruct (responseOk o) as [[]|]; reflexivity.
Qed.

(** X10: whatever series of [start], [stop] and interval firings the
    keep-alive service goes through from module load, at most one
    interval timer is running, namely the one whose id the service holds
    (none when it is stopped), so a repeated [start] leaks no timer; and
    the service never counts a failure against the detector nor marks it
    asleep. *)
Theorem keepAlive_single_timer events d0 :
  let st := run events (initial d0) in
  active (timers st)
    = match intervalId (service st) with
      | Some id => {[id]}
      | None => ∅
      end
  /\ (size (active (timers st)) <= 1)%nat
  /\ (isEnabled (service st) = true <-> is_Some (intervalId (service st)))
  /\ (consecutiveFailures (KeepAlive.status st) <= consecutiveFailures d0)%nat
  /\ (isServiceAsleep (KeepAlive.status st) = true -> isServiceAsleep d0 = true).
Proof.
  intros st.
  assert (Hinv : keepAliveInvariant d0 st).
  { subst st. unfold run.
    assert (Hgen : forall evs s, keepAliveInvariant d0 s ->
                                 keepAliveInvariant d0 (foldl step s evs)).
    { induction evs as [|e evs IH]; intros s Hs; [exact Hs|].
      simpl. apply IH. destruct e as [o now| |id o now]; simpl.
      - apply start_invariant, Hs.
      - apply stop_invariant, Hs.
      - destruct (bool_decide _); [apply ping_invariant, Hs|exact Hs]. }
    apply Hgen. unfold initial, keepAliveInvariant. simpl.
    repeat split; try lia; try tauto;
      try (intros Hf; discriminate Hf);
      try (intros [x Hx]; discriminate Hx). }
  destruct Hinv as (Ha & He & Hc & Hs).
  repeat split; try assumption; try tauto.
  rewrite Ha. destruct (intervalId (service st)).
  - rewrite size_singleton. lia.
  - rewrite size_empty. lia.
Qed.

End ApiOptimizationExtra.

(* ===================================================================== *)
(** * Further properties of the cache and of the exercise data access     *)
(* ===================================================================== *)

Module ExerciseApiExtra.
Import Js ApiOptimization ApiOptimizationSpec ExerciseApi ExerciseApiSpec.

Lemma prefix_append (p s : string) : String.prefix p (p +:+ s) = true.
Proof.
  induction p as [|c p IH]; simpl; [destruct s; reflexivity|].
  destruct (Ascii.ascii_dec c c); [exact IH|congruence].
Qed.

Lemma includes_prefix (p hay : string) :
  String.prefix p hay = true -> includes p hay = true.
Proof. intros Hp. destruct hay; cbn [includes]; rewrite Hp; reflexivity. Qed.

Lemma includes_append (p s : string) : includes p (p +:+ s) = true.
Proof. apply includes_prefix, prefix_append. Qed.

Lemma includes_self (p : string) : includes p p = true.
Proof.
  assert (Hp : p +:+ "" = p).
  { induction p as [|c p IH]; [reflexivity|].
    change (String c (p +:+ "") = String c p). rewrite IH. reflexivity. }
  rewrite <- Hp at 2. apply includes_append.
Qed.

(** The keys the module writes are keys [clearCache()] removes. *)
Lemma module_keys_removed suffix :
  toRemove None CACHE_KEYS.ALL_EXERCISES = true
  /\ toRemove None (CACHE_KEYS.EXERCISES_BY_MUSCLE +:+ suffix) = true
  /\ toRemove None (CACHE_KEYS.EXERCISES_BY_EQUIPMENT +:+ suffix) = true
  /\ toRemove None CACHE_KEYS.MUSCLES_LIST = true
  /\ toRemove None CACHE_KEYS.EQUIPMENT_LIST = true
  /\ toRemove None (CACHE_KEYS.SEARCH_RESULTS +:+ suffix) = true.
Proof.
  unfold toRemove, cacheKeyValues. cbn [existsb].
  repeat split;
    rewrite ?includes_self, ?includes_append, ?orb_true_r; reflexivity.
Qed.

(** X11: [clearCache(pattern)] removes from AsyncStorage exactly the keys
    its filter picks (with a non-empty pattern: the keys that include
    it; without one: the keys that include one of the six cache key
    texts) and leaves every other key with its value.  After
    [clearCache()] a read of any key the module writes (catalogue,
    by-muscle, by-equipment, search, muscle list, equipment list) is a
    miss. *)
Theorem clearCache_removes {V} pattern (storage : gmap string V) key now ttl
    suffix (cache : gmap string (CacheText V)) :
  (toRemove pattern key = true -> clearCache pattern storage !! key = None)
  /\ (toRemove pattern key = false ->
        clearCache pattern storage !! key = storage !! key)
  /\ (forall k,
        k ∈ [ CACHE_KEYS.ALL_EXERCISES;
              CACHE_KEYS.EXERCISES_BY_MUSCLE +:+ suffix;
              CACHE_KEYS.EXERCISES_BY_EQUIPMENT +:+ suffix;
              CACHE_KEYS.SEARCH_RESULTS +:+ suffix;
              CACHE_KEYS.MUSCLES_LIST; CACHE_KEYS.EQUIPMENT_LIST ] ->
        getFromCache now k ttl (clearCache None cache)
        = (None, clearCache None cache)).
Proof.
  assert (Hgone : forall (W : Type) (m : gmap string W) pat k,
            toRemove pat k = true -> clearCache pat m !! k = None).
  { intros W m pat k Hk. unfold clearCache.
    apply map_lookup_filter_None. right. intros x _. simpl. congruence. }
  split; [apply Hgone|]. split.
  - intros Hk. unfold clearCache.
    destruct (storage !! key) as [v|] eqn:Hv.
    + apply map_lookup_filter_Some. split; [exact Hv|exact Hk].
    + apply map_lookup_filter_None. left. exact Hv.
  - intros k Hin.
    destruct (module_keys_removed suffix) as (H1 & H2 & H3 & H4 & H5 & H6).
    assert (Hk : toRemove None k = true).
    { repeat (apply elem_of_cons in Hin as [->|Hin]; [assumption|]).
      inversion Hin. }
    unfold getFromCache. rewrite (Hgone _ cache None k Hk). reflexivity.
Qed.

Lemma clearCache_removes_witness :
  let storage : gmap string Z :=
    <["cached_exercises_muscle_Pecho" := 1]>
      (<["userPreferences_u1" := 2]> (<["my_cached_search_x" := 3]> ∅)) in
  clearCache None storage !! "cached_exercises_muscle_Pecho" = None
  /\ clearCache None storage !! "userPreferences_u1" = Some 2
  /\ clearCache None storage !! "my_cached_search_x" = None
  /\ clearCache (Some "Pecho") storage !! "cached_exercises_muscle_Pecho"
     = None.
Proof.
  intros storage.
  destruct (clearCache_removes None storage "cached_exercises_muscle_Pecho"
              0 0 "" ∅) as (H1 & _ & _).
  destruct (clearCache_removes None storage "userPreferences_u1"
              0 0 "" ∅) as (_ & H2 & _).
  destruct (clearCache_removes None storage "my_cached_search_x"
              0 0 "" ∅) as (H3 & _ & _).
  destruct (clearCache_removes (Some "Pecho") storage
              "cached_exercises_muscle_Pecho" 0 0 "" ∅) as (H4 & _ & _).
  split; [apply H1; reflexivity|].
  split; [rewrite H2; reflexivity|].
  split; [apply H3; reflexivity|apply H4; reflexivity].
Defined.

(** X12: the cache keys of the query shapes never collide: the keys of
    two muscles, two pieces of equipment or two (lower-cased) queries are
    equal only when their arguments are, and the six key shapes are
    different from one another whatever the arguments. *)
Theorem cache_keys_distinct (a b : string) :
  (CACHE_KEYS.EXERCISES_BY_MUSCLE +:+ a = CACHE_KEYS.EXERCISES_BY_MUSCLE +:+ b
   -> a = b)
  /\ (CACHE_KEYS.EXERCISES_BY_EQUIPMENT +:+ a
      = CACHE_KEYS.EXERCISES_BY_EQUIPMENT +:+ b -> a = b)
  /\ (CACHE_KEYS.SEARCH_RESULTS +:+ a = CACHE_KEYS.SEARCH_RESULTS +:+ b
      -> a = b)
  /\ NoDup [ CACHE_KEYS.ALL_EXERCISES;
             CACHE_KEYS.EXERCISES_BY_MUSCLE +:+ a;
             CACHE_KEYS.EXERCISES_BY_EQUIPMENT +:+ b;
             CACHE_KEYS.SEARCH_RESULTS +:+ a;
             CACHE_KEYS.MUSCLES_LIST;
             CACHE_KEYS.EQUIPMENT_LIST ].
Proof.
  split; [|split; [|split]];
    try (intros Heq; exact (String.app_inj _ _ _ Heq)).
  repeat (constructor;
          [ rewrite ?elem_of_cons, elem_of_nil; cbv;
            intuition discriminate | ]).
  constructor.
Qed.

Section ApiExtra.
Context {X : Type} `{Platform X} `{Http X} `{JsString}.
Variable toLowerCase : string -> string.
Variable parseInt : string -> option Z.

Ltac run_bind := unfold mbind, M_bind, mret, M_ret, mthrow, M_throw, tryCatch.

Lemma apiGet_fetched req (st : Sys (Device X)) :
  fetched [mkRequest (path req) (compressParams (params req))] st
          (snd (apiGet req st)).
Proof.
  unfold apiGet, transport.
  destruct (httpGet _ _ (outside (world st))) as [[data|error] x'].
  - repeat split.
  - run_bind. unfold checkConnectivity. simpl.
    repeat match goal with
           | |- context [if ?c then _ else _] => destruct c
           end; repeat split.
Qed.

Lemma mapResponse_state data (st : Sys (Device X)) :
  snd (mapResponse data st) = st
  /\ forall l, fst (mapResponse data st) = Returned l ->
               exists raw, l = map mapExerciseData raw.
Proof.
  destruct data; simpl; split; try reflexivity; intros l' Hl;
    try discriminate Hl.
  injection Hl as <-. eexists. reflexivity.
Qed.

Lemma fetchList_fetched req (st : Sys (Device X)) :
  fetched [mkRequest (path req) (compressParams (params req))] st
          (snd (fetchList req st))
  /\ forall l, fst (fetchList req st) = Returned l ->
               exists raw, l = map mapExerciseData raw.
Proof.
  unfold fetchList. run_bind.
  pose proof (apiGet_fetched req st) as Hf.
  destruct (apiGet req st) as [[data|e] st1]; simpl in *.
  - destruct (mapResponse_state data st1) as [Hs Hl].
    destruct (mapResponse data st1) as [c st2]. simpl in *. subst st2.
    split; [exact Hf|exact Hl].
  - split; [exact Hf|]. intros l Hl. discriminate Hl.
Qed.

Lemma retryLoop_fetched {A} cfg (fn : M X A) rq (P : A -> Prop) context :
  (forall st, fetched [rq] st (snd (fn st))) ->
  (forall st a, fst (fn st) = Returned a -> P a) ->
  forall remaining attempt lastError calls waits (st : Sys (Device X)),
    (attempt + remaining)%nat = MAX_RETRIES cfg ->
    let r := retryLoop cfg (fun _ => fn) context (S remaining)
                       attempt lastError calls waits st in
    exists k,
      (1 <= k <= S remaining)%nat
      /\ fetched (replicate k rq) st (final r)
      /\ match completion r with
         | Returned a => P a
         | Thrown e => k = S remaining
                       /\ exists e0, e = wrappedError cfg context e0
         end.
Proof.
  intros Hfn HP.
  induction remaining as [|remaining IH];
    intros attempt lastError calls waits st Hsum r; subst r;
    rewrite retryLoop_S; cbv zeta;
    destruct (Hfn st) as (Hs & Hb & Hr); pose proof (HP st) as Hl;
    destruct (fn st) as [[l|error] st1]; simpl in Hs, Hb, Hr, Hl.
  - exists 1%nat. split; [lia|]. split; [repeat split; assumption|].
    apply Hl. reflexivity.
  - rewrite Nat.add_0_r in Hsum. subst attempt. rewrite Nat.eqb_refl.
    exists 1%nat. split; [lia|]. split; [repeat split; assumption|].
    simpl. split; [reflexivity|]. exists error. reflexivity.
  - exists 1%nat. split; [lia|]. split; [repeat split; assumption|].
    apply Hl. reflexivity.
  - destruct (Nat.eqb_spec attempt (MAX_RETRIES cfg)) as [Heq|Hne]; [lia|].
    match goal with
    | |- context [retryLoop cfg ?f context (S remaining) ?a ?le ?c ?w ?s] =>
        destruct (IH a le c w s ltac:(lia)) as (k & Hk & (Hs' & Hb' & Hr') & Hc);
        set (r := retryLoop cfg f context (S remaining) a le c w s) in *
    end.
    simpl in Hs', Hb', Hr'.
    exists (S k). split; [lia|]. split.
    + repeat split.
      * rewrite Hs'. exact Hs.
      * rewrite Hb'. exact Hb.
      * rewrite Hr', Hr, <- app_assoc. reflexivity.
    + destruct (completion r) as [l|e]; [exact Hc|].
      destruct Hc as [-> He]. split; [reflexivity|exact He].
Qed.

(** X13: online and without a cached catalogue, [getAllExercises] sends
    between one and three requests, each for the path /exercises with no
    parameter, and starts no background refresh.  When it returns, the
    list is the image under [mapExerciseData] of a response and is in
    the cache under the catalogue key, stamped with the current time;
    when it throws, all three attempts were made, the cache is as it
    was, and the message is the prefix "Error al cargar ejercicios: "
    followed by the retry wrapper's message. *)
Theorem getAllExercises_fetch (st : Sys (Device X)) :
  connected (world st) = true ->
  asyncStorage (world st) !! CACHE_KEYS.ALL_EXERCISES = None ->
  let st' := snd (getAllExercises st) in
  exists k,
    (1 <= k <= 3)%nat
    /\ requests (world st')
       = requests (world st) ++ replicate k (mkRequest "/exercises" [])
    /\ background (world st') = background (world st)
    /\ match fst (getAllExercises st) with
       | Returned l =>
           (exists raw, l = map mapExerciseData raw)
           /\ asyncStorage (world st')
              = <[CACHE_KEYS.ALL_EXERCISES := Entry l (clock (world st'))]>
                  (asyncStorage (world st))
       | Thrown e =>
           k = 3%nat
           /\ asyncStorage (world st') = asyncStorage (world st)
           /\ exists e0,
                e = newError ("Error al cargar ejercicios: "
                              +:+ message (wrappedError RENDER_CONFIG
                                             "Legacy API call" e0))
       end.
Proof.
  intros Hon Hk st'. subst st'.
  assert (Hrun : getAllExercises st
    = let r := retryLoop RENDER_CONFIG
                 (fun _ => fetchList (mkRequest "/exercises" []))
                 "Legacy API call" 3 1 None [] [] st in
      match completion r with
      | Returned l =>
          (Returned l,
           setStorage (saveToCache (clock (world (final r)))
                         CACHE_KEYS.ALL_EXERCISES l
                         (asyncStorage (world (final r)))) (final r))
      | Thrown e =>
          (Thrown (newError ("Error al cargar ejercicios: " +:+ message e)),
           final r)
      end).
  { unfold getAllExercises. run_bind.
    rewrite (getFromCacheM_absent _ _ st Hk).
    unfold checkConnectivity. rewrite Hon.
    change (negb true) with false. cbv iota.
    unfold retryWithBackoff, retryWithRenderOptimization,
      retryWithRenderOptimizationCfg, fetchList. run_bind.
    cbv zeta. change (MAX_RETRIES RENDER_CONFIG) with 3%nat.
    match goal with
    | |- context [completion ?r] => destruct (completion r); reflexivity
    end. }
  rewrite Hrun. cbv zeta.
  destruct (retryLoop_fetched RENDER_CONFIG
              (fetchList (mkRequest "/exercises" []))
              (mkRequest "/exercises" [])
              (fun l => exists raw, l = map mapExerciseData raw)
              "Legacy API call"
              (fun s => proj1 (fetchList_fetched _ s))
              (fun s => proj2 (fetchList_fetched _ s))
              2 1 None [] [] st eq_refl)
    as (k & Hk3 & (Hs & Hb & Hr) & Hc).
  cbv zeta in Hs, Hb, Hr, Hc.
  set (r := retryLoop RENDER_CONFIG
              (fun _ => fetchList (mkRequest "/exercises" []))
              "Legacy API call" 3 1 None [] [] st) in *.
  exists k. split; [exact Hk3|].
  destruct (completion r) as [l|e]; simpl.
  - split; [exact Hr|]. split; [exact Hb|]. split; [exact Hc|].
    unfold saveToCache. rewrite Hs. reflexivity.
  - destruct Hc as [-> [e0 ->]].
    split; [exact Hr|]. split; [exact Hb|]. split; [reflexivity|].
    split; [exact Hs|]. exists e0. reflexivity.
Qed.

(** The shape shared by the two filtered reads: look in the cache, and
    on a miss make one request, map it, store it. *)
Lemma cached_fetch key req prefix (st : Sys (Device X)) :
  asyncStorage (world st) !! key = None ->
  let r := tryCatch
             (cached ← getFromCacheM key defaultMaxAge;
              match cached with
              | Some c => mret c
              | None =>
                  response ← apiGet req;
                  exercises ← mapResponse response;
                  saveToCacheM key exercises;;
                  mret exercises
              end)
             (fun error => mthrow (newError (prefix +:+ message error))) st in
  requests (world (snd r))
    = requests (world st)
      ++ [mkRequest (path req) (compressParams (params req))]
  /\ background (world (snd r)) = background (world st)
  /\ match fst (fetchList req st) with
     | Returned l =>
         fst r = Returned l
         /\ (exists raw, l = map mapExerciseData raw)
         /\ asyncStorage (world (snd r))
            = <[key := Entry l (clock (world (snd r)))]>
                (asyncStorage (world st))
     | Thrown e0 =>
         fst r = Thrown (newError (prefix +:+ message e0))
         /\ asyncStorage (world (snd r)) = asyncStorage (world st)
     end.
Proof.
  intros Hk r. subst r. unfold fetchList. run_bind.
  rewrite (getFromCacheM_absent _ _ st Hk).
  destruct (apiGet_fetched req st) as (Hs & Hb & Hr).
  destruct (apiGet req st) as [[data|e] s1]; cbn [fst snd] in *.
  - destruct (mapResponse_state data s1) as [Hst Hl].
    destruct (mapResponse data s1) as [[l|e] s2]; cbn [fst snd] in *;
      subst s2.
    + unfold saveToCacheM, setStorage, saveToCache. cbn [fst snd].
      split; [exact Hr|]. split; [exact Hb|]. split; [reflexivity|].
      split; [eauto|]. cbn. rewrite Hs. reflexivity.
    + split; [exact Hr|]. split; [exact Hb|]. split; [reflexivity|exact Hs].
  - split; [exact Hr|]. split; [exact Hb|]. split; [reflexivity|exact Hs].
Qed.

(** X14: without a cache entry for the muscle, [getExercisesByMuscle]
    sends exactly one request (no retry, no connectivity check first)
    for the path /exercises with its one parameter, as
    [compressParams] leaves it, and starts no background refresh.  The
    outcome is that of this one request followed by the mapping: when
    they return a list, the call returns it and the list is in the cache
    under the key of that muscle, stamped with the time of the write;
    when they throw, the call throws the function's prefix followed by
    the message of the very error they threw, and the cache is as it
    was. *)
Theorem byMuscle_fetch (st : Sys (Device X)) muscle :
  asyncStorage (world st) !! (CACHE_KEYS.EXERCISES_BY_MUSCLE +:+ muscle)
    = None ->
  let r := getExercisesByMuscle muscle st in
  let request := mkRequest "/exercises" [("muscle", muscle)] in
  requests (world (snd r))
    = requests (world st)
      ++ [mkRequest "/exercises" (compressParams [("muscle", muscle)])]
  /\ background (world (snd r)) = background (world st)
  /\ match fst (fetchList request st) with
     | Returned l =>
         fst r = Returned l
         /\ (exists raw, l = map mapExerciseData raw)
         /\ asyncStorage (world (snd r))
            = <[CACHE_KEYS.EXERCISES_BY_MUSCLE +:+ muscle
                  := Entry l (clock (world (snd r)))]>
                (asyncStorage (world st))
     | Thrown e0 =>
         fst r = Thrown (newError ("Error al cargar ejercicios por músculo: "
                                   +:+ message e0))
         /\ asyncStorage (world (snd r)) = asyncStorage (world st)
     end.
Proof.
  intros Hm.
  exact (cached_fetch _ (mkRequest "/exercises" [("muscle", muscle)])
                      "Error al cargar ejercicios por músculo: " st Hm).
Qed.

(** X15: the same for [getExercisesByEquipment], with the parameter
    equipment, the cache key of that equipment and its own prefix. *)
Theorem byEquipment_fetch (st : Sys (Device X)) equipment :
  asyncStorage (world st)
    !! (CACHE_KEYS.EXERCISES_BY_EQUIPMENT +:+ equipment) = None ->
  let r := getExercisesByEquipment equipment st in
  let request := mkRequest "/exercises" [("equipment", equipment)] in
  requests (world (snd r))
    = requests (world st)
      ++ [mkRequest "/exercises" (compressParams [("equipment", equipment)])]
  /\ background (world (snd r)) = background (world st)
  /\ match fst (fetchList request st) with
     | Returned l =>
         fst r = Returned l
         /\ (exists raw, l = map mapExerciseData raw)
         /\ asyncStorage (world (snd r))
            = <[CACHE_KEYS.EXERCISES_BY_EQUIPMENT +:+ equipment
                  := Entry l (clock (world (snd r)))]>
                (asyncStorage (world st))
     | Thrown e0 =>
         fst r
         = Thrown (newError ("Error al cargar ejercicios por equipamiento: "
                             +:+ message e0))
         /\ asyncStorage (world (snd r)) = asyncStorage (world st)
     end.
Proof.
  intros He.
  exact (cached_fetch _ (mkRequest "/exercises" [("equipment", equipment)])
                      "Error al cargar ejercicios por equipamiento: " st He).
Qed.

Lemma retryWithBackoff_fetched {A} (fn : M X A) rq (P : A -> Prop)
    (st : Sys (Device X)) :
  (forall st, fetched [rq] st (snd (fn st))) ->
  (forall st a, fst (fn st) = Returned a -> P a) ->
  exists k,
    (1 <= k <= 3)%nat
    /\ fetched (replicate k rq) st (snd (retryWithBackoff fn st))
    /\ match fst (retryWithBackoff fn st) with
       | Returned a => P a
       | Thrown _ => k = 3%nat
       end.
Proof.
  intros Hfn HP.
  destruct (retryLoop_fetched RENDER_CONFIG fn rq P "Legacy API call" Hfn HP
              2 1 None [] [] st eq_refl) as (k & Hk & Hf & Hc).
  cbv zeta in Hf, Hc. exists k. split; [exact Hk|].
  unfold retryWithBackoff, retryWithRenderOptimization,
    retryWithRenderOptimizationCfg.
  change (MAX_RETRIES RENDER_CONFIG) with 3%nat. cbn [fst snd].
  split; [exact Hf|].
  destruct (completion _); [exact Hc|exact (proj1 Hc)].
Qed.

(** X16: a background refresh, run to completion, never throws and
    starts no further refresh; it sends between one and three requests
    for the path /exercises with no parameter; and of the cache it
    touches at most the entry of its own key, which either stays as it
    was or becomes the mapped response stamped with the time of the
    write. *)
Theorem background_refresh_bounded (t : Task) (st : Sys (Device X)) :
  let r := updateCacheInBackground t st in
  fst r = Returned tt
  /\ background (world (snd r)) = background (world st)
  /\ (exists k,
        (1 <= k <= 3)%nat
        /\ requests (world (snd r))
           = requests (world st) ++ replicate k (mkRequest "/exercises" []))
  /\ (forall key, key <> cacheKey t ->
        asyncStorage (world (snd r)) !! key = asyncStorage (world st) !! key)
  /\ (asyncStorage (world (snd r)) !! cacheKey t
        = asyncStorage (world st) !! cacheKey t
      \/ exists raw,
           asyncStorage (world (snd r)) !! cacheKey t
           = Some (Entry (map mapExerciseData raw) (clock (world (snd r))))).
Proof.
  intros r. subst r. rewrite updateCacheInBackground_outcome.
  destruct (fetchFunction t). unfold runFetch. run_bind.
  destruct (retryWithBackoff_fetched (apiGet (mkRequest "/exercises" []))
              (mkRequest "/exercises" []) (fun _ => True) st
              (apiGet_fetched _) (fun _ _ _ => I))
    as (k & Hk & (Hs & Hb & Hr) & _).
  destruct (retryWithBackoff (apiGet (mkRequest "/exercises" [])) st)
    as [[data|e] st1]; cbn [fst snd] in *.
  - destruct (mapResponse_state data st1) as [Hst Hl].
    destruct (mapResponse data st1) as [[l|e] st2]; cbn [fst snd] in *;
      subst st2.
    + destruct (Hl l eq_refl) as [raw ->].
      unfold setStorage, saveToCache. cbn.
      split; [reflexivity|]. split; [exact Hb|].
      split; [exists k; split; [exact Hk|exact Hr]|].
      split.
      * intros key Hkey. rewrite lookup_insert_ne by congruence.
        rewrite Hs. reflexivity.
      * right. exists raw. rewrite lookup_insert_eq. reflexivity.
    + split; [reflexivity|]. split; [exact Hb|].
      split; [exists k; split; [exact Hk|exact Hr]|].
      split; [intros key _; rewrite Hs; reflexivity|].
      left. rewrite Hs. reflexivity.
  - split; [reflexivity|]. split; [exact Hb|].
    split; [exists k; split; [exact Hk|exact Hr]|].
    split; [intros key _; rewrite Hs; reflexivity|].
    left. rewrite Hs. reflexivity.
Qed.



Lemma filterC_texts {A} (predicate : A -> Completion bool) (test : A -> bool)
    (l : list A) :
  Forall (fun x => predicate x = Returned (test x)) l ->
  filterC predicate l = Returned (List.filter test l).
Proof.
  induction l as [|x rest IH]; intros Hall; [reflexivity|].
  apply Forall_cons in Hall as [Hx Hrest].
  cbn [filterC List.filter]. rewrite Hx, (IH Hrest).
  destruct (test x); reflexivity.
Qed.

(** X18: a search whose own entry is missing, while the catalogue is in
    the cache within its TTL, asks the network nothing and — through
    [getAllExercises] — starts a background refresh of the catalogue
    when the device is online.  Its outcome is that of filtering the
    cached catalogue by the lower-cased query: when the filter returns,
    the call returns the filtered list and stores it under the key of
    the lower-cased query; when the filter throws (a record lacks one of
    the four texts the test reaches), the call throws the prefix
    followed by the message of that error and stores nothing.  For a
    catalogue whose records all carry the four texts the filter returns
    the records of which one of the four, lower-cased, includes the
    lower-cased query. *)
Theorem search_filters_catalogue query c (st : Sys (Device X)) :
  asyncStorage (world st)
    !! (CACHE_KEYS.SEARCH_RESULTS +:+ toLowerCase query) = None ->
  cacheHit st CACHE_KEYS.ALL_EXERCISES defaultMaxAge c ->
  let r := searchExercises toLowerCase query st in
  let searchTerm := toLowerCase query in
  let filtered := filterC (matchesSearch toLowerCase searchTerm) c in
  requests (world (snd r)) = requests (world st)
  /\ background (world (snd r))
     = (if connected (world st)
        then background (world st)
             ++ [mkTask CACHE_KEYS.ALL_EXERCISES FetchAllExercises]
        else background (world st))
  /\ match filtered with
     | Returned found =>
         fst r = Returned found
         /\ asyncStorage (world (snd r))
            = <[CACHE_KEYS.SEARCH_RESULTS +:+ searchTerm
                  := Entry found (clock (world st))]> (asyncStorage (world st))
     | Thrown e0 =>
         fst r = Thrown (newError ("Error al buscar ejercicios: "
                                   +:+ message e0))
         /\ asyncStorage (world (snd r)) = asyncStorage (world st)
     end
  /\ (forall texts : Exercise -> list string,
        Forall (fun exercise =>
                  [ex_name exercise; ex_muscle exercise;
                   ex_equipment exercise; ex_difficulty exercise]
                  = map Str (texts exercise)) c ->
        filtered
        = Returned
            (List.filter
               (fun exercise =>
                  existsb (fun text => includes searchTerm (toLowerCase text))
                          (texts exercise)) c)).
Proof.
  intros Hk Hhit r searchTerm filtered. subst r.
  unfold searchExercises. run_bind.
  rewrite (getFromCacheM_absent _ _ st Hk).
  rewrite (getAllExercises_cached st c Hhit).
  unfold liftC. fold searchTerm. fold filtered.
  split; [destruct (connected (world st)), filtered; reflexivity|].
  split; [destruct (connected (world st)), filtered; reflexivity|].
  split.
  - unfold saveToCacheM, setStorage, saveToCache, withBackground.
    destruct (connected (world st)), filtered; cbn; split; reflexivity.
  - intros texts Hall. subst filtered. apply filterC_texts.
    eapply Forall_impl; [exact Hall|]. intros exercise Htexts.
    cbv beta in Htexts. unfold matchesSearch.
    destruct (texts exercise) as [|n [|m [|q [|d [|x rest]]]]];
      try discriminate Htexts.
    cbn [map] in Htexts.
    injection Htexts as -> -> -> ->.
    cbn [fieldIncludes orThen existsb].
    destruct (includes searchTerm (toLowerCase n)); [reflexivity|].
    destruct (includes searchTerm (toLowerCase m)); [reflexivity|].
    destruct (includes searchTerm (toLowerCase q)); [reflexivity|].
    destruct (includes searchTerm (toLowerCase d)); reflexivity.
Qed.

(** X19: an expired copy of the catalogue is no offline fallback: with
    the device offline, [getAllExercises] first removes the expired
    entry from the cache and then throws the offline error, without any
    request to the network. *)
Theorem offline_stale_catalogue_dropped (st : Sys (Device X)) c ts :
  connected (world st) = false ->
  asyncStorage (world st) !! CACHE_KEYS.ALL_EXERCISES = Some (Entry c ts) ->
  defaultMaxAge < clock (world st) - ts ->
  getAllExercises st
  = (Thrown (newError
       "Sin conexión y no hay ejercicios guardados localmente"),
     setStorage (delete CACHE_KEYS.ALL_EXERCISES (asyncStorage (world st)))
                st).
Proof.
  intros Hoff Hk Hstale. unfold getAllExercises. run_bind.
  unfold getFromCacheM.
  rewrite (getFromCache_stale _ _ _ _ c ts Hk Hstale).
  unfold checkConnectivity.
  change (connected (world (setStorage _ st))) with (connected (world st)).
  rewrite Hoff. reflexivity.
Qed.

Lemma getFromCacheM_state key ttl (st : Sys (Device X)) :
  exists r storage',
    getFromCacheM key ttl st = (Returned r, setStorage storage' st).
Proof.
  unfold getFromCacheM.
  destruct (getFromCache _ key ttl _) as [r storage']. eauto.
Qed.

Lemma getAllExercises_requests (st : Sys (Device X)) :
  exists k,
    (k <= 3)%nat
    /\ requests (world (snd (getAllExercises st)))
       = requests (world st) ++ replicate k (mkRequest "/exercises" []).
Proof.
  unfold getAllExercises. run_bind.
  destruct (getFromCacheM_state CACHE_KEYS.ALL_EXERCISES defaultMaxAge st)
    as (r & sto & ->).
  unfold checkConnectivity.
  set (st1 := setStorage sto st).
  assert (Hreq : requests (world st1) = requests (world st)) by reflexivity.
  destruct (negb (connected (world st1))).
  - destruct r; exists 0%nat; cbn [snd replicate]; rewrite app_nil_r;
      (split; [lia|exact Hreq]).
  - destruct r as [c|].
    + exists 0%nat. cbn [snd replicate]. rewrite app_nil_r.
      split; [lia|exact Hreq].
    + destruct (retryWithBackoff_fetched
                  (fetchList (mkRequest "/exercises" []))
                  (mkRequest "/exercises" []) (fun _ => True) st1
                  (fun s => proj1 (fetchList_fetched _ s))
                  (fun _ _ _ => I))
        as (k & Hk & (Hs & Hb & Hr) & _).
      unfold fetchList in *. run_bind.
      destruct (retryWithBackoff _ st1) as [[l|e] st2]; cbn [fst snd] in *;
        exists k; (split; [lia|]); rewrite <- Hreq, <- Hr; reflexivity.
Qed.

(** X20: a lookup by id costs at most four requests: at most the direct
    one and then at most three for the catalogue.  A record it returns
    from a catalogue bears the id asked for; data it returns is the data
    of the direct request, never empty, and is returned without asking
    for the catalogue.  When it throws, the direct request was made, and
    the message is the prefix with the id followed by the message of the
    first failure (the error the direct request threw, or "Ejercicio no
    encontrado" when that request returned no data), not of the
    fallback's. *)
Theorem byId_outcome id (st : Sys (Device X)) :
  let r := getExerciseById parseInt id st in
  let afterRead :=
    snd (getFromCacheM CACHE_KEYS.ALL_EXERCISES defaultMaxAge st) in
  let direct :=
    fst (apiGet (mkRequest ("/exercises/" +:+ id) []) afterRead) in
  let firstFailure :=
    match direct with
    | Thrown error => error
    | Returned _ => newError "Ejercicio no encontrado"
    end in
  exists a b,
    (a <= 1)%nat /\ (b <= 3)%nat
    /\ requests (world (snd r))
       = requests (world st)
         ++ replicate a (mkRequest ("/exercises/" +:+ id) [])
         ++ replicate b (mkRequest "/exercises" [])
    /\ match fst r with
       | Returned (FromCatalogue exercise) =>
           Some (ex_id exercise) = parseInt id
       | Returned (FromApi data) =>
           data <> DataNone /\ direct = Returned data
           /\ a = 1%nat /\ b = 0%nat
       | Thrown e =>
           a = 1%nat
           /\ e = newError ("No se pudo obtener el ejercicio con ID "
                            +:+ id +:+ ": " +:+ message firstFailure)
       end.
Proof.
  intros r afterRead direct firstFailure.
  subst r firstFailure direct afterRead.
  unfold getExerciseById. run_bind.
  destruct (getFromCacheM_state CACHE_KEYS.ALL_EXERCISES defaultMaxAge st)
    as (cached & sto & ->).
  cbn [snd].
  set (st1 := setStorage sto st).
  assert (Hreq : requests (world st1) = requests (world st)) by reflexivity.
  assert (Hfound : forall l exercise,
            findById parseInt id l = Some exercise ->
            Some (ex_id exercise) = parseInt id).
  { intros l exercise Hf. unfold findById in Hf.
    apply find_some in Hf as [_ Hb].
    apply bool_decide_eq_true in Hb. exact Hb. }
  destruct cached as [l|]; cbn [option_bind];
    [destruct (findById parseInt id l) as [exercise|] eqn:Hc|].
  1:{ exists 0%nat, 0%nat. cbn [fst snd replicate]. rewrite !app_nil_r.
      split; [lia|]. split; [lia|]. split; [exact Hreq|].
      exact (Hfound l exercise Hc). }
  all: destruct (apiGet_fetched (mkRequest ("/exercises/" +:+ id) []) st1)
         as (_ & _ & Hr1);
       cbn [path params compressParams map] in Hr1; rewrite Hreq in Hr1;
       destruct (apiGet (mkRequest ("/exercises/" +:+ id) []) st1)
         as [[[raws|raw|]|e0] st2]; cbn [fst snd] in Hr1.
  all: try (exists 1%nat, 0%nat; cbn [fst snd replicate]; rewrite app_nil_r;
            split; [lia|]; split; [lia|]; split; [exact Hr1|];
            split; [discriminate|split; [reflexivity|split; reflexivity]]).
  all: destruct (getAllExercises_requests st2) as (b & Hb & Hrb);
       destruct (getAllExercises st2) as [[l'|e'] st3]; cbn [fst snd] in Hrb;
       [destruct (findById parseInt id l') as [exercise'|] eqn:Hf'|];
       cbn [fst snd];
       exists 1%nat, b; (split; [lia|]); (split; [exact Hb|]);
       (split; [rewrite Hrb, Hr1, <- app_assoc; reflexivity|]);
       first [ exact (Hfound l' exercise' Hf')
             | split; reflexivity ].
Qed.

End ApiExtra.

End ExerciseApiExtra.

(* ===================================================================== *)
(** * Further properties of the preference service                        *)
(* ===================================================================== *)

Module UserPreferencesExtra.
Import Js UserPreferences UserPreferencesSpec.

Lemma localKey_inj u u' : localKey u = localKey u' -> u = u'.
Proof. intros Heq. exact (String.app_inj _ _ _ Heq). Qed.

Lemma untouched_refl other w : untouched other w w.
Proof. split; reflexivity. Qed.

Lemma untouched_trans other w1 w2 w3 :
  untouched other w1 w2 -> untouched other w2 w3 -> untouched other w1 w3.
Proof.
  intros [Ha Hf] [Ha' Hf']. split.
  - rewrite Ha'. exact Ha.
  - rewrite Hf'. exact Hf.
Qed.

Lemma setLocal_untouched other userId t w :
  other <> userId -> untouched other w (setLocal (localKey userId) t w).
Proof.
  intros Hne. split; [|reflexivity]. unfold setLocal. simpl.
  apply lookup_insert_ne. intros Heq. apply Hne. symmetry.
  exact (localKey_inj _ _ Heq).
Qed.

Lemma setDoc_untouched other userId data w :
  other <> userId -> untouched other w (snd (setDoc userId data w)).
Proof.
  intros Hne. unfold setDoc, firestoreCall.
  destruct (faults w) as [|[] rest]; split; simpl; try reflexivity;
    apply lookup_insert_ne; congruence.
Qed.

Lemma getDoc_untouched other userId w :
  untouched other w (snd (getDoc userId w)).
Proof.
  unfold getDoc, firestoreCall.
  destruct (faults w) as [|[] rest]; split; reflexivity.
Qed.

Lemma retryLoop_untouched {A} other (fn : World -> Completion A * World) n :
  (forall w, untouched other w (snd (fn w))) ->
  forall w, untouched other w (snd (retryLoop fn n w)).
Proof.
  intros Hfn. induction n as [|n IH]; intros w; [apply untouched_refl|].
  cbn [retryLoop]. pose proof (Hfn w) as Hw.
  destruct (fn w) as [[a|e] w1]; simpl in Hw; [exact Hw|].
  destruct n as [|n']; [exact Hw|].
  apply (untouched_trans other w w1); [exact Hw|apply IH].
Qed.

Lemma saveUserPreferences_untouched other tC tU userId prefs w :
  other <> userId ->
  untouched other w (snd (saveUserPreferences tC tU userId prefs w)).
Proof.
  intros Hne. unfold saveUserPreferences.
  set (data := preferencesData userId prefs tC tU).
  pose proof (setLocal_untouched other userId (DocText data) w Hne) as H1.
  set (w1 := setLocal (localKey userId) (DocText data) w) in *.
  destruct (negb (checkConnectivity w1)); [exact H1|].
  pose proof (retryLoop_untouched other (setDoc userId data) 3
                (fun w0 => setDoc_untouched other userId data w0 Hne) w1)
    as H2.
  unfold retryWithBackoff.
  destruct (retryLoop (setDoc userId data) 3 w1) as [c w2]. simpl in *.
  apply (untouched_trans other w w1); assumption.
Qed.

Lemma getUserPreferences_untouched other userId w :
  other <> userId ->
  untouched other w (snd (getUserPreferences userId w)).
Proof.
  intros Hne. unfold getUserPreferences.
  destruct (negb (checkConnectivity w)); [apply untouched_refl|].
  pose proof (retryLoop_untouched other (getDoc userId) 3
                (fun w0 => getDoc_untouched other userId w0) w) as H1.
  unfold retryWithBackoff.
  destruct (retryLoop (getDoc userId) 3 w) as [[[[d|]|]|e] w1]; simpl in *;
    try exact H1.
  apply (untouched_trans other w w1); [exact H1|].
  apply setLocal_untouched, Hne.
Qed.

Lemma syncPendingData_untouched other userId w :
  other <> userId ->
  untouched other w (snd (syncPendingData userId w)).
Proof.
  intros Hne. unfold syncPendingData.
  destruct (negb (checkConnectivity w)); [apply untouched_refl|].
  destruct (asyncStorage w !! localKey userId) as [[l|]|];
    try apply untouched_refl.
  pose proof (getDoc_untouched other userId w) as H1.
  destruct (getDoc userId w) as [[found|e] w1]; simpl in H1.
  - destruct (numGt _ _).
    + pose proof (setDoc_untouched other userId l w1 Hne) as H2.
      destruct (setDoc userId l w1) as [[u|e] w2]; simpl in *;
        apply (untouched_trans other w w1); assumption.
    + destruct found as [remote|]; [|exact H1].
      destruct (numGt _ _); [|exact H1].
      apply (untouched_trans other w w1); [exact H1|].
      apply setLocal_untouched, Hne.
  - destruct (numGt _ _).
    + pose proof (setDoc_untouched other userId l w1 Hne) as H2.
      destruct (setDoc userId l w1) as [[u|e'] w2]; simpl in *;
        apply (untouched_trans other w w1); assumption.
    + exact H1.
Qed.

(** X21: the service keeps users apart: saving, loading, updating or
    synchronising the preferences of one user leaves the local copy and
    the remote document of every other user as they were, whatever the
    connectivity and whichever Firestore calls fail. *)
Theorem other_users_untouched tMerged tCompleted tUpdated userId other
    (preferences updates : Doc) w :
  other <> userId ->
  untouched other w
    (snd (saveUserPreferences tCompleted tUpdated userId preferences w))
  /\ untouched other w (snd (getUserPreferences userId w))
  /\ untouched other w
       (snd (updateUserPreferences tMerged tCompleted tUpdated userId
               updates w))
  /\ untouched other w (snd (syncPendingData userId w)).
Proof.
  intros Hne.
  split; [apply saveUserPreferences_untouched, Hne|].
  split; [apply getUserPreferences_untouched, Hne|].
  split; [|apply syncPendingData_untouched, Hne].
  unfold updateUserPreferences.
  pose proof (getUserPreferences_untouched other userId w Hne) as H1.
  destruct (getUserPreferences userId w) as [[current|] w1]; simpl in H1;
    [|exact H1].
  match goal with
  | |- context [saveUserPreferences ?a ?b ?c ?d ?e] =>
      pose proof (saveUserPreferences_untouched other a b c d e Hne) as H2;
      destruct (saveUserPreferences a b c d e) as [data w2]
  end.
  simpl in *. apply (untouched_trans other w w1); assumption.
Qed.

Lemma other_users_untouched_witness :
  let w := quizWorld (Some 1000) (Some 2000) (Some (true, None)) [] in
  untouched "u1" w (snd (saveUserPreferences 5000 5001 "u2" ∅ w))
  /\ untouched "u1" w (snd (syncPendingData "u2" w)).
Proof.
  intros w.
  destruct (other_users_untouched 0 5000 5001 "u2" "u1" ∅ ∅ w)
    as (Hsave & _ & _ & Hsync); [discriminate|].
  split; [exact Hsave|exact Hsync].
Defined.

(** X22: online, with the remote read answering, a remote document
    always wins a load: [getUserPreferences] returns it and overwrites
    the local copy with it, whatever the local copy holds and however
    the two [lastUpdated] stamps compare. *)
Theorem load_prefers_remote userId w (remote : Doc) :
  checkConnectivity w = true ->
  succeeds 1 w ->
  firestore w !! userId = Some remote ->
  let r := getUserPreferences userId w in
  fst r = Some remote
  /\ asyncStorage (snd r) !! localKey userId = Some (DocText remote)
  /\ firestore (snd r) = firestore w.
Proof.
  intros Hon Hok Hr r. subst r. unfold getUserPreferences.
  rewrite Hon. simpl negb. cbv iota.
  unfold retryWithBackoff, retryLoop, getDoc, firestoreCall.
  unfold succeeds in Hok.
  destruct (faults w) as [|[] rest]; simpl in *.
  - rewrite Hr. simpl. split; [reflexivity|].
    split; [apply lookup_insert_eq|reflexivity].
  - inversion Hok as [|? ? Hb _]. discriminate Hb.
  - rewrite Hr. simpl. split; [reflexivity|].
    split; [apply lookup_insert_eq|reflexivity].
Qed.

Lemma load_prefers_remote_witness :
  let w := quizWorld (Some 2000) (Some 1000) (Some (true, None)) [] in
  fst (getUserPreferences "u1" w) = Some (stamped 1000)
  /\ asyncStorage (snd (getUserPreferences "u1" w)) !! localKey "u1"
     = Some (DocText (stamped 1000)).
Proof.
  intros w.
  destruct (load_prefers_remote "u1" w (stamped 1000))
    as (Hr & Hl & _); try reflexivity.
  { unfold succeeds. simpl. constructor. }
  split; [exact Hr|exact Hl].
Defined.

Lemma saveUserPreferences_offline tC tU userId prefs w :
  checkConnectivity w = false ->
  saveUserPreferences tC tU userId prefs w
  = (preferencesData userId prefs tC tU,
     setLocal (localKey userId)
              (DocText (preferencesData userId prefs tC tU)) w).
Proof.
  intros Hoff. unfold saveUserPreferences.
  change (checkConnectivity (setLocal _ _ w)) with (checkConnectivity w).
  rewrite Hoff. reflexivity.
Qed.

(** X23: preferences saved while offline do not survive the next online
    load when an older remote document exists: the save writes the local
    copy only, and once connectivity is back [getUserPreferences] returns
    the remote document and replaces the local copy by it, so the saved
    document is gone from both sides unless a sync ran in between. *)
Theorem unsynced_save_is_overwritten tCompleted tUpdated userId
    (preferences old : Doc) w :
  checkConnectivity w = false ->
  firestore w !! userId = Some old ->
  let saved := saveUserPreferences tCompleted tUpdated userId preferences w in
  let back := backOnline (snd saved) in
  let loaded := getUserPreferences userId back in
  asyncStorage back !! localKey userId = Some (DocText (fst saved))
  /\ fst loaded = Some old
  /\ asyncStorage (snd loaded) !! localKey userId = Some (DocText old)
  /\ firestore (snd loaded) !! userId = Some old.
Proof.
  intros Hoff Hold saved back loaded. subst loaded back saved.
  rewrite (saveUserPreferences_offline _ _ _ _ _ Hoff). cbn [fst snd].
  split; [unfold backOnline, setLocal; simpl; apply lookup_insert_eq|].
  destruct (load_prefers_remote userId
              (backOnline (setLocal (localKey userId)
                 (DocText (preferencesData userId preferences
                             tCompleted tUpdated)) w)) old)
    as (Hr & Hl & Hf).
  - reflexivity.
  - unfold succeeds. simpl. constructor.
  - exact Hold.
  - split; [exact Hr|]. split; [exact Hl|]. rewrite Hf. exact Hold.
Qed.

Lemma unsynced_save_is_overwritten_witness :
  let w := quizWorld None (Some 1000) (Some (false, None)) [] in
  let saved := saveUserPreferences 5000 5001 "u1" ∅ w in
  let loaded := getUserPreferences "u1" (backOnline (snd saved)) in
  fst saved !! "lastUpdated" = Some (JIso 5001)
  /\ fst loaded = Some (stamped 1000).
Proof.
  intros w saved loaded.
  destruct (unsynced_save_is_overwritten 5000 5001 "u1" ∅ (stamped 1000) w)
    as (_ & Hr & _); try reflexivity.
  split; [reflexivity|exact Hr].
Defined.

(** X24: the same save survives when [syncPendingData] runs first once
    connectivity is back and the remote document bears an older stamp:
    the sync uploads the local document, and the load that follows
    returns the saved document. *)
Theorem synced_save_survives tCompleted tUpdated userId
    (preferences old : Doc) w :
  checkConnectivity w = false ->
  firestore w !! userId = Some old ->
  numGt (Some tUpdated) (timestampOf (Some old)) = true ->
  let saved := saveUserPreferences tCompleted tUpdated userId preferences w in
  let synced := syncPendingData userId (backOnline (snd saved)) in
  let loaded := getUserPreferences userId (snd synced) in
  fst synced = true
  /\ firestore (snd synced) !! userId = Some (fst saved)
  /\ fst loaded = Some (fst saved)
  /\ asyncStorage (snd loaded) !! localKey userId = Some (DocText (fst saved)).
Proof.
  intros Hoff Hold Hnewer saved synced loaded. subst loaded synced saved.
  rewrite (saveUserPreferences_offline _ _ _ _ _ Hoff). cbn [fst snd].
  set (data := preferencesData userId preferences tCompleted tUpdated).
  set (back := backOnline (setLocal (localKey userId) (DocText data) w)).
  assert (Hsync : syncPendingData userId back
                  = (true, mkWorld (asyncStorage back)
                                   (<[userId := data]> (firestore back))
                                   (netInfo back) (faults back))).
  { unfold syncPendingData.
    assert (Hl : asyncStorage back !! localKey userId = Some (DocText data))
      by (unfold back, backOnline, setLocal; simpl; apply lookup_insert_eq).
    rewrite Hl.
    assert (Hon : checkConnectivity back = true) by reflexivity.
    rewrite Hon. simpl negb. cbv iota.
    unfold getDoc, setDoc, firestoreCall.
    assert (Hfl : faults back = []) by reflexivity. rewrite Hfl.
    assert (Hfs : firestore back !! userId = Some old) by exact Hold.
    rewrite Hfs.
    rewrite (timestampOf_iso data tUpdated
               (proj2 (preferencesData_stamps _ _ _ _))).
    rewrite Hnewer. rewrite Hfl. reflexivity. }
  rewrite Hsync. cbn [fst snd].
  split; [reflexivity|].
  split; [simpl; apply lookup_insert_eq|].
  destruct (load_prefers_remote userId
              (mkWorld (asyncStorage back)
                       (<[userId := data]> (firestore back))
                       (netInfo back) (faults back)) data)
    as (Hr & Hl & _).
  - reflexivity.
  - unfold succeeds. simpl. constructor.
  - simpl. apply lookup_insert_eq.
  - split; [exact Hr|exact Hl].
Qed.

Lemma synced_save_survives_witness :
  let w := quizWorld None (Some 1000) (Some (false, None)) [] in
  let saved := saveUserPreferences 5000 5001 "u1" ∅ w in
  let synced := syncPendingData "u1" (backOnline (snd saved)) in
  fst synced = true
  /\ fst (getUserPreferences "u1" (snd synced)) = Some (fst saved).
Proof.
  intros w saved synced.
  destruct (synced_save_survives 5000 5001 "u1" ∅ (stamped 1000) w)
    as (Hs & _ & Hr & _); try reflexivity.
  split; [exact Hs|exact Hr].
Defined.

Lemma numGt_irrefl a : numGt a a = false.
Proof.
  destruct a as [x|]; [|reflexivity]. unfold numGt.
  destruct (Z.gtb_spec x x); [lia|reflexivity].
Qed.

Lemma sync_answering userId a f n :
  syncPendingData userId (mkWorld a f n [])
  = if negb (checkConnectivity (mkWorld a f n [])) then
      (false, mkWorld a f n [])
    else
      match a !! localKey userId with
      | None => (true, mkWorld a f n [])
      | Some BadText => (false, mkWorld a f n [])
      | Some (DocText l) =>
          if numGt (timestampOf (Some l)) (timestampOf (f !! userId)) then
            (true, mkWorld a (<[userId := l]> f) n [])
          else
            match f !! userId with
            | Some remote =>
                if numGt (timestampOf (Some remote)) (timestampOf (Some l))
                then (true,
                      mkWorld (<[localKey userId := DocText remote]> a) f n [])
                else (true, mkWorld a f n [])
            | None => (true, mkWorld a f n [])
            end
      end.
Proof.
  unfold syncPendingData, getDoc, setDoc, firestoreCall, setLocal.
  cbn [asyncStorage firestore netInfo faults].
  destruct (negb _); [reflexivity|].
  destruct (a !! localKey userId) as [[l|]|]; try reflexivity.
  destruct (numGt (timestampOf (Some l)) (timestampOf (f !! userId)));
    [reflexivity|].
  destruct (f !! userId) as [remote|]; reflexivity.
Qed.

(** X25: with Firestore answering, [syncPendingData] is idempotent: a
    second run right after the first gives the same answer and writes
    nothing on either side. *)
Theorem sync_idempotent userId w :
  faults w = [] ->
  let once := syncPendingData userId w in
  syncPendingData userId (snd once) = once.
Proof.
  intros Hfl once. subst once.
  destruct w as [a f n fl]. simpl in Hfl. subst fl.
  assert (Hnet : forall a' f',
            checkConnectivity (mkWorld a' f' n [])
            = checkConnectivity (mkWorld a f n [])) by reflexivity.
  rewrite (sync_answering userId a f n).
  destruct (checkConnectivity (mkWorld a f n [])) eqn:Hon; simpl negb;
    cbv iota.
  2:{ cbn [snd]. rewrite sync_answering, Hnet. reflexivity. }
  destruct (a !! localKey userId) as [[l|]|] eqn:Hl.
  2:{ cbn [snd]. rewrite sync_answering, Hnet, Hl. reflexivity. }
  2:{ cbn [snd]. rewrite sync_answering, Hnet, Hl. reflexivity. }
  destruct (numGt (timestampOf (Some l)) (timestampOf (f !! userId)))
    eqn:Hup.
  - cbn [snd]. rewrite sync_answering, Hnet, ?Hl. simpl negb. cbv iota.
    rewrite lookup_insert_eq, numGt_irrefl. reflexivity.
  - destruct (f !! userId) as [remote|] eqn:Hr.
    + destruct (numGt (timestampOf (Some remote)) (timestampOf (Some l)))
        eqn:Hdown.
      * cbn [snd]. rewrite sync_answering, Hnet. simpl negb. cbv iota.
        rewrite lookup_insert_eq, Hr, numGt_irrefl. reflexivity.
      * cbn [snd]. rewrite sync_answering, Hnet, Hl. simpl negb. cbv iota.
        rewrite Hr, Hup, Hdown. reflexivity.
    + cbn [snd]. rewrite sync_answering, Hnet, Hl. simpl negb. cbv iota.
      rewrite Hr, Hup. reflexivity.
Qed.

Lemma sync_idempotent_witness :
  let w := quizWorld (Some 2000) (Some 1000) (Some (true, None)) [] in
  firestore (snd (syncPendingData "u1" w)) !! "u1" = Some (stamped 2000)
  /\ syncPendingData "u1" (snd (syncPendingData "u1" w))
     = syncPendingData "u1" w.
Proof.
  intros w. split; [reflexivity|].
  apply (sync_idempotent "u1" w). reflexivity.
Defined.

(** X26: read-your-writes: a load that follows a save returns the saved
    document and leaves it as the local copy, when the device is offline
    throughout or when the remote write and the remote read both go
    through. *)
Theorem save_then_load tCompleted tUpdated userId (preferences : Doc) w :
  checkConnectivity w = false \/ succeeds 2 w ->
  let saved := saveUserPreferences tCompleted tUpdated userId preferences w in
  let loaded := getUserPreferences userId (snd saved) in
  fst loaded = Some (fst saved)
  /\ asyncStorage (snd loaded) !! localKey userId = Some (DocText (fst saved)).
Proof.
  intros Hcase saved loaded. subst loaded saved.
  destruct (checkConnectivity w) eqn:Hon.
  - destruct Hcase as [Hcase|Hok]; [discriminate Hcase|].
    destruct (saveUserPreferences_result tCompleted tUpdated userId
                preferences w) as [Hres _].
    rewrite Hres.
    set (data := preferencesData userId preferences tCompleted tUpdated).
    assert (Hw2 : checkConnectivity
                    (snd (saveUserPreferences tCompleted tUpdated userId
                            preferences w)) = true
                  /\ succeeds 1
                       (snd (saveUserPreferences tCompleted tUpdated userId
                               preferences w))
                  /\ firestore
                       (snd (saveUserPreferences tCompleted tUpdated userId
                               preferences w)) !! userId = Some data).
    { unfold saveUserPreferences. fold data.
      change (checkConnectivity (setLocal _ _ w)) with (checkConnectivity w).
      rewrite Hon. simpl negb. cbv iota.
      unfold retryWithBackoff, retryLoop, setDoc, firestoreCall.
      unfold succeeds in *.
      destruct w as [a f n fl]. simpl in *.
      destruct fl as [|[] [|[] rest]]; simpl in *;
        try (exfalso; inversion Hok as [|? ? Hb Hok']; try discriminate Hb;
             inversion Hok' as [|? ? Hb' _]; discriminate Hb');
        (split; [exact Hon|]); (split; [repeat constructor|]);
        apply lookup_insert_eq. }
    destruct Hw2 as (Hon2 & Hok2 & Hf2).
    destruct (load_prefers_remote userId _ data Hon2 Hok2 Hf2)
      as (Hr & Hl & _).
    split; [exact Hr|exact Hl].
  - rewrite (saveUserPreferences_offline _ _ _ _ _ Hon). cbn [fst snd].
    unfold getUserPreferences.
    change (checkConnectivity (setLocal _ _ w)) with (checkConnectivity w).
    rewrite Hon. simpl negb. cbv iota. cbn [fst snd].
    unfold setLocal. cbn [asyncStorage]. rewrite lookup_insert_eq.
    split; reflexivity.
Qed.

Lemma save_then_load_witness :
  let w := quizWorld (Some 1000) (Some 1000) (Some (true, None)) [] in
  let saved := saveUserPreferences 5000 5001 "u1" ∅ w in
  fst (getUserPreferences "u1" (snd saved)) = Some (fst saved).
Proof.
  intros w saved.
  destruct (save_then_load 5000 5001 "u1" ∅ w) as (Hr & _).
  { right. unfold succeeds. simpl. constructor. }
  exact Hr.
Defined.

End UserPreferencesExtra.

(* ===================================================================== *)
(** * Further properties of the routine store                             *)
(* ===================================================================== *)

Module RoutinesExtra.
Import Js Routines RoutinesSpec.

(** ** Texts *)





(** ** Removing duplicates *)





Section RoutinesStore.
Context `{JsonParse}.


(** ** Deleting and finding *)





(** ** Cleaning the legacy data before a user has migrated *)

Lemma cleanupOldRoutineData_lookup (storage : Storage) key :
  cleanupOldRoutineData storage !! key
  = if bool_decide (key ∈ keysToClean) then
      match storage !! key with
      | Some (Text "") => Some (Text "")
      | _ => None
      end
    else storage !! key.
Proof.
  unfold cleanupOldRoutineData, keysToClean. cbn [foldl].
  set (k1 := "user_routines_default_user").
  set (k2 := "routine_history_default_user").
  set (k3 := "favorite_routines_default_user").
  assert (H12 : k1 <> k2) by discriminate.
  assert (H13 : k1 <> k3) by discriminate.
  assert (H23 : k2 <> k3) by discriminate.
  set (s1 := match storage !! k1 with
             | None | Some (Text "") => storage
             | Some _ => delete k1 storage
             end).
  set (s2 := match s1 !! k2 with
             | None | Some (Text "") => s1
             | Some _ => delete k2 s1
             end).
  assert (Hstep : forall (st : Storage) k key',
            (match st !! k with
             | None | Some (Text "") => st
             | Some _ => delete k st
             end) !! key'
            = if bool_decide (key' = k) then
                match st !! k with
                | Some (Text "") => Some (Text "")
                | _ => None
                end
              else st !! key').
  { intros st k key'. destruct (decide (key' = k)) as [->|Hne].
    - rewrite bool_decide_eq_true_2 by reflexivity.
      destruct (st !! k) as [[l|[|c t]]|] eqn:Hk;
        rewrite ?lookup_delete_eq, ?Hk; reflexivity.
    - rewrite bool_decide_eq_false_2 by exact Hne.
      destruct (st !! k) as [[l|[|c t]]|] eqn:Hk;
        rewrite ?lookup_delete_ne by congruence; reflexivity. }
  rewrite (Hstep s2 k3 key). unfold s2. rewrite !(Hstep s1 k2).
  unfold s1. rewrite !(Hstep storage k1).
  destruct (decide (key = k1)) as [->|N1];
    [|destruct (decide (key = k2)) as [->|N2];
      [|destruct (decide (key = k3)) as [->|N3]]].
  - rewrite (bool_decide_eq_true_2 (k1 ∈ [k1; k2; k3]))
      by (apply list_elem_of_here).
    rewrite (bool_decide_eq_false_2 (k1 = k3)) by exact H13.
    rewrite (bool_decide_eq_false_2 (k1 = k2)) by exact H12.
    rewrite (bool_decide_eq_true_2 (k1 = k1)) by reflexivity.
    reflexivity.
  - rewrite (bool_decide_eq_true_2 (k2 ∈ [k1; k2; k3]))
      by (apply list_elem_of_further, list_elem_of_here).
    rewrite (bool_decide_eq_false_2 (k2 = k3)) by exact H23.
    rewrite (bool_decide_eq_true_2 (k2 = k2)) by reflexivity.
    rewrite (bool_decide_eq_false_2 (k2 = k1)) by congruence.
    reflexivity.
  - rewrite (bool_decide_eq_true_2 (k3 ∈ [k1; k2; k3]))
      by (do 2 apply list_elem_of_further; apply list_elem_of_here).
    rewrite (bool_decide_eq_true_2 (k3 = k3)) by reflexivity.
    rewrite (bool_decide_eq_false_2 (k3 = k2)) by congruence.
    rewrite (bool_decide_eq_false_2 (k3 = k1)) by congruence.
    reflexivity.
  - rewrite (bool_decide_eq_false_2 (key ∈ [k1; k2; k3])).
    + rewrite (bool_decide_eq_false_2 (key = k3)) by exact N3.
      rewrite (bool_decide_eq_false_2 (key = k2)) by exact N2.
      rewrite (bool_decide_eq_false_2 (key = k1)) by exact N1.
      reflexivity.
    + rewrite !elem_of_cons, elem_of_nil. tauto.
Qed.

Lemma migrationKey_not_cleaned userId : migrationKey userId ∉ keysToClean.
Proof.
  unfold keysToClean, migrationKey, MIGRATION_KEY.
  rewrite !elem_of_cons, elem_of_nil. simpl.
  intros [Hk|[Hk|[Hk|[]]]]; discriminate Hk.
Qed.

(** X29: (the source warns that the cleanup is to run only once every
    user has migrated.)  Once [cleanupOldRoutineData] has run, a user
    whose migration was still pending gets nothing: the migration copies
    no routine, reports no summary, and marks itself completed, so it
    will not run again; the cleanup and the migration leave the routine
    list of every user other than the legacy one as it was. *)
Theorem migrate_after_cleanup fresh userId (storage : Storage) :
  isMigrationCompleted userId storage = false ->
  let cleaned := cleanupOldRoutineData storage in
  let after := snd (migrateUserRoutines fresh userId cleaned) in
  fst (migrateUserRoutines fresh userId cleaned) = Returned None
  /\ isMigrationCompleted userId after = true
  /\ (forall user, user <> "default_user" ->
        getUserRoutines user after = getUserRoutines user storage)
  /\ getUserRoutines "default_user" after = Array [].
Proof.
  intros Hpending cleaned after.
  assert (Hsame : isMigrationCompleted userId cleaned = false).
  { unfold isMigrationCompleted, cleaned.
    rewrite cleanupOldRoutineData_lookup.
    rewrite bool_decide_eq_false_2 by apply migrationKey_not_cleaned.
    exact Hpending. }
  assert (Hold : cleaned !! oldKey = None \/ cleaned !! oldKey = Some (Text "")).
  { unfold cleaned. rewrite cleanupOldRoutineData_lookup.
    rewrite bool_decide_eq_true_2 by (apply list_elem_of_here).
    destruct (storage !! oldKey) as [[l|[|c t]]|]; auto. }
  assert (Hrun : migrateUserRoutines fresh userId cleaned
                 = (Returned None, markMigrationCompleted userId cleaned)).
  { unfold migrateUserRoutines. rewrite Hsame.
    destruct Hold as [-> | ->]; reflexivity. }
  unfold after. rewrite Hrun. cbn [fst snd].
  split; [reflexivity|]. split; [apply isMigrationCompleted_marked|].
  split.
  - intros user Hne. rewrite getUserRoutines_marked.
    unfold getUserRoutines, cleaned. rewrite cleanupOldRoutineData_lookup.
    rewrite bool_decide_eq_false_2; [reflexivity|].
    unfold keysToClean. rewrite !elem_of_cons, elem_of_nil.
    intros [Hk|[Hk|[Hk|[]]]].
    + apply Hne.
      exact (String.app_inj USER_ROUTINES user "default_user" Hk).
    + unfold USER_ROUTINES in Hk. simpl in Hk. discriminate Hk.
    + unfold USER_ROUTINES in Hk. simpl in Hk. discriminate Hk.
  - rewrite getUserRoutines_marked. unfold getUserRoutines.
    change (USER_ROUTINES +:+ "default_user") with oldKey.
    destruct Hold as [-> | ->]; reflexivity.
Qed.

(** ** What a migration copies *)

Lemma routinesToMigrate_copies fresh (existingNames : gset string) :
  forall oldRoutines i,
    let pending := filter (fun r => name r ∉ existingNames) oldRoutines in
    let added := routinesToMigrate fresh existingNames i oldRoutines in
    map name added = map name pending
    /\ map exercises added = map exercises pending
    /\ map originalId added = map (fun r => Some (id r)) pending.
Proof.
  induction oldRoutines as [|routine rest IH]; intros i; simpl.
  - repeat split.
  - destruct (IH (S i)) as (Hn & He & Ho).
    destruct (bool_decide (name routine ∈ existingNames)) eqn:Hd.
    + apply bool_decide_eq_true in Hd.
      rewrite filter_cons_False by (intros Hnot; exact (Hnot Hd)).
      repeat split; assumption.
    + apply bool_decide_eq_false in Hd.
      rewrite filter_cons_True by exact Hd. simpl.
      rewrite Hn, He, Ho. repeat split.
Qed.

(** X30: a pending migration that finds a legacy list reports what it
    did: [existing] is the number of routines the user had, [migrated]
    the number of legacy routines whose name the user did not have, and
    [total] their sum, which is the number of routines the user has
    afterwards.  The copies come after the user's own routines, in the
    order of the legacy list, and keep the name and the exercises and
    remember the legacy id as [originalId].  The legacy list itself
    stays in place. *)
Theorem migration_summary fresh userId (storage : Storage) oldRoutines :
  userId <> "default_user" ->
  isMigrationCompleted userId storage = false ->
  storage !! oldKey = Some (RoutinesText oldRoutines) ->
  (forall c s, storage !! newKey userId <> Some (Text (String c s))) ->
  let own := routinesOf (getUserRoutines userId storage) in
  let pending := filter (fun r => name r ∉ map name own) oldRoutines in
  let run := migrateUserRoutines fresh userId storage in
  fst run
  = Returned (Some (mkSummary (length pending) (length own)
                              (length own + length pending)))
  /\ length (routinesOf (getUserRoutines userId (snd run)))
     = (length own + length pending)%nat
  /\ (exists added,
        getUserRoutines userId (snd run) = Array (own ++ added)
        /\ map name added = map name pending
        /\ map exercises added = map exercises pending
        /\ map originalId added = map (fun r => Some (id r)) pending)
  /\ snd run !! oldKey = Some (RoutinesText oldRoutines).
Proof.
  intros Hother Hc Hold Hreadable own pending run.
  assert (Hkey : USER_ROUTINES +:+ userId = newKey userId) by reflexivity.
  pose proof (migrate_adds fresh userId storage oldRoutines Hc Hold Hreadable)
    as Hadds.
  fold own in Hadds. fold run in Hadds.
  set (names := list_to_set (map name own) : gset string) in *.
  set (toMigrate := routinesToMigrate fresh names 0 oldRoutines) in *.
  assert (Hpending : pending = filter (fun r => name r ∉ names) oldRoutines).
  { unfold pending. apply list_filter_iff. intros r. unfold names.
    rewrite elem_of_list_to_set. reflexivity. }
  destruct (routinesToMigrate_copies fresh names oldRoutines 0)
    as (Hn & He & Ho).
  fold toMigrate in Hn, He, Ho. rewrite <- Hpending in Hn, He, Ho.
  assert (Hlen : length toMigrate = length pending).
  { rewrite <- (length_map name toMigrate), Hn, length_map. reflexivity. }
  assert (Hrun : run
    = (Returned (Some (mkSummary (length toMigrate) (length own)
                                 (length own + length toMigrate))),
       markMigrationCompleted userId
         (if (0 <? length toMigrate)%nat
          then <[newKey userId := RoutinesText (own ++ toMigrate)]> storage
          else storage))).
  { unfold run, migrateUserRoutines. rewrite Hc, Hold.
    unfold toMigrate, names, own, getUserRoutines. rewrite Hkey.
    destruct (storage !! newKey userId) as [[l|[|c s]]|] eqn:Hnew;
      try reflexivity.
    exfalso. eapply Hreadable. reflexivity. }
  split; [rewrite Hrun, Hlen; reflexivity|].
  split; [rewrite Hadds; cbn [routinesOf];
          rewrite length_app, Hlen; reflexivity|].
  split; [exists toMigrate; repeat split; assumption|].
  rewrite Hrun. cbn [snd]. unfold markMigrationCompleted.
  rewrite lookup_insert_ne
    by (apply (migrationKey_not_newKey userId "default_user")).
  destruct (0 <? length toMigrate)%nat; [|exact Hold].
  rewrite lookup_insert_ne; [exact Hold|].
  intros Heq. apply Hother.
  exact (String.app_inj "user_routines_" userId "default_user" Heq).
Qed.

End RoutinesStore.

#[local] Existing Instance sampleParse.



Lemma migrate_after_cleanup_witness :
  let cleaned := cleanupOldRoutineData sampleStorage in
  cleaned !! oldKey = None
  /\ fst (migrateUserRoutines sampleFresh "u1" cleaned) = Returned None
  /\ getUserRoutines "u1" (snd (migrateUserRoutines sampleFresh "u1" cleaned))
     = Array [ownPush].
Proof.
  intros cleaned.
  destruct (migrate_after_cleanup sampleFresh "u1" sampleStorage)
    as (Hr & _ & Hu & _); [reflexivity|].
  split; [reflexivity|]. split; [exact Hr|].
  subst cleaned. rewrite (Hu "u1") by discriminate. reflexivity.
Defined.

Lemma migration_summary_witness :
  let run := migrateUserRoutines sampleFresh "u1" sampleStorage in
  fst run = Returned (Some (mkSummary 1 1 2))
  /\ map name (routinesOf (getUserRoutines "u1" (snd run))) = ["Push"; "Pull"]
  /\ snd run !! oldKey = Some (RoutinesText [legacyPush; legacyPull]).
Proof.
  intros run.
  destruct (migration_summary sampleFresh "u1" sampleStorage
              [legacyPush; legacyPull])
    as (Hr & _ & _ & Hold); try reflexivity; try discriminate.
  split; [exact Hr|]. split; [reflexivity|exact Hold].
Defined.

End RoutinesExtra.

(* ===================================================================== *)
(** * The further properties on the deterministic device                  *)
(* ===================================================================== *)

Module SimExtra.
Import Js ApiOptimization ExerciseApi Sim.

Lemma getAllExercises_fetch_witness :
  let raw := mkRawExercise 7 (Str "press banca") (Str "Pecho") (Str "Barra")
                     (Str "Intermedio") (Str "") in
  let st :=
    mkSys (mkDevice (mkWorld 1000 (Some (true, None))
                       [Thrown networkError; Returned (DataList [raw])])
                    ∅ [] [])
          (newDetector 1000) in
  fst (getAllExercises st) = Returned [pressBanca]
  /\ exists k,
       (1 <= k <= 3)%nat
       /\ requests (world (snd (getAllExercises st)))
          = replicate k (mkRequest "/exercises" []).
Proof.
  intros raw st. split; [reflexivity|].
  destruct (ExerciseApiExtra.getAllExercises_fetch st)
    as (k & Hk & Hr & _); [reflexivity|reflexivity|].
  exists k. split; [exact Hk|exact Hr].
Defined.

Lemma byMuscle_fetch_witness :
  let raw := mkRawExercise 7 (Str "press banca") (Str "Pecho") (Str "Barra")
                     (Str "Intermedio") (Str "") in
  let st :=
    mkSys (mkDevice (mkWorld 1000 (Some (true, None))
                       [Returned (DataList [raw])])
                    ∅ [] [])
          (newDetector 1000) in
  fst (getExercisesByMuscle "Pecho" st) = Returned [pressBanca]
  /\ requests (world (snd (getExercisesByMuscle "Pecho" st)))
     = [mkRequest "/exercises" [("muscle", "Pecho")]].
Proof.
  intros raw st. split; [reflexivity|].
  destruct (ExerciseApiExtra.byMuscle_fetch st "Pecho") as (Hr & _);
    [reflexivity|exact Hr].
Defined.

Lemma byEquipment_fetch_witness :
  let st := device 1000 false [] in
  fst (getExercisesByEquipment "Barra" st)
    = Thrown (newError
        "Error al cargar ejercicios por equipamiento: Sin conexión a internet. Usando datos guardados localmente.")
  /\ requests (world (snd (getExercisesByEquipment "Barra" st)))
     = [mkRequest "/exercises" [("equipment", "Barra")]].
Proof.
  intros st. split; [reflexivity|].
  destruct (ExerciseApiExtra.byEquipment_fetch st "Barra") as (Hr & _);
    [reflexivity|exact Hr].
Defined.


Lemma search_filters_catalogue_witness :
  let remo :=
    mapExerciseData
      (mkRawExercise 8 (Str "remo") (Str "Espalda") (Str "Barra")
                     (Str "Intermedio") (Str "")) in
  let plancha :=
    mapExerciseData
      (mkRawExercise 9 (Str "plancha") Missing (Str "") (Str "") Missing) in
  let st :=
    device 1000 true
      [("cached_exercises_all"%string, Entry [pressBanca; remo] 400)] in
  let st' :=
    device 1000 true
      [("cached_exercises_all"%string, Entry [pressBanca; plancha] 400)] in
  fst (searchExercises lower "press" st) = Returned [pressBanca]
  /\ background (world (snd (searchExercises lower "press" st)))
     = [mkTask "cached_exercises_all" FetchAllExercises]
  /\ fst (searchExercises lower "press" st')
     = Thrown (newError
         "Error al buscar ejercicios: Cannot read properties of undefined (reading 'toLowerCase')").
Proof.
  intros remo plancha st st'.
  destruct (ExerciseApiExtra.search_filters_catalogue lower "press"
              [pressBanca; remo] st)
    as (_ & Hb & Hr & _).
  { reflexivity. }
  { exists 400. split; [reflexivity|]. unfold defaultMaxAge. simpl. lia. }
  destruct (ExerciseApiExtra.search_filters_catalogue lower "press"
              [pressBanca; plancha] st')
    as (_ & _ & Hr' & _).
  { reflexivity. }
  { exists 400. split; [reflexivity|]. unfold defaultMaxAge. simpl. lia. }
  split; [exact (proj1 Hr)|]. split; [exact Hb|exact (proj1 Hr')].
Defined.

Lemma byId_outcome_witness :
  let st := device 1000 true [] in
  let r := getExerciseById readId "7" st in
  fst r
  = Thrown (newError "No se pudo obtener el ejercicio con ID 7: Network Error")
  /\ (length (requests (world (snd r))) <= 4)%nat.
Proof.
  intros st r.
  destruct (ExerciseApiExtra.byId_outcome readId "7" st)
    as (a & b & Ha & Hb & Hreq & _).
  split; [vm_compute; reflexivity|].
  unfold r. rewrite Hreq, !length_app, !length_replicate.
  change (length (requests (world st))) with 0%nat. lia.
Defined.

Lemma offline_stale_catalogue_dropped_witness :
  let st :=
    device 4000000 false
      [("cached_exercises_all"%string, Entry [pressBanca] 400)] in
  fst (getAllExercises st)
    = Thrown (newError
        "Sin conexión y no hay ejercicios guardados localmente")
  /\ asyncStorage (world (snd (getAllExercises st))) !! "cached_exercises_all"
     = None.
Proof.
  intros st.
  rewrite (ExerciseApiExtra.offline_stale_catalogue_dropped
             st [pressBanca] 400).
  - split; reflexivity.
  - reflexivity.
  - reflexivity.
  - unfold defaultMaxAge. simpl. lia.
Defined.

End SimExtra.
